(** * Truck dashboard (streamlit_app.py): classification, map composition,
      distance/fuel estimation and the exported table.

    A shallow embedding of [create_traffic_map], [calculate_distance],
    [initialize_google_maps], the loaders, and of the legend,
    fuel-estimation, chart and data-table fragments of [main].

    Conventions of the embedding.
    - Python [int] is [Z]; Python [float] is modelled by exact rationals [Q]
      (float64 rounding is not modelled); statements about thresholds are
      given with a tolerance, or for aggregates in a range, where rounding
      could matter.
    - A Python text is a [string] holding the bytes of its UTF-8 encoding.
    - A JSON object used as a dict is a [gmap string _]; [d[k]] raises
      [KeyError] on a missing key, [d.get(k, 0)] defaults.
    - A cell of the station table is a [Cell]: text, a number, or NaN.
    - Exceptions are values of [exn]; fallible code lives in [result].
    - The exported table is the text [to_csv] writes; reading it back is the
      tokenizer of [pd.read_csv].
    - The objects [create_traffic_map] works on (the list of site records it
      receives and the folium map it builds) live in a [Store] that is
      threaded through a state-and-exception monad [M]. *)

From Stdlib Require Import ZArith QArith Qround Qabs List Bool Ascii String Lia Lqa.
From Stdlib Require Import DecimalString DecimalPos DecimalZ.
From stdpp Require Import base option list gmap strings.

Import ListNotations.
Local Open Scope string_scope.
Local Open Scope Z_scope.

(** ** Python exceptions and fallible computations *)

Inductive exn : Type :=
  | KeyError (key : string)
  | IndexError
  | ZeroDivisionError
  | TypeError (msg : string)
  | ValueError (msg : string)
  | ServiceError (msg : string).

Inductive result (A : Type) : Type :=
  | Ok (a : A)
  | Raise (e : exn).
Arguments Ok {A} a.
Arguments Raise {A} e.

Module Res.
Definition bind {A B} (r : result A) (k : A -> result B) : result B :=
  match r with
  | Ok a => k a
  | Raise e => Raise e
  end.

Fixpoint mapM {A B} (f : A -> result B) (l : list A) : result (list B) :=
  match l with
  | [] => Ok []
  | x :: l' =>
      bind (f x) (fun y => bind (mapM f l') (fun ys => Ok (y :: ys)))
  end.

(** [sum(f(x) for x in l)]: the generator is consumed left to right and the
    first exception aborts the sum. *)
Fixpoint sumM {A} (f : A -> result Z) (l : list A) : result Z :=
  match l with
  | [] => Ok 0
  | x :: l' => bind (f x) (fun y => bind (sumM f l') (fun s => Ok (y + s)))
  end.
End Res.

Notation "x <-? r ; k" := (Res.bind r (fun x => k))
  (at level 100, r at next level, right associativity, only parsing).

(** ** Strings: [str.split()] and the class key *)

(** A Python text is held as the bytes of its UTF-8 encoding; the characters
    for which [str.isspace] holds take one, two or three bytes. *)

(** The one-byte ones: U+0009 to U+000D and U+001C to U+0020. *)
Definition isspace (c : ascii) : bool :=
  let n := N_of_ascii c in
  ((9 <=? n) && (n <=? 13) || (28 <=? n) && (n <=? 32))%N.

(** The two-byte ones: U+0085 and U+00A0. *)
Definition isspace2 (c1 c2 : ascii) : bool :=
  let n1 := N_of_ascii c1 in
  let n2 := N_of_ascii c2 in
  ((n1 =? 194) && ((n2 =? 133) || (n2 =? 160)))%N.

(** The three-byte ones: U+1680, U+2000 to U+200A, U+2028, U+2029, U+202F,
    U+205F and U+3000. *)
Definition isspace3 (c1 c2 c3 : ascii) : bool :=
  let n1 := N_of_ascii c1 in
  let n2 := N_of_ascii c2 in
  let n3 := N_of_ascii c3 in
  ((n1 =? 225) && (n2 =? 154) && (n3 =? 128)
   || (n1 =? 226) && (n2 =? 128)
      && ((128 <=? n3) && (n3 <=? 138) || (n3 =? 168) || (n3 =? 169) || (n3 =? 175))
   || (n1 =? 226) && (n2 =? 129) && (n3 =? 159)
   || (n1 =? 227) && (n2 =? 128) && (n3 =? 128))%N.

(** [scan s]: the bytes of [s], each whitespace character replaced by
    [None]. *)
Fixpoint scan (s : string) : list (option ascii) :=
  match s with
  | EmptyString => []
  | String c1 s1 =>
      if isspace c1 then None :: scan s1 else
      match s1 with
      | String c2 s2 =>
          if isspace2 c1 c2 then None :: scan s2 else
          match s2 with
          | String c3 s3 =>
              if isspace3 c1 c2 c3 then None :: scan s3 else Some c1 :: scan s1
          | EmptyString => Some c1 :: scan s1
          end
      | EmptyString => Some c1 :: scan s1
      end
  end.

(** The word collected so far, if any; [cur] holds its bytes, reversed. *)
Definition word_of (cur : list ascii) : list string :=
  match cur with
  | [] => []
  | _ => [string_of_list_ascii (rev cur)]
  end.

(** Empty words are dropped, as [str.split()] without a separator does. *)
Fixpoint split_aux (cur : list ascii) (l : list (option ascii)) : list string :=
  match l with
  | [] => word_of cur
  | None :: l' => (word_of cur ++ split_aux [] l')%list
  | Some c :: l' => split_aux (c :: cur) l'
  end.

(** [s.split()] *)
Definition split (s : string) : list string := split_aux [] (scan s).

(** A byte that continues a character of a UTF-8 text. *)
Definition continuation (c : ascii) : bool :=
  let n := N_of_ascii c in ((128 <=? n) && (n <=? 191))%N.

(** [s[:n]]: the first [n] characters of a text, a character being a byte
    and the continuation bytes after it. *)
Fixpoint take_chars (n : nat) (s : string) : string :=
  match s with
  | EmptyString => EmptyString
  | String c s' =>
      if continuation c then String c (take_chars n s')
      else match n with
           | O => EmptyString
           | S n' => String c (take_chars n' s')
           end
  end.

(** [l[-1]] *)
Definition last_item {A} (l : list A) : result A :=
  match List.rev l with
  | [] => Raise IndexError
  | x :: _ => Ok x
  end.

(** [f"Class{class_name.split()[-1]}"] *)
Definition class_key (class_name : string) : result string :=
  w <-? last_item (split class_name);
  Ok ("Class" ++ w).

(** ** Site records *)

Record Location := { lat : Q; long : Q }.

Record Site := {
  siteNumber : string;
  roadname : string;
  locationDesc : string;
  roadDir : string;
  location : Location
}.

(** One entry of [data['statistics']]: the nested site descriptor under
    ['site'] and the remaining members of the JSON object, the class counts. *)
Record Item := {
  site : Site;
  fields : gmap string Z
}.

(** [item[key]] *)
Definition getitem (item : Item) (key : string) : result Z :=
  match fields item !! key with
  | Some v => Ok v
  | None => Raise (KeyError key)
  end.

(** [d.get(key, 0)] *)
Definition get0 (d : Item) (key : string) : Z :=
  default 0 (fields d !! key).

(** [truthy l]: Python truthiness of a list. *)
Definition truthy {A} (l : list A) : bool :=
  match l with [] => false | _ => true end.

(** [selected_classes] is [None] by default; [None] and [[]] are both falsy. *)
Definition selected (selected_classes : option (list string)) : list string :=
  default [] selected_classes.

(** [[f"Class{...}" for class_name in selected_classes] if selected_classes
    else []] *)
Definition class_keys (selected_classes : option (list string))
  : result (list string) :=
  if truthy (selected selected_classes)
  then Res.mapM class_key (selected selected_classes)
  else Ok [].

(** [item['Class3'] + item['Class4'] + ... + item['Class10']], evaluated left
    to right. *)
Definition total_traffic (item : Item) : result Z :=
  c3 <-? getitem item "Class3";
  c4 <-? getitem item "Class4";
  c5 <-? getitem item "Class5";
  c6 <-? getitem item "Class6";
  c7 <-? getitem item "Class7";
  c8 <-? getitem item "Class8";
  c9 <-? getitem item "Class9";
  c10 <-? getitem item "Class10";
  Ok (c3 + c4 + c5 + c6 + c7 + c8 + c9 + c10).

(** [sum(item[key] for key in class_keys)] *)
Definition combined_count (item : Item) (keys : list string) : result Z :=
  Res.sumM (getitem item) keys.

(** [sum(d.get(key, 0) for key in class_keys)] *)
Definition combined_count_get (d : Item) (keys : list string) : Z :=
  foldr (fun key s => get0 d key + s) 0 keys.

(** ** [np.quantile] on a list of integers (default method, linear) *)

Fixpoint insert_sorted (x : Z) (l : list Z) : list Z :=
  match l with
  | [] => [x]
  | y :: l' => if x <=? y then x :: l else y :: insert_sorted x l'
  end.

(** numpy only partitions the array around the two indices it reads; the
    values found there are those of the fully sorted array. *)
Definition np_sort (l : list Z) : list Z := foldr insert_sorted [] l.

Definition Qgt_bool (a b : Q) : bool := negb (Qle_bool a b).

(** [np.quantile(a, q)] for a non-empty list [a] of ints and [0 <= q <= 1]:
    the virtual index is [q * (n - 1)]; the result interpolates linearly
    between the two neighbouring order statistics, and is the last one when
    the virtual index reaches [n - 1]. The arithmetic is exact here; numpy
    rounds each step to float64, so its result can differ in the last digits
    (36.400000000000006 for 36.4), and by more for counts near 2^53. *)
Definition np_quantile (a : list Z) (q : Q) : Q :=
  let arr := np_sort a in
  let n := Z.of_nat (length arr) in
  let virtual_index := (q * inject_Z (n - 1))%Q in
  if Qle_bool (inject_Z (n - 1)) virtual_index then
    inject_Z (nth (Z.to_nat (n - 1)) arr 0)
  else
    let previous_index := Qfloor virtual_index in
    let previous := nth (Z.to_nat previous_index) arr 0 in
    let next := nth (Z.to_nat (previous_index + 1)) arr 0 in
    let gamma := (virtual_index - inject_Z previous_index)%Q in
    (inject_Z previous + inject_Z (next - previous) * gamma)%Q.

(** The two cut points, as the pair
    [(top_third_threshold, middle_third_threshold)]. *)
Definition thresholds_of (counts : list Z) : Q * Q :=
  if truthy counts
  then (np_quantile counts (67 # 100), np_quantile counts (33 # 100))
  else (0%Q, 0%Q).

Definition thresholds (data : list Item)
    (selected_classes : option (list string)) (keys : list string)
  : result (Q * Q) :=
  if truthy (selected selected_classes) then
    let all_combined_counts := map (fun d => combined_count_get d keys) data in
    Ok (thresholds_of all_combined_counts)
  else
    all_totals <-? Res.mapM total_traffic data;
    Ok (thresholds_of all_totals).

(** ** The station table *)

(** A cell of the station table as [pd.read_csv] hands it over: text, a
    number, or NaN for a cell the file leaves empty. *)
Inductive Cell :=
  | Text (s : string)
  | Number (x : Q)
  | NaN.

(** A row of the hydrogen-station table, which has the six columns the
    code reads with [station[col]]. The coordinates are numbers or NaN
    ([None]); the three capacity columns are optional
    ([station.get(col, 'N/A')], [None] when the table has no such column). *)
Record Station := {
  Lat : option Q;
  Long : option Q;
  name : Cell;
  city_state : Cell;
  operator : Cell;
  Start : Cell;
  storage_capacity_kg : option Cell;
  dispensing_daily_capacity : option Cell;
  usage_case : option Cell
}.

(** ** The folium objects *)

Inductive Color := red | orange | green | blue.

(** The HTML of a popup and the text of a tooltip are not rendered: each is
    represented by the values the f-string interpolates, in order. *)
Inductive Popup :=
  | TrafficPopup (s : Site) (total : Z)
      (combined : option (list string * Z)) (class_lines : list (string * Z))
  | StationPopup (name city_state operator start_year : Cell)
      (storage_capacity_kg dispensing_daily_capacity : Cell) (usage : string).

Inductive Tooltip :=
  | TooltipCombined (roadname : string) (classes : list string) (count : Z)
  | TooltipTotal (roadname : string) (count : Z)
  | TooltipStation (name city_state : Cell).

Record Marker := {
  marker_location : Q * Q;
  marker_popup : Popup;
  marker_tooltip : Tooltip;
  icon_color : Color;
  icon_name : string;
  icon_prefix : string
}.

(** A GeoJSON document, a feature collection [folium.GeoJson] accepts, is
    an opaque JSON object, passed through to the renderer; only its
    truthiness (non-empty) is inspected. *)
Definition GeoJsonDoc := list (string * string).

Record Style := { style_color : Color; weight : Z; opacity : Q }.

Inductive Child :=
  | ChildMarker (mk : Marker)
  | ChildGeoJson (doc : GeoJsonDoc) (style : Style).

Record FoliumMap := {
  map_location : Q * Q;
  zoom_start : Z;
  tiles : string;
  children : list Child
}.

(** ** The store and the monad of [create_traffic_map] *)

(** [st_data] is the list object the caller passes as [data] (the function
    receives a reference to it, not a copy); [st_maps] holds the folium maps
    allocated so far, a map being referred to by its index. *)
Record Store := {
  st_data : list Item;
  st_maps : list FoliumMap
}.

Definition M (A : Type) : Type := Store -> Store * result A.

Definition ret {A} (a : A) : M A := fun s => (s, Ok a).

Definition bind {A B} (c : M A) (k : A -> M B) : M B :=
  fun s =>
    match c s with
    | (s', Ok a) => k a s'
    | (s', Raise e) => (s', Raise e)
    end.

Notation "x <- c ;; k" := (bind c (fun x => k))
  (at level 100, c at next level, right associativity, only parsing).
Notation "c ;; k" := (bind c (fun _ => k))
  (at level 100, right associativity, only parsing).

(** Evaluation of an expression that only reads local values. *)
Definition lift {A} (r : result A) : M A := fun s => (s, r).

(** Reading the list [data] refers to. *)
Definition read_data : M (list Item) := fun s => (s, Ok (st_data s)).

(** [folium.Map(location=..., zoom_start=..., tiles=...)] allocates a map
    without children. *)
Definition folium_Map (loc : Q * Q) (zoom : Z) (t : string) : M nat :=
  fun s =>
    ({| st_data := st_data s;
        st_maps := st_maps s ++ [{| map_location := loc; zoom_start := zoom;
                                    tiles := t; children := [] |}] |},
     Ok (length (st_maps s))).

Definition add_child (c : Child) (fm : FoliumMap) : FoliumMap :=
  {| map_location := map_location fm; zoom_start := zoom_start fm;
     tiles := tiles fm; children := children fm ++ [c] |}.

(** [child.add_to(m)] *)
Definition add_to (c : Child) (m : nat) : M unit :=
  fun s =>
    ({| st_data := st_data s; st_maps := alter (add_child c) m (st_maps s) |},
     Ok tt).

(** [for x in l: body] *)
Fixpoint for_each {A} (l : list A) (body : A -> M unit) : M unit :=
  match l with
  | [] => ret tt
  | x :: l' => body x ;; for_each l' body
  end.

(** [if cond: body] *)
Definition when (cond : bool) (body : M unit) : M unit :=
  if cond then body else ret tt.

(** ** [create_traffic_map] *)

(** [a / b] on floats *)
Definition truediv (a b : Q) : result Q :=
  if Qeq_bool b 0 then Raise ZeroDivisionError else Ok (a / b)%Q.

Definition Qsum (l : list Q) : Q := foldl Qplus 0%Q l.

Definition len {A} (l : list A) : Q := inject_Z (Z.of_nat (length l)).

(** The arguments of [create_traffic_map] other than [data], which is the
    list held by the store. *)
Record MapArgs := {
  hydrogen_stations : option (list Station);
  railway_data : option GeoJsonDoc;
  road_data : option GeoJsonDoc;
  secondary_data : option GeoJsonDoc;
  show_traffic : bool;
  show_hydrogen : bool;
  show_railway : bool;
  show_roads : bool;
  show_secondary : bool;
  selected_classes : option (list string)
}.

(** The defaults of the signature. *)
Definition default_args : MapArgs :=
  {| hydrogen_stations := None; railway_data := None; road_data := None;
     secondary_data := None; show_traffic := true; show_hydrogen := true;
     show_railway := true; show_roads := true; show_secondary := true;
     selected_classes := None |}.

(** The [if / elif / else] that picks the marker colour. *)
Definition tier_color (count : Z) (top_third_threshold middle_third_threshold : Q)
  : Color :=
  if Qgt_bool (inject_Z count) top_third_threshold then red
  else if Qgt_bool (inject_Z count) middle_third_threshold then orange
  else green.

(** The popup of a site marker. *)
Definition site_popup (selected_classes : option (list string))
    (keys : list string) (item : Item) : result Popup :=
  if truthy (selected selected_classes) then
    combined_count <-? combined_count item keys;
    class_lines <-? Res.mapM (fun class_name =>
                      class_key <-? class_key class_name;
                      v <-? getitem item class_key;
                      Ok (class_name, v)) (selected selected_classes);
    total <-? total_traffic item;
    Ok (TrafficPopup (site item) total
          (Some (selected selected_classes, combined_count)) class_lines)
  else
    total <-? total_traffic item;
    c3 <-? getitem item "Class3";
    c4 <-? getitem item "Class4";
    c5 <-? getitem item "Class5";
    c6 <-? getitem item "Class6";
    c7 <-? getitem item "Class7";
    c8 <-? getitem item "Class8";
    c9 <-? getitem item "Class9";
    c10 <-? getitem item "Class10";
    Ok (TrafficPopup (site item) total None
          [("Class 3", c3); ("Class 4", c4); ("Class 5", c5); ("Class 6", c6);
           ("Class 7", c7); ("Class 8", c8); ("Class 9", c9); ("Class 10", c10)]).

(** The aggregate a site is coloured by. *)
Definition site_aggregate (selected_classes : option (list string))
    (keys : list string) (item : Item) : result Z :=
  if truthy (selected selected_classes)
  then combined_count item keys
  else total_traffic item.

(** Colour and tooltip of a site marker. *)
Definition site_color_tooltip (selected_classes : option (list string))
    (keys : list string) (top_third_threshold middle_third_threshold : Q)
    (item : Item) : result (Color * Tooltip) :=
  if truthy (selected selected_classes) then
    combined_count <-? combined_count item keys;
    let color := tier_color combined_count top_third_threshold middle_third_threshold in
    Ok (color, TooltipCombined (roadname (site item))
                 (selected selected_classes) combined_count)
  else
    total_traffic <-? total_traffic item;
    let color := tier_color total_traffic top_third_threshold middle_third_threshold in
    Ok (color, TooltipTotal (roadname (site item)) total_traffic).

(** The body of the loop over the sites, up to the marker it adds. *)
Definition site_marker (selected_classes : option (list string))
    (keys : list string) (top_third_threshold middle_third_threshold : Q)
    (item : Item) : result Marker :=
  let lat := lat (location (site item)) in
  let lon := long (location (site item)) in
  popup_content <-? site_popup selected_classes keys item;
  ct <-? site_color_tooltip selected_classes keys
           top_third_threshold middle_third_threshold item;
  Ok {| marker_location := (lat, lon); marker_popup := popup_content;
        marker_tooltip := snd ct; icon_color := fst ct;
        icon_name := "truck"; icon_prefix := "fa" |}.

(** [value[:100]]: only text can be sliced; a float (a number, or the NaN
    of an empty cell) is not subscriptable. *)
Definition slice100 (value : Cell) : result string :=
  match value with
  | Text s => Ok (take_chars 100 s)
  | Number _ | NaN => Raise (TypeError "'float' object is not subscriptable")
  end.

(** The check [folium.Marker] makes on its location. *)
Definition validate_location (lat lon : option Q) : result (Q * Q) :=
  match lat, lon with
  | Some lat, Some lon => Ok (lat, lon)
  | _, _ => Raise (ValueError "Location values cannot contain NaNs.")
  end.

(** The body of the loop over the stations, up to the marker it adds: the
    popup text is built first, the marker after it. *)
Definition station_marker (station : Station) : result Marker :=
  usage <-? slice100 (default (Text "N/A") (usage_case station));
  location <-? validate_location (Lat station) (Long station);
  Ok {| marker_location := location;
        marker_popup :=
          StationPopup (name station) (city_state station) (operator station)
            (Start station)
            (default (Text "N/A") (storage_capacity_kg station))
            (default (Text "N/A") (dispensing_daily_capacity station))
            usage;
        marker_tooltip := TooltipStation (name station) (city_state station);
        icon_color := blue; icon_name := "gas-pump"; icon_prefix := "fa" |}.

(** [hydrogen_stations is not None and not hydrogen_stations.empty] *)
Definition stations_present (hs : option (list Station)) : bool :=
  match hs with
  | Some (_ :: _) => true
  | _ => false
  end.

(** Truthiness of a route document: [None] and the empty object are falsy. *)
Definition doc_truthy (d : option GeoJsonDoc) : bool :=
  truthy (default [] d).

Definition add_route (show : bool) (d : option GeoJsonDoc) (st : Style) (m : nat)
  : M unit :=
  when (show && doc_truthy d) (add_to (ChildGeoJson (default [] d) st) m).

Definition create_traffic_map (a : MapArgs) : M (option nat) :=
  data <- read_data ;;
  if negb (truthy data) then ret None else
  let lats := map (fun item => lat (location (site item))) data in
  let lons := map (fun item => long (location (site item))) data in
  center_lat <- lift (truediv (Qsum lats) (len lats)) ;;
  center_lon <- lift (truediv (Qsum lons) (len lons)) ;;
  m <- folium_Map (center_lat, center_lon) 8 "OpenStreetMap" ;;
  class_keys <- lift (class_keys (selected_classes a)) ;;
  th <- lift (thresholds data (selected_classes a) class_keys) ;;
  let top_third_threshold := fst th in
  let middle_third_threshold := snd th in
  when (show_traffic a)
    (for_each data (fun item =>
       mk <- lift (site_marker (selected_classes a) class_keys
                     top_third_threshold middle_third_threshold item) ;;
       add_to (ChildMarker mk) m)) ;;
  when (show_hydrogen a && stations_present (hydrogen_stations a))
    (for_each (default [] (hydrogen_stations a)) (fun station =>
       mk <- lift (station_marker station) ;;
       add_to (ChildMarker mk) m)) ;;
  add_route (show_railway a) (railway_data a)
    {| style_color := red; weight := 3; opacity := 7 # 10 |} m ;;
  add_route (show_roads a) (road_data a)
    {| style_color := blue; weight := 4; opacity := 8 # 10 |} m ;;
  add_route (show_secondary a) (secondary_data a)
    {| style_color := green; weight := 2; opacity := 6 # 10 |} m ;;
  ret (Some m).

(** ** [calculate_distance] *)

(** The responses of the Google Maps client, as far as the code reads
    them. *)
Record GeocodeResult := { geo_lat : Q; geo_lng : Q }.

Record TextValue := { text : string; value : Z }.

(** An element of a distance-matrix row; ['distance'] and ['duration'] are
    members the service leaves out when the status is not OK. *)
Record Element := {
  status : string;
  el_distance : option TextValue;
  el_duration : option TextValue
}.

(** [result['rows'][i]['elements'][j]] *)
Definition DistanceMatrix := list (list Element).

(** The client object: its two operations, either of which may raise. *)
Record Client := {
  geocode : string -> result (list GeocodeResult);
  distance_matrix : Q * Q -> Q * Q -> result DistanceMatrix
}.

(** The dict [calculate_distance] returns. *)
Record DistanceResult := {
  distance : string;
  duration : string;
  distance_value : Z;
  destination_coords : Q * Q
}.

(** [l[0]] *)
Definition first_item {A} (l : list A) : result A :=
  match l with
  | [] => Raise IndexError
  | x :: _ => Ok x
  end.

(** [d[key]] for an optional member *)
Definition member {A} (key : string) (o : option A) : result A :=
  match o with
  | Some v => Ok v
  | None => Raise (KeyError key)
  end.

(** The body of the [try] block; [None] is the function's [return None]. *)
Definition calculate_distance_body (gmaps : Client)
    (origin_lat origin_lon : Q) (destination_address : string)
  : result (option DistanceResult) :=
  geocode_result <-? geocode gmaps destination_address;
  if negb (truthy geocode_result) then Ok None else
  g <-? first_item geocode_result;
  let dest_lat := geo_lat g in
  let dest_lon := geo_lng g in
  result <-? distance_matrix gmaps (origin_lat, origin_lon) (dest_lat, dest_lon);
  row <-? first_item result;
  el <-? first_item row;
  if String.eqb (status el) "OK" then
    d <-? member "distance" (el_distance el);
    t <-? member "duration" (el_duration el);
    Ok (Some {| distance := text d; duration := text t;
                distance_value := value d;
                destination_coords := (dest_lat, dest_lon) |})
  else Ok None.

(** The line break of a Python string literal. *)
Definition nl : string := String "010" EmptyString.

(** [str(e)] *)
Definition str_exn (e : exn) : string :=
  match e with
  | KeyError key => "'" ++ key ++ "'"
  | IndexError => "list index out of range"
  | ZeroDivisionError => "division by zero"
  | TypeError msg => msg
  | ValueError msg => msg
  | ServiceError msg => msg
  end.

(** What the page shows. A metric keeps the number it formats. *)
Inductive Widget :=
  | StSuccess (msg : string)
  | StError (msg : string)
  | StWarning (msg : string)
  | StInfo (msg : string)
  | StMetric (label value : string)
  | StMetricLitres (label : string) (litres : Q)
  | StMetricKg (label : string) (kg : Q).

(** [calculate_distance] returns the widgets it shows ([st.error] in the
    handler) and its value. *)
Definition calculate_distance (gmaps : option Client)
    (origin_lat origin_lon : Q) (destination_address : string)
  : list Widget * option DistanceResult :=
  match gmaps with
  | None => ([], None)
  | Some client =>
      if String.eqb destination_address "" then ([], None) else
      match calculate_distance_body client origin_lat origin_lon
              destination_address with
      | Ok r => ([], r)
      | Raise e => ([StError ("Error calculating distance: " ++ str_exn e)], None)
      end
  end.

(** ** Fuel estimation (the handler of the button in [main]) *)

(** The dict [fuel_consumption], litres per 100 km, in insertion order. *)
Definition fuel_consumption : list (string * Q) :=
  [ ("Class 4 (Medium Rigid)", 1245859 # 100000);
    ("Class 5 (Heavy Rigid)", 2322869 # 100000);
    ("Class 7 (Arctic 4 Axle)", 2724712 # 100000);
    ("Class 8 (Artic 5 Axle)", 3044964 # 100000);
    ("Class 9 (Artic 6 Axle)", 3814329 # 100000);
    ("Class 9 (Rigid + 5 Axle Dog)", 3814329 # 100000);
    ("Class 10 (B-Double)", 4148179 # 100000) ]%Q.

Fixpoint assoc {A} (key : string) (d : list (string * A)) : option A :=
  match d with
  | [] => None
  | (k, v) :: d' => if String.eqb key k then Some v else assoc key d'
  end.

(** [fuel_consumption[truck_class]] *)
Definition consumption_rate (truck_class : string) : result Q :=
  member truck_class (assoc truck_class fuel_consumption).

(** [distance_km = distance_value / 1000;
     fuel_needed = (distance_km / 100) * fuel_consumption[truck_class]] *)
Definition fuel_needed (distance_value : Z) (truck_class : string) : result Q :=
  let distance_km := (inject_Z distance_value / 1000)%Q in
  rate <-? consumption_rate truck_class;
  Ok ((distance_km / 100) * rate)%Q.

(** [hydrogen_use = (fuel_needed * 45)/120] *)
Definition hydrogen_use (fuel_needed : Q) : Q := ((fuel_needed * 45) / 120)%Q.

(** [data[i]] for the index picked in the selectbox *)
Definition index {A} (l : list A) (i : nat) : result A :=
  match l !! i with
  | Some x => Ok x
  | None => Raise IndexError
  end.

Definition site_option (item : Item) : string :=
  roadname (site item) ++ " - " ++ locationDesc (site item).

(** The body of [if st.button("Calculate Distance", ...)]. *)
Definition on_calculate (gmaps : option Client) (data : list Item)
    (selected_site_index : nat) (destination truck_class : string)
  : result (list Widget) :=
  if negb (String.eqb destination "") && bool_decide (is_Some gmaps) then
    selected_site <-? index data selected_site_index;
    let site_lat := lat (location (site selected_site)) in
    let site_lon := long (location (site selected_site)) in
    let '(shown, distance_result) :=
      calculate_distance gmaps site_lat site_lon destination in
    match distance_result with
    | Some r =>
        fuel_needed <-? fuel_needed (distance_value r) truck_class;
        let hydrogen_use := hydrogen_use fuel_needed in
        Ok (shown ++
            [ StSuccess "Distance calculated successfully!";
              StMetric "Distance" (distance r);
              StMetric "Driving Time" (duration r);
              StMetricLitres "Estimated Fuel" fuel_needed;
              StMetricKg "Hydrogen Usage" hydrogen_use;
              StInfo ("**Route Details:**" ++ nl
                      ++ "- **From:** " ++ site_option selected_site ++ nl
                      ++ "- **To:** " ++ destination ++ nl
                      ++ "- **Truck Class:** " ++ truck_class) ])%list
    | None =>
        Ok (shown ++
            [ StError "Failed to calculate distance. Please check your destination address." ])%list
    end
  else if String.eqb destination "" then
    Ok [ StWarning "Please enter a destination address." ]
  else if negb (bool_decide (is_Some gmaps)) then
    Ok [ StError "Google Maps API is not available. Please check your API key." ]
  else Ok [].

(** ** The data table of [main] *)

Record Row := {
  Site_Number : string;
  Road_Name : string;
  Location_ : string;
  Total_Vehicles : Z;
  Medium_Trucks : Z;
  Heavy_Trucks : Z;
  Heavy_Truck_pct : Q
}.

(** [round(x)], half to even *)
Definition round_half_even (x : Q) : Z :=
  let f := Qfloor x in
  let r := (x - inject_Z f)%Q in
  match (r ?= 1 # 2)%Q with
  | Lt => f
  | Gt => f + 1
  | Eq => if Z.even f then f else f + 1
  end.

(** [round(x, 2)], on the exact value; a quotient that lies exactly between
    two hundredths need not do so once rounded to float64, and is then
    rounded by the code to the nearer one. *)
Definition round2 (x : Q) : Q :=
  (inject_Z (round_half_even (x * 100)) / 100)%Q.

(** [item['Class3'] + item['Class4'] + item['Class5']] *)
Definition medium_trucks (item : Item) : result Z :=
  c3 <-? getitem item "Class3";
  c4 <-? getitem item "Class4";
  c5 <-? getitem item "Class5";
  Ok (c3 + c4 + c5).

(** [item['Class6'] + ... + item['Class10']] *)
Definition heavy_trucks (item : Item) : result Z :=
  c6 <-? getitem item "Class6";
  c7 <-? getitem item "Class7";
  c8 <-? getitem item "Class8";
  c9 <-? getitem item "Class9";
  c10 <-? getitem item "Class10";
  Ok (c6 + c7 + c8 + c9 + c10).

(** [round(heavy / total * 100, 2) if total > 0 else 0]: the condition is
    evaluated first, the division only when it holds. *)
Definition heavy_truck_pct (item : Item) : result Q :=
  cond <-? total_traffic item;
  if 0 <? cond then
    heavy <-? heavy_trucks item;
    total <-? total_traffic item;
    ratio <-? truediv (inject_Z heavy) (inject_Z total);
    Ok (round2 (ratio * 100))
  else Ok 0%Q.

Definition display_row (item : Item) : result Row :=
  total <-? total_traffic item;
  medium <-? medium_trucks item;
  heavy <-? heavy_trucks item;
  pct <-? heavy_truck_pct item;
  Ok {| Site_Number := siteNumber (site item);
        Road_Name := roadname (site item);
        Location_ := locationDesc (site item);
        Total_Vehicles := total;
        Medium_Trucks := medium;
        Heavy_Trucks := heavy;
        Heavy_Truck_pct := pct |}.

(** [display_data], built by the loop over [filtered_data]. *)
Definition display_data (filtered_data : list Item) : result (list Row) :=
  Res.mapM display_row filtered_data.

(** [if filtered_data: ...]: no table when there is no site. *)
Definition data_table (filtered_data : list Item) : result (option (list Row)) :=
  if truthy filtered_data
  then rows <-? display_data filtered_data; Ok (Some rows)
  else Ok None.





(** [sep.join(l)] *)
Fixpoint join (sep : string) (l : list string) : string :=
  match l with
  | [] => ""
  | [x] => x
  | x :: l' => x ++ sep ++ join sep l'
  end.

(** ** The export: [df_display.to_csv(index=False)] *)

(** pandas writes the frame with Python's [csv] writer, on the defaults:
    comma as delimiter, double quote as quote character, doubled quotes,
    [csv.QUOTE_MINIMAL]. Neither library is part of the repository; the
    definitions follow what the two do on these defaults. *)









(** ** Reading the export back: the tokenizer of [pd.read_csv] *)












(** ** The sidebar of [main] *)

(** The options of [st.sidebar.multiselect] in [main]. *)
Definition class_options : list string :=
  ["Class 3"; "Class 4"; "Class 5"; "Class 6"; "Class 7"; "Class 8";
   "Class 9"; "Class 10"].

(** * Definitions used to state the properties *)

(** ** Order statistics *)

(** [ascending l]: every entry is below the entries to its right. *)
Fixpoint ascending (l : list Z) : Prop :=
  match l with
  | [] => True
  | x :: l' => Forall (Z.le x) l' /\ ascending l'
  end.

(** The interpolation on an ascending array [arr] with [n] entries, at a
    virtual index [v]. *)
Definition interpolate (arr : list Z) (v : Q) : Q :=
  let n := Z.of_nat (length arr) in
  if Qle_bool (inject_Z (n - 1)) v then
    inject_Z (nth (Z.to_nat (n - 1)) arr 0)
  else
    let j := Qfloor v in
    let previous := nth (Z.to_nat j) arr 0 in
    let next := nth (Z.to_nat (j + 1)) arr 0 in
    (inject_Z previous + inject_Z (next - previous) * (v - inject_Z j))%Q.

(** ** The data model of the specification *)

(** The eight truck classes of the data model. *)
Inductive TruckClass := C3 | C4 | C5 | C6 | C7 | C8 | C9 | C10.

(** The label of a class in the multiselect of [main]. *)
Definition label (c : TruckClass) : string :=
  match c with
  | C3 => "Class 3" | C4 => "Class 4" | C5 => "Class 5" | C6 => "Class 6"
  | C7 => "Class 7" | C8 => "Class 8" | C9 => "Class 9" | C10 => "Class 10"
  end.

(** The member of a site record that holds the count of a class. *)
Definition field (c : TruckClass) : string :=
  match c with
  | C3 => "Class3" | C4 => "Class4" | C5 => "Class5" | C6 => "Class6"
  | C7 => "Class7" | C8 => "Class8" | C9 => "Class9" | C10 => "Class10"
  end.

(** A selection the sidebar can produce. *)
Definition valid_selection (selected_classes : option (list string)) : Prop :=
  Forall (fun c => In c class_options) (selected selected_classes).

(** A site record carries all eight counts. *)
Definition has_counts (item : Item) : Prop :=
  forall c : TruckClass, is_Some (fields item !! field c).

Definition count (item : Item) (c : TruckClass) : Z := get0 item (field c).

Definition sum_counts (item : Item) (cs : list TruckClass) : Z :=
  foldr (fun c s => count item c + s) 0 cs.

(** The aggregate of the specification: the sum of the site's counts over
    the selected classes, or over all eight classes when none is selected. *)
Definition spec_aggregate (item : Item) (selection : list TruckClass) : Z :=
  match selection with
  | [] => count item C3 + count item C4 + count item C5 + count item C6
          + count item C7 + count item C8 + count item C9 + count item C10
  | _ => sum_counts item selection
  end.

(** The three tiers of the specification, and the colour that shows each. *)
Inductive Tier := low | mid | high.

Definition tier_of (c : Color) : option Tier :=
  match c with
  | green => Some low
  | orange => Some mid
  | red => Some high
  | blue => None
  end.

(** ** What a run builds, and what it leaves alone *)

(** [collect f l]: the results of [f] on the elements of [l] up to the first
    one that raises, and that exception. *)
Fixpoint collect {A B} (f : A -> result B) (l : list A) : list B * option exn :=
  match l with
  | [] => ([], None)
  | x :: l' =>
      match f x with
      | Raise e => ([], Some e)
      | Ok y => (y :: fst (collect f l'), snd (collect f l'))
      end
  end.

(** The rows the station section loops over: those of the table when the
    layer is shown and the table is there and not empty. *)
Definition station_rows (a : MapArgs) : list Station :=
  if show_hydrogen a && stations_present (hydrogen_stations a)
  then default [] (hydrogen_stations a)
  else [].

(** A station row whose marker can be built: its usage cell, when the table
    has the column, holds text, and both coordinates are numbers. *)
Definition renders (station : Station) : Prop :=
  (usage_case station = None \/ exists s, usage_case station = Some (Text s))
  /\ is_Some (Lat station) /\ is_Some (Long station).

(** The markers the station section adds, a row's marker being added before
    the next row is looked at, and the exception the section ends with, if
    any. *)
Definition station_markers (a : MapArgs) : list Marker :=
  fst (collect station_marker (station_rows a)).

Definition overlay_outcome (a : MapArgs) : option exn :=
  snd (collect station_marker (station_rows a)).

Definition route_children (show : bool) (d : option GeoJsonDoc) (st : Style)
  : list Child :=
  if show && doc_truthy d then [ChildGeoJson (default [] d) st] else [].

(** The layers the three route sections add, in order. *)
Definition route_layers (a : MapArgs) : list Child :=
  route_children (show_railway a) (railway_data a)
    {| style_color := red; weight := 3; opacity := 7 # 10 |}
  ++ route_children (show_roads a) (road_data a)
       {| style_color := blue; weight := 4; opacity := 8 # 10 |}
  ++ route_children (show_secondary a) (secondary_data a)
       {| style_color := green; weight := 2; opacity := 6 # 10 |}.

(** The children the station and route sections add, in order: the route
    sections are reached only when no station row raises. *)
Definition overlay_children (a : MapArgs) : list Child :=
  map ChildMarker (station_markers a)
  ++ match overlay_outcome a with
     | None => route_layers a
     | Some _ => []
     end.

Definition add_children (cs : list Child) (fm : FoliumMap) : FoliumMap :=
  {| map_location := map_location fm; zoom_start := zoom_start fm;
     tiles := tiles fm; children := children fm ++ cs |}.

(** The centre of the map: the mean of the coordinates. *)
Definition center (data : list Item) : Q * Q :=
  ((Qsum (map (fun item => lat (location (site item))) data)
    / len (map (fun item => lat (location (site item))) data))%Q,
   (Qsum (map (fun item => long (location (site item))) data)
    / len (map (fun item => long (location (site item))) data))%Q).

(** A computation that leaves the list of site records as it found it,
    whether it returns or raises. *)
Definition preserves_data {A} (c : M A) : Prop :=
  forall s, st_data (fst (c s)) = st_data s.

(** ** Sample inputs *)

Definition sample_site (number : string) : Site :=
  {| siteNumber := number; roadname := "Great Eastern Hwy";
     locationDesc := "East of Northam"; roadDir := "E";
     location := {| lat := -(316 # 10); long := 1167 # 10 |} |}.

Definition sample_item (number : string) (c3 c4 c5 c6 c7 c8 c9 c10 : Z) : Item :=
  {| site := sample_site number;
     fields := list_to_map
       [("Class3", c3); ("Class4", c4); ("Class5", c5); ("Class6", c6);
        ("Class7", c7); ("Class8", c8); ("Class9", c9); ("Class10", c10)] |}.

Definition store_of (data : list Item) : Store :=
  {| st_data := data; st_maps := [] |}.

(** Three sites whose eight counts add up to 10, 50 and 90. *)
Definition three_sites : list Item :=
  [ sample_item "0001" 4 3 2 1 0 0 0 0;
    sample_item "0002" 10 10 10 5 5 5 3 2;
    sample_item "0003" 20 20 10 10 10 10 5 5 ].

(** A row of the station table, and a row whose usage cell is empty. *)
Definition sample_station : Station :=
  {| Lat := Some (-(3223 # 100))%Q; Long := Some (11577 # 100)%Q;
     name := Text "Kwinana Hydrogen Hub"; city_state := Text "Kwinana, WA";
     operator := Text "ATCO"; Start := Number 2023%Q;
     storage_capacity_kg := Some (Number 250%Q);
     dispensing_daily_capacity := Some NaN;
     usage_case := Some (Text "Refuelling of heavy vehicles") |}.

Definition station_without_usage : Station :=
  {| Lat := Some (-(3195 # 100))%Q; Long := Some (11586 # 100)%Q;
     name := Text "Perth Depot"; city_state := Text "Perth, WA";
     operator := Text "BOC"; Start := Number 2024%Q;
     storage_capacity_kg := Some (Number 100%Q);
     dispensing_daily_capacity := Some (Number 20%Q);
     usage_case := Some NaN |}.

(** The defaults, but for the station table. *)
Definition stations_args (stations : list Station) : MapArgs :=
  {| hydrogen_stations := Some stations; railway_data := None; road_data := None;
     secondary_data := None; show_traffic := true; show_hydrogen := true;
     show_railway := true; show_roads := true; show_secondary := true;
     selected_classes := None |}.

(** The defaults, but for a table of one station and the class selection. *)
Definition sample_args (classes : option (list string)) : MapArgs :=
  {| hydrogen_stations := Some [sample_station]; railway_data := None;
     road_data := None; secondary_data := None; show_traffic := true;
     show_hydrogen := true; show_railway := false; show_roads := false;
     show_secondary := false; selected_classes := classes |}.

(** ** Tiers, estimates and cells *)

(** Agreement of two numbers to within a tenth. *)
Definition approx (x y : Q) : Prop := (Qabs (x - y) <= 1 # 10)%Q.

(** The rule of the specification for the tier of an aggregate. *)
Definition tier_rule (aggregate : Z) (highThreshold lowThreshold : Q) (t : Tier)
  : Prop :=
  match t with
  | high => (highThreshold < inject_Z aggregate)%Q
  | mid => ~ (highThreshold < inject_Z aggregate)%Q
           /\ (lowThreshold < inject_Z aggregate)%Q
  | low => ~ (highThreshold < inject_Z aggregate)%Q
           /\ ~ (lowThreshold < inject_Z aggregate)%Q
  end.

(** A client whose services answer: one geocoding result, and one OK element
    of 100 km. *)
Definition sample_client : Client :=
  {| geocode := fun _ => Ok [{| geo_lat := -(3195 # 100); geo_lng := 11586 # 100 |}];
     distance_matrix := fun _ _ =>
       Ok [[{| status := "OK";
               el_distance := Some {| text := "100 km"; value := 100000 |};
               el_duration := Some {| text := "1 hour 10 mins"; value := 4200 |} |}]] |}.

(** A client whose geocoder finds nothing. *)
Definition sample_client_no_geocode : Client :=
  {| geocode := fun _ => Ok [];
     distance_matrix := distance_matrix sample_client |}.

(** A client whose distance matrix finds no route. *)
Definition sample_client_no_route : Client :=
  {| geocode := geocode sample_client;
     distance_matrix := fun _ _ =>
       Ok [[{| status := "ZERO_RESULTS"; el_distance := None;
               el_duration := None |}]] |}.

(** A widget that shows a fuel or hydrogen estimate. *)
Definition shows_estimate (w : Widget) : Prop :=
  match w with
  | StMetricLitres _ _ | StMetricKg _ _ => True
  | _ => False
  end.











Definition is_KeyError (e : exn) : Prop :=
  match e with
  | KeyError _ => True
  | _ => False
  end.

(** ** Further notions for the classification *)

(** The position of a traffic colour on the scale green, orange, red. *)
Definition rank (c : Color) : nat :=
  match c with
  | green => 0
  | orange => 1
  | red => 2
  | blue => 0
  end.

(** ** What a run leaves in the store *)

(** The map a run over a non-empty list of sites leaves in the store, and
    the exception it ends with, if any: the map is allocated before anything
    can raise, a site's marker is added before the next site is looked at,
    and the stations come after the sites. *)
Definition built_map (a : MapArgs) (data : list Item) : FoliumMap * option exn :=
  let fm0 := {| map_location := center data; zoom_start := 8;
                tiles := "OpenStreetMap"; children := [] |} in
  match class_keys (selected_classes a) with
  | Raise e => (fm0, Some e)
  | Ok keys =>
      match thresholds data (selected_classes a) keys with
      | Raise e => (fm0, Some e)
      | Ok th =>
          let r := if show_traffic a
                   then collect (site_marker (selected_classes a) keys
                                   (fst th) (snd th)) data
                   else ([], None) in
          match snd r with
          | Some e => (add_children (map ChildMarker (fst r)) fm0, Some e)
          | None =>
              (add_children (map ChildMarker (fst r) ++ overlay_children a) fm0,
               overlay_outcome a)
          end
      end
  end.

(** The value [create_traffic_map] ends with when the new map has index [m]. *)
Definition handle_or_raise (m : nat) (e : option exn) : result (option nat) :=
  match e with
  | None => Ok (Some m)
  | Some e => Raise e
  end.

(** A text made of whitespace only (the empty text included). *)
Definition blank (s : string) : bool :=
  forallb (fun m => match m with None => true | Some _ => false end) (scan s).

(** A text without any whitespace. *)
Definition spaceless (s : string) : bool :=
  forallb (fun m => match m with None => false | Some _ => true end) (scan s).

(** A text that is one whitespace character. *)
Definition whitespace (s : string) : Prop := scan s = [None].

(** A text that does not start in the middle of a character. *)
Definition starts_clean (s : string) : bool :=
  match s with
  | EmptyString => true
  | String c _ => negb (continuation c)
  end.

(** The no-break space, U+00A0. *)
Definition nbsp : string := String "194" (String "160" EmptyString).

(** A record with all eight counts and a few sites that lack some. *)
Definition site_without_class8 : Item :=
  {| site := sample_site "0005";
     fields := list_to_map
       [("Class3", 1); ("Class4", 2); ("Class5", 3); ("Class6", 4);
        ("Class7", 5); ("Class9", 6); ("Class10", 7)] |}.

(** The defaults, but for the traffic flag and the class selection. *)
Definition args_with (show : bool) (classes : option (list string)) : MapArgs :=
  {| hydrogen_stations := None; railway_data := None; road_data := None;
     secondary_data := None; show_traffic := show; show_hydrogen := true;
     show_railway := true; show_roads := true; show_secondary := true;
     selected_classes := classes |}.

(** ** [initialize_google_maps] *)

(** [getenv] is the environment after [load_dotenv()]; [new_client] is the
    constructor [googlemaps.Client(key=...)], which raises on a key it does
    not accept. *)
Definition initialize_google_maps (getenv : string -> option string)
    (new_client : option string -> result Client)
  : list Widget * option Client :=
  let api_key := getenv "GOOGLE_MAPS_API_KEY" in
  match new_client api_key with
  | Ok gmaps => ([], Some gmaps)
  | Raise e =>
      ([StError ("Failed to initialize Google Maps API: " ++ str_exn e)], None)
  end.

(** The options of the truck-class selectbox:
    [list(fuel_consumption.keys())]. *)
Definition truck_class_options : list string := map fst fuel_consumption.

(** A constructor that accepts no key. *)
Definition no_client (key : option string) : result Client :=
  Raise (ServiceError "Must provide API key or enterprise credentials when creating client.").

(** A client whose services raise. *)
Definition sample_client_down : Client :=
  {| geocode := fun _ => Raise (ServiceError "REQUEST_DENIED");
     distance_matrix := fun _ _ => Raise (ServiceError "REQUEST_DENIED") |}.

(** A client whose OK element carries no distance. *)
Definition sample_client_no_distance : Client :=
  {| geocode := geocode sample_client;
     distance_matrix := fun _ _ =>
       Ok [[{| status := "OK"; el_distance := None;
               el_duration := Some {| text := "1 hour"; value := 3600 |} |}]] |}.

(** ** The chart of [main]: the count of each class over all sites *)

(** [total_data], as first written: an empty list for each class label. *)
Definition total_data_init : gmap string (list Z) :=
  list_to_map
    [("Class 3", []); ("Class 4", []); ("Class 5", []); ("Class 6", []);
     ("Class 7", []); ("Class 8", []); ("Class 9", []); ("Class 10", [])].

(** [total_data[name].append(item[key])]: the list is looked up before the
    count is. *)
Definition append_count (total_data : gmap string (list Z)) (name key : string)
    (item : Item) : result (gmap string (list Z)) :=
  counts <-? member name (total_data !! name);
  v <-? getitem item key;
  Ok (<[name := (counts ++ [v])%list]> total_data).

(** The body of the loop over the sites. *)
Definition append_counts (total_data : gmap string (list Z)) (item : Item)
  : result (gmap string (list Z)) :=
  total_data <-? append_count total_data "Class 3" "Class3" item;
  total_data <-? append_count total_data "Class 4" "Class4" item;
  total_data <-? append_count total_data "Class 5" "Class5" item;
  total_data <-? append_count total_data "Class 6" "Class6" item;
  total_data <-? append_count total_data "Class 7" "Class7" item;
  total_data <-? append_count total_data "Class 8" "Class8" item;
  total_data <-? append_count total_data "Class 9" "Class9" item;
  append_count total_data "Class 10" "Class10" item.

(** [for item in data: ...], the dict being threaded through. *)
Fixpoint fill_total_data (total_data : gmap string (list Z)) (data : list Item)
  : result (gmap string (list Z)) :=
  match data with
  | [] => Ok total_data
  | item :: data' =>
      total_data <-? append_counts total_data item;
      fill_total_data total_data data'
  end.

Definition total_data (data : list Item) : result (gmap string (list Z)) :=
  fill_total_data total_data_init data.

(** [sum(counts)] *)
Definition py_sum (counts : list Z) : Z := foldl Z.add 0 counts.

(** [{class_name: sum(counts) for class_name, counts in total_data.items()}] *)
Definition class_totals (total_data : gmap string (list Z)) : gmap string Z :=
  py_sum <$> total_data.

(** ** The loaders *)

(** The files the loaders open, each absent or given by the document it
    parses to: the members of the statistics JSON object that hold site
    records, the rows of the station table, and the three route documents.
    The parsers themselves ([json.load], [pd.read_csv]) are not modelled. *)
Record Files := {
  site_statistics_json : option (gmap string (list Item));
  hydrogen_refuelling_stations_csv : option (list Station);
  key_freight_route_rail_geojson : option GeoJsonDoc;
  key_freight_route_road_geojson : option GeoJsonDoc;
  secondary_route_geojson : option GeoJsonDoc
}.

(** [load_data]: only [FileNotFoundError] is caught. *)
Definition load_data (files : Files) : list Widget * result (list Item) :=
  match site_statistics_json files with
  | Some data => ([], member "statistics" (data !! "statistics"))
  | None =>
      ([StError "site_statistics.json not found. Please run extract_site_statistics.py first."],
       Ok [])
  end.

(** [load_hydrogen_stations]: an empty frame when the file is missing. *)
Definition load_hydrogen_stations (files : Files) : list Widget * list Station :=
  match hydrogen_refuelling_stations_csv files with
  | Some df => ([], df)
  | None => ([StWarning "hydrogen_refuelling_stations.csv not found."], [])
  end.

Definition load_railway_data (files : Files) : list Widget * option GeoJsonDoc :=
  match key_freight_route_rail_geojson files with
  | Some railway_data => ([], Some railway_data)
  | None => ([StWarning "key_freight_route_rail.geojson not found."], None)
  end.

Definition load_road_data (files : Files) : list Widget * option GeoJsonDoc :=
  match key_freight_route_road_geojson files with
  | Some road_data => ([], Some road_data)
  | None => ([StWarning "key_freight_route_road.geojson not found."], None)
  end.

Definition load_secondary_route_data (files : Files)
  : list Widget * option GeoJsonDoc :=
  match secondary_route_geojson files with
  | Some secondary_data => ([], Some secondary_data)
  | None => ([StWarning "secondary_route.geojson not found."], None)
  end.

(** The arguments [main] calls [create_traffic_map] with: what the loaders
    returned, the five checkboxes and the multiselect. *)
Definition main_map_args (files : Files)
    (show_traffic show_hydrogen show_railway show_roads show_secondary : bool)
    (selected_classes : list string) : MapArgs :=
  {| hydrogen_stations := Some (snd (load_hydrogen_stations files));
     railway_data := snd (load_railway_data files);
     road_data := snd (load_road_data files);
     secondary_data := snd (load_secondary_route_data files);
     show_traffic := show_traffic;
     show_hydrogen := show_hydrogen;
     show_railway := show_railway;
     show_roads := show_roads;
     show_secondary := show_secondary;
     selected_classes := Some selected_classes |}.

(** ** The legend of [main] *)

(** [legend_items], built by the five [if]s. *)
Definition legend_items
    (show_traffic show_hydrogen show_railway show_roads show_secondary : bool)
    (selected_classes : list string) : list string :=
  ((if show_traffic then
      if truthy selected_classes then
        [("**Traffic Sites**: Color-coded by combined "
          ++ join ", " selected_classes
          ++ " count (Red=Most trucks, Orange=Middle 3rd percentile of trucks, green=Least trucks)")%string]
      else
        ["**Traffic Sites**: Color-coded by Class 3+ volume (Red=Most trucks, Orange=Middle 3rd percentile of trucks, green=Least trucks)"]
    else [])
   ++ (if show_hydrogen
       then ["**Hydrogen Stations**: Blue gas pump icons for refueling stations"]
       else [])
   ++ (if show_railway
       then ["**Railway Routes**: Red lines showing key freight railway routes"]
       else [])
   ++ (if show_roads
       then ["**Key Freight Roads**: Blue lines showing major freight road routes"]
       else [])
   ++ (if show_secondary
       then ["**Secondary Routes**: Green lines showing secondary road routes"]
       else []))%list.

(** The markdown of the legend; nothing is shown without items. *)
Definition legend_text (legend_items : list string) : option string :=
  if truthy legend_items
  then Some ("**Map Legend:**" ++ nl
             ++ join nl (map (fun item => "- " ++ item) legend_items))
  else None.

(** The number of checkboxes that are ticked. *)
Definition ticked (flags : list bool) : nat :=
  length (filter (fun b => b = true) flags).

(** Files of which only the statistics are there. *)
Definition only_statistics (data : list Item) : Files :=
  {| site_statistics_json := Some {["statistics" := data]};
     hydrogen_refuelling_stations_csv := None;
     key_freight_route_rail_geojson := None;
     key_freight_route_road_geojson := None;
     secondary_route_geojson := None |}.

(** * Properties *)

(** ** Order statistics and [np_quantile] *)

Section Quantile.
Lemma insert_sorted_length x l :
  length (insert_sorted x l) = S (length l).
Proof.
  induction l as [|y l IH]; simpl; [reflexivity|].
  destruct (x <=? y); simpl; [reflexivity | now rewrite IH].
Qed.

Lemma np_sort_length l : length (np_sort l) = length l.
Proof.
  induction l as [|x l IH]; simpl; [reflexivity|].
  now rewrite insert_sorted_length, IH.
Qed.

Lemma insert_sorted_Forall (P : Z -> Prop) x l :
  P x -> Forall P l -> Forall P (insert_sorted x l).
Proof.
  intros Hx Hl. induction Hl as [|y l Hy Hl IH]; simpl.
  - repeat constructor; assumption.
  - destruct (x <=? y); repeat constructor; assumption.
Qed.

Lemma insert_sorted_ascending x l :
  ascending l -> ascending (insert_sorted x l).
Proof.
  induction l as [|y l IH]; simpl; intros Hl.
  - split; [constructor | exact I].
  - destruct Hl as [Hy Hl].
    destruct (Z.leb_spec x y) as [Hxy|Hxy]; simpl.
    + split; [|split; assumption].
      constructor; [assumption|].
      eapply Forall_impl; [exact Hy|]. intros z Hz; simpl in *. lia.
    + split; [|apply IH; assumption].
      apply insert_sorted_Forall; [lia | assumption].
Qed.

Lemma np_sort_ascending l : ascending (np_sort l).
Proof.
  induction l as [|x l IH]; simpl; [exact I|].
  now apply insert_sorted_ascending.
Qed.

Lemma ascending_nth l : ascending l ->
  forall i j, (i <= j < length l)%nat -> nth i l 0 <= nth j l 0.
Proof.
  induction l as [|x l IH]; simpl; intros Hl i j Hij; [lia|].
  destruct Hl as [Hx Hl].
  destruct i as [|i], j as [|j]; try lia.
  - rewrite List.Forall_forall in Hx. apply Hx, nth_In. lia.
  - apply IH; [assumption | lia].
Qed.

Lemma np_quantile_interpolate a q :
  np_quantile a q
  = interpolate (np_sort a) (q * inject_Z (Z.of_nat (length (np_sort a)) - 1))%Q.
Proof. reflexivity. Qed.

Lemma Qfloor_bounds v :
  (inject_Z (Qfloor v) <= v /\ v < inject_Z (Qfloor v) + 1)%Q.
Proof.
  split; [apply Qfloor_le|].
  pose proof (Qlt_floor v) as H.
  rewrite inject_Z_plus in H. exact H.
Qed.

(** Below the last index the interpolated value lies between the two
    order statistics it is taken from. *)
Lemma interpolate_between arr v :
  ascending arr -> (0 <= v)%Q ->
  (v < inject_Z (Z.of_nat (length arr) - 1))%Q ->
  let j := Qfloor v in
  0 <= j /\ j + 1 <= Z.of_nat (length arr) - 1 /\
  (inject_Z (nth (Z.to_nat j) arr 0%Z) <= interpolate arr v
   /\ interpolate arr v <= inject_Z (nth (Z.to_nat (j + 1)) arr 0%Z))%Q.
Proof.
  intros Hasc Hv0 Hvn j.
  destruct (Qfloor_bounds v) as [Hlo Hhi]. fold j in Hlo, Hhi.
  assert (Hj0 : 0 <= j).
  { unfold j. change 0 with (Qfloor 0). now apply Qfloor_resp_le. }
  assert (Hjn : j + 1 <= Z.of_nat (length arr) - 1).
  { assert (H : (inject_Z j < inject_Z (Z.of_nat (length arr) - 1))%Q)
      by exact (Qle_lt_trans _ _ _ Hlo Hvn).
    rewrite <- Zlt_Qlt in H. lia. }
  split; [assumption|]. split; [assumption|].
  unfold interpolate.
  destruct (Qle_bool _ v) eqn:Hb.
  { apply Qle_bool_iff in Hb. exfalso. apply (Qlt_irrefl v).
    exact (Qlt_le_trans _ _ _ Hvn Hb). }
  fold j.
  assert (Hd : nth (Z.to_nat j) arr 0 <= nth (Z.to_nat (j + 1)) arr 0).
  { apply ascending_nth; [assumption | lia]. }
  set (p := nth (Z.to_nat j) arr 0) in *.
  set (x := nth (Z.to_nat (j + 1)) arr 0) in *.
  rewrite Zle_Qle in Hd.
  unfold Z.sub. rewrite inject_Z_plus, inject_Z_opp.
  split; nra.
Qed.

Lemma interpolate_monotone arr v1 v2 :
  ascending arr -> (0 < length arr)%nat ->
  (0 <= v1)%Q -> (v1 <= v2)%Q ->
  (interpolate arr v1 <= interpolate arr v2)%Q.
Proof.
  intros Hasc Hlen Hv1 Hv12.
  set (last := inject_Z (Z.of_nat (length arr) - 1)).
  destruct (Qlt_le_dec v2 last) as [H2|H2].
  - (* both virtual indices are below the last index *)
    assert (H1 : (v1 < last)%Q) by exact (Qle_lt_trans _ _ _ Hv12 H2).
    assert (Hv2 : (0 <= v2)%Q) by exact (Qle_trans _ _ _ Hv1 Hv12).
    destruct (interpolate_between arr v1 Hasc Hv1 H1) as (Hj1 & Hj1n & Hlo1 & Hhi1).
    destruct (interpolate_between arr v2 Hasc Hv2 H2) as (Hj2 & Hj2n & Hlo2 & Hhi2).
    pose proof (Qfloor_resp_le _ _ Hv12) as Hj12.
    destruct (Z.eq_dec (Qfloor v1) (Qfloor v2)) as [Heq|Hne].
    + unfold interpolate. fold last.
      destruct (Qle_bool last v1) eqn:Hb1.
      { apply Qle_bool_iff in Hb1. exfalso. apply (Qlt_irrefl v1).
        exact (Qlt_le_trans _ _ _ H1 Hb1). }
      destruct (Qle_bool last v2) eqn:Hb2.
      { apply Qle_bool_iff in Hb2. exfalso. apply (Qlt_irrefl v2).
        exact (Qlt_le_trans _ _ _ H2 Hb2). }
      rewrite <- Heq.
      assert (Hd : nth (Z.to_nat (Qfloor v1)) arr 0
                   <= nth (Z.to_nat (Qfloor v1 + 1)) arr 0).
      { apply ascending_nth; [assumption | lia]. }
      set (p := nth (Z.to_nat (Qfloor v1)) arr 0) in *.
      set (x := nth (Z.to_nat (Qfloor v1 + 1)) arr 0) in *.
      rewrite Zle_Qle in Hd.
      unfold Z.sub. rewrite inject_Z_plus, inject_Z_opp.
      nra.
    + assert (Hmid : nth (Z.to_nat (Qfloor v1 + 1)) arr 0
                     <= nth (Z.to_nat (Qfloor v2)) arr 0).
      { apply ascending_nth; [assumption | lia]. }
      rewrite Zle_Qle in Hmid.
      eapply Qle_trans; [exact Hhi1|].
      eapply Qle_trans; [exact Hmid | exact Hlo2].
  - (* the upper virtual index reaches the last index *)
    assert (Hb2 : Qle_bool last v2 = true) by (now apply Qle_bool_iff).
    destruct (Qlt_le_dec v1 last) as [H1|H1].
    + destruct (interpolate_between arr v1 Hasc Hv1 H1) as (Hj1 & Hj1n & Hlo1 & Hhi1).
      unfold interpolate at 2. fold last. rewrite Hb2.
      eapply Qle_trans; [exact Hhi1|].
      rewrite <- Zle_Qle. apply ascending_nth; [assumption | lia].
    + assert (Hb1 : Qle_bool last v1 = true) by (now apply Qle_bool_iff).
      unfold interpolate. fold last. rewrite Hb1, Hb2. apply Qle_refl.
Qed.

Lemma np_quantile_monotone a q1 q2 :
  a <> [] -> (0 <= q1)%Q -> (q1 <= q2)%Q ->
  (np_quantile a q1 <= np_quantile a q2)%Q.
Proof.
  intros Ha Hq1 Hq12. rewrite !np_quantile_interpolate.
  assert (Hlen : (0 < length (np_sort a))%nat).
  { rewrite np_sort_length. destruct a; [congruence | simpl; lia]. }
  assert (Hn : (0 <= inject_Z (Z.of_nat (length (np_sort a)) - 1))%Q).
  { change 0%Q with (inject_Z 0). rewrite <- Zle_Qle. lia. }
  apply interpolate_monotone; [apply np_sort_ascending | assumption | | ]; nra.
Qed.

Lemma thresholds_of_ordered counts :
  (snd (thresholds_of counts) <= fst (thresholds_of counts))%Q.
Proof.
  unfold thresholds_of. destruct counts as [|c counts]; simpl truthy; cbv iota.
  - apply Qle_refl.
  - apply np_quantile_monotone; [discriminate | |]; unfold Qle; simpl; lia.
Qed.

(** A single value is its own quantile, whatever [q]. *)
Lemma np_quantile_singleton x q : np_quantile [x] q = inject_Z x.
Proof.
  unfold np_quantile. simpl np_sort. simpl length.
  change (Z.of_nat 1 - 1) with 0.
  assert (H : Qle_bool (inject_Z 0) (q * inject_Z 0) = true).
  { apply Qle_bool_iff. unfold Qle, Qmult, inject_Z. simpl. lia. }
  rewrite H. reflexivity.
Qed.
End Quantile.

(** ** The class selection and well-formed site records *)

Section Selection.

Lemma class_key_label c : class_key (label c) = Ok (field c).
Proof. destruct c; reflexivity. Qed.

Lemma class_options_label s : In s class_options -> exists c, s = label c.
Proof.
  unfold class_options. simpl.
  intros [H|[H|[H|[H|[H|[H|[H|[H|[]]]]]]]]]; subst s.
  - now exists C3.
  - now exists C4.
  - now exists C5.
  - now exists C6.
  - now exists C7.
  - now exists C8.
  - now exists C9.
  - now exists C10.
Qed.

Lemma label_in_options c : In (label c) class_options.
Proof. destruct c; simpl; tauto. Qed.

Lemma valid_selection_labels sc :
  valid_selection sc -> exists cs, selected sc = map label cs.
Proof.
  unfold valid_selection. induction (selected sc) as [|s l IH]; intros H.
  - now exists [].
  - inversion H as [|? ? Hs Hl]; subst.
    destruct (class_options_label s Hs) as [c ->].
    destruct (IH Hl) as [cs ->]. now exists (c :: cs).
Qed.

Lemma mapM_class_key cs : Res.mapM class_key (map label cs) = Ok (map field cs).
Proof.
  induction cs as [|c cs IH]; simpl; [reflexivity|].
  now rewrite class_key_label, IH.
Qed.

Lemma class_keys_labels sc cs :
  selected sc = map label cs -> class_keys sc = Ok (map field cs).
Proof.
  intros H. unfold class_keys. rewrite H.
  destruct cs; [reflexivity|]. apply mapM_class_key.
Qed.

Lemma getitem_field item c :
  has_counts item -> getitem item (field c) = Ok (count item c).
Proof.
  intros Hwf. unfold getitem, count, get0.
  destruct (Hwf c) as [v ->]. reflexivity.
Qed.

Lemma total_traffic_counts item :
  has_counts item ->
  total_traffic item
  = Ok (count item C3 + count item C4 + count item C5 + count item C6
        + count item C7 + count item C8 + count item C9 + count item C10).
Proof.
  intros Hwf. unfold total_traffic.
  change "Class3" with (field C3). change "Class4" with (field C4).
  change "Class5" with (field C5). change "Class6" with (field C6).
  change "Class7" with (field C7). change "Class8" with (field C8).
  change "Class9" with (field C9). change "Class10" with (field C10).
  now rewrite !getitem_field.
Qed.

Lemma combined_count_counts item cs :
  has_counts item ->
  combined_count item (map field cs) = Ok (sum_counts item cs).
Proof.
  intros Hwf. unfold combined_count.
  induction cs as [|c cs IH]; simpl; [reflexivity|].
  now rewrite getitem_field, IH.
Qed.

Lemma combined_count_get_counts item cs :
  combined_count_get item (map field cs) = sum_counts item cs.
Proof.
  unfold combined_count_get.
  induction cs as [|c cs IH]; simpl; [reflexivity|]. now rewrite IH.
Qed.

(** The aggregate the colour is decided on is the aggregate of the
    specification. *)
Lemma site_aggregate_spec sc cs item :
  has_counts item -> selected sc = map label cs ->
  site_aggregate sc (map field cs) item = Ok (spec_aggregate item cs).
Proof.
  intros Hwf Hsel. unfold site_aggregate. rewrite Hsel.
  destruct cs as [|c cs].
  - simpl. now apply total_traffic_counts.
  - simpl truthy. cbv iota. now apply combined_count_counts.
Qed.

Lemma mapM_total_traffic data :
  Forall has_counts data ->
  Res.mapM total_traffic data = Ok (map (fun d => spec_aggregate d []) data).
Proof.
  induction 1 as [|d data Hd Hdata IH]; simpl; [reflexivity|].
  rewrite (total_traffic_counts d Hd). simpl. now rewrite IH.
Qed.

(** The thresholds are the quantiles of the aggregates of the
    specification. *)
Lemma thresholds_spec sc cs data :
  Forall has_counts data -> selected sc = map label cs ->
  thresholds data sc (map field cs)
  = Ok (thresholds_of (map (fun d => spec_aggregate d cs) data)).
Proof.
  intros Hwf Hsel. unfold thresholds. rewrite Hsel.
  destruct cs as [|c cs].
  - simpl truthy. cbv iota. now rewrite mapM_total_traffic.
  - simpl truthy. cbv iota. do 2 f_equal.
    apply map_ext. intros d. apply combined_count_get_counts.
Qed.

Lemma mapM_class_lines item cs :
  has_counts item ->
  Res.mapM (fun class_name =>
              class_key <-? class_key class_name;
              v <-? getitem item class_key;
              Ok (class_name, v)) (map label cs)
  = Ok (map (fun c => (label c, count item c)) cs).
Proof.
  intros Hwf. induction cs as [|c cs IH]; simpl; [reflexivity|].
  rewrite class_key_label. simpl. rewrite getitem_field by assumption.
  simpl. now rewrite IH.
Qed.

(** On a well-formed record the loop body produces a marker, placed at the
    site and coloured by the tier of the site's aggregate. *)
Lemma site_marker_spec sc cs top middle item :
  has_counts item -> selected sc = map label cs ->
  exists mk,
    site_marker sc (map field cs) top middle item = Ok mk
    /\ marker_location mk = (lat (location (site item)), long (location (site item)))
    /\ icon_color mk = tier_color (spec_aggregate item cs) top middle.
Proof.
  intros Hwf Hsel. unfold site_marker, site_popup, site_color_tooltip.
  rewrite Hsel. destruct cs as [|c cs].
  - simpl truthy. cbv iota.
    rewrite (total_traffic_counts item Hwf).
    change "Class3" with (field C3). change "Class4" with (field C4).
    change "Class5" with (field C5). change "Class6" with (field C6).
    change "Class7" with (field C7). change "Class8" with (field C8).
    change "Class9" with (field C9). change "Class10" with (field C10).
    rewrite !getitem_field by assumption. simpl.
    eexists; repeat split; reflexivity.
  - simpl truthy. cbv iota.
    rewrite (combined_count_counts item (c :: cs) Hwf).
    rewrite (mapM_class_lines item (c :: cs) Hwf).
    rewrite (total_traffic_counts item Hwf). simpl.
    eexists; repeat split; reflexivity.
Qed.

Lemma mapM_site_marker sc cs top middle data :
  Forall has_counts data -> selected sc = map label cs ->
  exists mks,
    Res.mapM (site_marker sc (map field cs) top middle) data = Ok mks
    /\ Forall2 (fun item mk =>
         marker_location mk
           = (lat (location (site item)), long (location (site item)))
         /\ icon_color mk = tier_color (spec_aggregate item cs) top middle)
       data mks.
Proof.
  intros Hwf Hsel. induction Hwf as [|d data Hd Hdata IH]; simpl.
  - exists []. split; [reflexivity | constructor].
  - destruct (site_marker_spec sc cs top middle d Hd Hsel) as (mk & -> & Hloc & Hcol).
    destruct IH as (mks & -> & Hall). simpl.
    exists (mk :: mks). split; [reflexivity|]. constructor; [split|]; assumption.
Qed.
End Selection.

(** ** Running [create_traffic_map] *)

Section Run.

Lemma add_children_nil fm : add_children [] fm = fm.
Proof. destruct fm; unfold add_children; simpl. now rewrite app_nil_r. Qed.

Lemma add_children_app cs1 cs2 fm :
  add_children cs2 (add_children cs1 fm) = add_children (cs1 ++ cs2) fm.
Proof. unfold add_children; simpl. now rewrite app_assoc. Qed.

Lemma add_to_last c d maps fm :
  add_to c (length maps) {| st_data := d; st_maps := maps ++ [fm] |}
  = ({| st_data := d; st_maps := maps ++ [add_children [c] fm] |}, Ok tt).
Proof.
  unfold add_to. simpl. do 2 f_equal.
  rewrite alter_app_r_alt by lia. now rewrite Nat.sub_diag.
Qed.

Lemma for_each_add_to {A B} (f : A -> result B) (g : B -> Child) l ys d maps fm :
  Res.mapM f l = Ok ys ->
  for_each l (fun x => y <- lift (f x) ;; add_to (g y) (length maps))
    {| st_data := d; st_maps := maps ++ [fm] |}
  = ({| st_data := d; st_maps := maps ++ [add_children (map g ys) fm] |}, Ok tt).
Proof.
  revert ys fm. induction l as [|x l IH]; intros ys fm H; cbn [Res.mapM] in H.
  - injection H as <-. cbn [for_each map]. unfold ret.
    now rewrite add_children_nil.
  - destruct (f x) as [y|e] eqn:Hx; cbn [Res.bind] in H; [|discriminate].
    destruct (Res.mapM f l) as [ys'|e] eqn:Hl; cbn [Res.bind] in H; [|discriminate].
    injection H as <-. cbn [for_each map].
    unfold bind at 1. unfold bind at 1. unfold lift at 1. rewrite Hx.
    rewrite add_to_last. rewrite (IH ys' _ eq_refl).
    now rewrite add_children_app.
Qed.

Lemma add_route_run show doc st d maps fm :
  add_route show doc st (length maps) {| st_data := d; st_maps := maps ++ [fm] |}
  = ({| st_data := d;
        st_maps := maps ++ [add_children (route_children show doc st) fm] |}, Ok tt).
Proof.
  unfold add_route, route_children, when.
  destruct (show && doc_truthy doc).
  - apply add_to_last.
  - unfold ret. now rewrite add_children_nil.
Qed.

Lemma truediv_len {A} (x : Q) (l : list A) :
  l <> [] -> truediv x (len l) = Ok (x / len l)%Q.
Proof.
  intros Hl. unfold truediv.
  destruct (Qeq_bool (len l) 0) eqn:Hb; [|reflexivity].
  apply Qeq_bool_iff in Hb. unfold len, Qeq in Hb. simpl in Hb.
  destruct l; [congruence | simpl in Hb; lia].
Qed.

(** What a run that raises nothing builds: a fresh map, centred on the
    sites, holding one marker per site (when the traffic layer is shown)
    followed by the overlays; the function returns its index. *)
Lemma bind_run {A B} (c : M A) (k : A -> M B) s s' a :
  c s = (s', Ok a) -> bind c k s = k a s'.
Proof. intros H. unfold bind. now rewrite H. Qed.

Lemma when_for_each_add_to {A B} (b : bool) (f : A -> result B) (g : B -> Child)
    l ys d maps fm :
  (if b then Res.mapM f l = Ok ys else ys = []) ->
  when b (for_each l (fun x => y <- lift (f x) ;; add_to (g y) (length maps)))
    {| st_data := d; st_maps := maps ++ [fm] |}
  = ({| st_data := d; st_maps := maps ++ [add_children (map g ys) fm] |}, Ok tt).
Proof.
  intros H. unfold when. destruct b.
  - now apply for_each_add_to.
  - subst ys. unfold ret. cbn [map]. now rewrite add_children_nil.
Qed.

Lemma bind_raise_run {A B} (c : M A) (k : A -> M B) s s' e :
  c s = (s', Raise e) -> bind c k s = (s', Raise e).
Proof. intros H. unfold bind. now rewrite H. Qed.

Lemma collect_mapM {A B} (f : A -> result B) l :
  match snd (collect f l) with
  | None => Res.mapM f l = Ok (fst (collect f l))
  | Some e => Res.mapM f l = Raise e
  end.
Proof.
  induction l as [|x l IH]; cbn [collect Res.mapM]; [reflexivity|].
  destruct (f x) as [y|e]; cbn [Res.bind fst snd]; [|reflexivity].
  destruct (snd (collect f l)) as [e|]; rewrite IH; reflexivity.
Qed.

Lemma for_each_add_to_collect {A B} (f : A -> result B) (g : B -> Child)
    l d maps fm :
  for_each l (fun x => y <- lift (f x) ;; add_to (g y) (length maps))
    {| st_data := d; st_maps := maps ++ [fm] |}
  = ({| st_data := d;
        st_maps := maps ++ [add_children (map g (fst (collect f l))) fm] |},
     match snd (collect f l) with
     | None => Ok tt
     | Some e => Raise e
     end).
Proof.
  revert fm. induction l as [|x l IH]; intros fm; cbn [for_each collect].
  - cbn [fst snd map]. unfold ret. now rewrite add_children_nil.
  - destruct (f x) as [y|e] eqn:Hx; cbn [fst snd map].
    + erewrite bind_run;
        [| unfold bind at 1; unfold lift at 1; apply add_to_last].
      rewrite IH. now rewrite add_children_app.
    + erewrite bind_raise_run;
        [| unfold bind at 1; unfold lift at 1; reflexivity].
      now rewrite add_children_nil.
Qed.

(** The station section: the markers of the rows up to the first one that
    raises are added, and the section ends with that exception. *)
Lemma stations_run a d maps fm :
  when (show_hydrogen a && stations_present (hydrogen_stations a))
    (for_each (default [] (hydrogen_stations a)) (fun station =>
       mk <- lift (station_marker station) ;;
       add_to (ChildMarker mk) (length maps)))
    {| st_data := d; st_maps := maps ++ [fm] |}
  = ({| st_data := d;
        st_maps := maps
          ++ [add_children (map ChildMarker (station_markers a)) fm] |},
     match overlay_outcome a with
     | None => Ok tt
     | Some e => Raise e
     end).
Proof.
  unfold when, station_markers, overlay_outcome, station_rows.
  destruct (show_hydrogen a && stations_present (hydrogen_stations a)).
  - apply for_each_add_to_collect.
  - unfold ret. cbn [collect fst snd map]. now rewrite add_children_nil.
Qed.

(** The station and route sections together. *)
Lemma overlays_run a d maps fm :
  (when (show_hydrogen a && stations_present (hydrogen_stations a))
     (for_each (default [] (hydrogen_stations a)) (fun station =>
        mk <- lift (station_marker station) ;;
        add_to (ChildMarker mk) (length maps))) ;;
   add_route (show_railway a) (railway_data a)
     {| style_color := red; weight := 3; opacity := 7 # 10 |} (length maps) ;;
   add_route (show_roads a) (road_data a)
     {| style_color := blue; weight := 4; opacity := 8 # 10 |} (length maps) ;;
   add_route (show_secondary a) (secondary_data a)
     {| style_color := green; weight := 2; opacity := 6 # 10 |} (length maps) ;;
   ret (Some (length maps)))
    {| st_data := d; st_maps := maps ++ [fm] |}
  = ({| st_data := d;
        st_maps := maps ++ [add_children (overlay_children a) fm] |},
     handle_or_raise (length maps) (overlay_outcome a)).
Proof.
  unfold overlay_children.
  destruct (overlay_outcome a) as [e|] eqn:He.
  - erewrite bind_raise_run; [| rewrite stations_run, He; reflexivity].
    now rewrite app_nil_r.
  - erewrite bind_run; [| rewrite stations_run, He; reflexivity].
    erewrite bind_run; [| apply add_route_run].
    erewrite bind_run; [| apply add_route_run].
    erewrite bind_run; [| apply add_route_run].
    unfold ret. rewrite !add_children_app.
    unfold route_layers. rewrite <- ?app_assoc. reflexivity.
Qed.

(** What a run builds when the keys, the thresholds and the site markers are
    computed: a fresh map, centred on the sites, holding one marker per site
    (when the traffic layer is shown) followed by the overlays; the function
    returns its index unless a station row raises. *)
Lemma create_traffic_map_run a s keys th mks :
  st_data s <> [] ->
  class_keys (selected_classes a) = Ok keys ->
  thresholds (st_data s) (selected_classes a) keys = Ok th ->
  (if show_traffic a
   then Res.mapM (site_marker (selected_classes a) keys (fst th) (snd th))
          (st_data s) = Ok mks
   else mks = []) ->
  create_traffic_map a s
  = ({| st_data := st_data s;
        st_maps := st_maps s
          ++ [{| map_location := center (st_data s); zoom_start := 8;
                 tiles := "OpenStreetMap";
                 children := map ChildMarker mks ++ overlay_children a |}] |},
     handle_or_raise (length (st_maps s)) (overlay_outcome a)).
Proof.
  intros Hne Hkeys Hth Hmks.
  unfold create_traffic_map.
  rewrite (bind_run read_data _ s s (st_data s) eq_refl).
  assert (Ht : negb (truthy (st_data s)) = false)
    by (destruct (st_data s); [congruence | reflexivity]).
  rewrite Ht.
  assert (Hmap : forall f : Item -> Q, map f (st_data s) <> [])
    by (intros f; destruct (st_data s); [congruence | discriminate]).
  erewrite bind_run;
    [| unfold lift; rewrite truediv_len by apply Hmap; reflexivity].
  erewrite bind_run;
    [| unfold lift; rewrite truediv_len by apply Hmap; reflexivity].
  erewrite bind_run; [| reflexivity].
  erewrite bind_run; [| unfold lift; rewrite Hkeys; reflexivity].
  erewrite bind_run; [| unfold lift; rewrite Hth; reflexivity].
  erewrite bind_run; [| apply when_for_each_add_to; exact Hmks].
  rewrite overlays_run. rewrite !add_children_app.
  unfold add_children, center. cbn [children app]. reflexivity.
Qed.

Lemma renders_station_marker station :
  renders station -> exists mk, station_marker station = Ok mk.
Proof.
  intros (Hu & [la Hla] & [lo Hlo]). unfold station_marker.
  rewrite Hla, Hlo. destruct Hu as [->|[t ->]]; cbn; eauto.
Qed.

Lemma collect_outcome_None {A B} (f : A -> result B) (P : A -> Prop) l :
  (forall x, P x -> exists y, f x = Ok y) -> Forall P l ->
  snd (collect f l) = None.
Proof.
  intros Hf. induction 1 as [|x l Hx Hl IH]; cbn [collect]; [reflexivity|].
  destruct (Hf x Hx) as [y ->]. exact IH.
Qed.

Lemma collect_outcome_Some {A B} (f : A -> result B) l e :
  snd (collect f l) = Some e -> exists x, In x l /\ f x = Raise e.
Proof.
  induction l as [|x l IH]; cbn [collect]; [discriminate|].
  destruct (f x) as [y|e'] eqn:Hx; cbn [snd].
  - intros H. destruct (IH H) as (x' & Hin & Hx'). exists x'. split; [now right | exact Hx'].
  - intros [= <-]. exists x. split; [now left | exact Hx].
Qed.

(** The station section raises only what a row of the table raises, and
    nothing when every row renders. *)
Lemma overlay_outcome_renders a :
  Forall renders (station_rows a) -> overlay_outcome a = None.
Proof.
  apply collect_outcome_None. exact renders_station_marker.
Qed.

Lemma overlay_outcome_raise a e :
  overlay_outcome a = Some e ->
  exists station, In station (station_rows a) /\ station_marker station = Raise e.
Proof. apply collect_outcome_Some. Qed.

(** With no site the function returns [None] at once and touches nothing. *)
Lemma create_traffic_map_no_data a s :
  st_data s = [] -> create_traffic_map a s = (s, Ok None).
Proof.
  intros H. unfold create_traffic_map, bind, read_data. rewrite H. reflexivity.
Qed.
End Run.

(** ** The frame of [create_traffic_map]: the site records *)

Section Frame.

Lemma preserves_ret {A} (a : A) : preserves_data (ret a).
Proof. intros s. reflexivity. Qed.

Lemma preserves_lift {A} (r : result A) : preserves_data (lift r).
Proof. intros s. reflexivity. Qed.

Lemma preserves_read_data : preserves_data read_data.
Proof. intros s. reflexivity. Qed.

Lemma preserves_folium_Map loc zoom t : preserves_data (folium_Map loc zoom t).
Proof. intros s. reflexivity. Qed.

Lemma preserves_add_to c m : preserves_data (add_to c m).
Proof. intros s. reflexivity. Qed.

Lemma preserves_bind {A B} (c : M A) (k : A -> M B) :
  preserves_data c -> (forall a, preserves_data (k a)) ->
  preserves_data (bind c k).
Proof.
  intros Hc Hk s. unfold bind. specialize (Hc s).
  destruct (c s) as [s' [a|e]]; simpl in *.
  - now rewrite Hk.
  - assumption.
Qed.

Lemma preserves_for_each {A} (l : list A) (body : A -> M unit) :
  (forall x, preserves_data (body x)) -> preserves_data (for_each l body).
Proof.
  intros Hbody. induction l as [|x l IH]; simpl.
  - apply preserves_ret.
  - apply preserves_bind; [apply Hbody | intros _; exact IH].
Qed.

Lemma preserves_when b (body : M unit) :
  preserves_data body -> preserves_data (when b body).
Proof. intros H. destruct b; simpl; [exact H | apply preserves_ret]. Qed.

Lemma preserves_add_route show d st m : preserves_data (add_route show d st m).
Proof. apply preserves_when, preserves_add_to. Qed.

Lemma preserves_create_traffic_map a : preserves_data (create_traffic_map a).
Proof.
  unfold create_traffic_map.
  apply preserves_bind; [apply preserves_read_data|]. intros data.
  destruct (negb (truthy data)); [apply preserves_ret|].
  apply preserves_bind; [apply preserves_lift|]. intros center_lat.
  apply preserves_bind; [apply preserves_lift|]. intros center_lon.
  apply preserves_bind; [apply preserves_folium_Map|]. intros m.
  apply preserves_bind; [apply preserves_lift|]. intros keys.
  apply preserves_bind; [apply preserves_lift|]. intros th.
  apply preserves_bind.
  { apply preserves_when, preserves_for_each. intros item.
    apply preserves_bind; [apply preserves_lift|]. intros mk.
    apply preserves_add_to. }
  intros _. apply preserves_bind.
  { apply preserves_when, preserves_for_each. intros station.
    apply preserves_bind; [apply preserves_lift|]. intros mk.
    apply preserves_add_to. }
  intros _. apply preserves_bind; [apply preserves_add_route|].
  intros _. apply preserves_bind; [apply preserves_add_route|].
  intros _. apply preserves_bind; [apply preserves_add_route|].
  intros _. apply preserves_ret.
Qed.
End Frame.

(** ** Tiers *)

Section Tiers.

Lemma Qgt_bool_true a b : Qgt_bool a b = true <-> (b < a)%Q.
Proof.
  unfold Qgt_bool. rewrite negb_true_iff.
  split.
  - intros H. apply Qnot_le_lt. intros Hle.
    apply Qle_bool_iff in Hle. congruence.
  - intros H. destruct (Qle_bool a b) eqn:Hb; [|reflexivity].
    apply Qle_bool_iff in Hb. exfalso. exact (Qlt_not_le _ _ H Hb).
Qed.

Lemma Qgt_bool_false a b : Qgt_bool a b = false <-> ~ (b < a)%Q.
Proof.
  rewrite <- Qgt_bool_true. destruct (Qgt_bool a b); split; congruence.
Qed.

(** The colour the code picks is the tier of the rule, and the rule
    admits no other tier. *)
Lemma tier_color_rule agg top middle :
  exists t,
    tier_of (tier_color agg top middle) = Some t
    /\ tier_rule agg top middle t
    /\ forall t', tier_rule agg top middle t' -> t' = t.
Proof.
  unfold tier_color.
  destruct (Qgt_bool (inject_Z agg) top) eqn:Htop.
  - apply Qgt_bool_true in Htop. exists high. split; [reflexivity|].
    split; [exact Htop|]. intros [] H; simpl in H; tauto.
  - apply Qgt_bool_false in Htop.
    destruct (Qgt_bool (inject_Z agg) middle) eqn:Hmid.
    + apply Qgt_bool_true in Hmid. exists mid. split; [reflexivity|].
      split; [split; assumption|]. intros [] H; simpl in H; tauto.
    + apply Qgt_bool_false in Hmid. exists low. split; [reflexivity|].
      split; [split; assumption|]. intros [] H; simpl in H; tauto.
Qed.

Lemma total_traffic_inv item t :
  total_traffic item = Ok t -> has_counts item /\ spec_aggregate item [] = t.
Proof.
  unfold total_traffic, getitem. intros H.
  destruct (fields item !! "Class3") as [c3|] eqn:H3; [|discriminate].
  destruct (fields item !! "Class4") as [c4|] eqn:H4; [|discriminate].
  destruct (fields item !! "Class5") as [c5|] eqn:H5; [|discriminate].
  destruct (fields item !! "Class6") as [c6|] eqn:H6; [|discriminate].
  destruct (fields item !! "Class7") as [c7|] eqn:H7; [|discriminate].
  destruct (fields item !! "Class8") as [c8|] eqn:H8; [|discriminate].
  destruct (fields item !! "Class9") as [c9|] eqn:H9; [|discriminate].
  destruct (fields item !! "Class10") as [c10|] eqn:H10; [|discriminate].
  simpl in H. injection H as <-. split.
  - intros []; simpl; eauto.
  - unfold spec_aggregate, count, get0. simpl field.
    now rewrite H3, H4, H5, H6, H7, H8, H9, H10.
Qed.
End Tiers.

(** ** The claims about classification and the map *)

(** C1 (as the code has it). For three sites whose aggregate counts are 10,
    50 and 90 and an empty class selection, the 33rd and 67th percentiles
    are about 36.4 and 63.6, and the three sites get the tiers low, mid and
    high in that order: their markers are the first three children of the
    new map. The run returns that map unless a row of a shown station table
    raises, which happens only after the three markers were added. *)
Theorem three_sites_thresholds_and_tiers (a : MapArgs) (s : Store) (x y z : Item) :
  st_data s = [x; y; z] ->
  total_traffic x = Ok 10 -> total_traffic y = Ok 50 -> total_traffic z = Ok 90 ->
  selected (selected_classes a) = [] ->
  show_traffic a = true ->
  exists lowThreshold highThreshold mx my mz,
    thresholds (st_data s) (selected_classes a) [] = Ok (highThreshold, lowThreshold)
    /\ approx lowThreshold (364 # 10) /\ approx highThreshold (636 # 10)
    /\ create_traffic_map a s
       = ({| st_data := st_data s;
             st_maps := st_maps s
               ++ [{| map_location := center (st_data s); zoom_start := 8;
                      tiles := "OpenStreetMap";
                      children := ChildMarker mx :: ChildMarker my :: ChildMarker mz
                                  :: overlay_children a |}] |},
          handle_or_raise (length (st_maps s)) (overlay_outcome a))
    /\ (Forall renders (station_rows a) -> overlay_outcome a = None)
    /\ (forall e, overlay_outcome a = Some e ->
          exists station,
            In station (station_rows a) /\ station_marker station = Raise e)
    /\ tier_of (icon_color mx) = Some low
    /\ tier_of (icon_color my) = Some mid
    /\ tier_of (icon_color mz) = Some high.
Proof.
  intros Hdata Hx Hy Hz Hsel Htraffic.
  destruct (total_traffic_inv x 10 Hx) as [Hwx Hax].
  destruct (total_traffic_inv y 50 Hy) as [Hwy Hay].
  destruct (total_traffic_inv z 90 Hz) as [Hwz Haz].
  assert (Hwf : Forall has_counts (st_data s)).
  { rewrite Hdata. repeat constructor; assumption. }
  assert (Hsel' : selected (selected_classes a) = map label []) by exact Hsel.
  pose proof (thresholds_spec _ [] _ Hwf Hsel') as Hth.
  pose proof (class_keys_labels _ [] Hsel') as Hkeys.
  cbn [map] in Hth, Hkeys.
  assert (Haggs : map (fun d => spec_aggregate d []) (st_data s) = [10; 50; 90]).
  { rewrite Hdata. cbn [map]. now rewrite Hax, Hay, Haz. }
  rewrite Haggs in Hth.
  set (th := thresholds_of [10; 50; 90]) in *.
  destruct (mapM_site_marker (selected_classes a) [] (fst th) (snd th)
              (st_data s) Hwf Hsel') as (mks & Hmks & Hall).
  cbn [map] in Hmks.
  rewrite Hdata in Hall.
  inversion Hall as [|? mx ? mks1 [_ Hcx] Hall1]; subst.
  inversion Hall1 as [|? my ? mks2 [_ Hcy] Hall2]; subst.
  inversion Hall2 as [|? mz ? mks3 [_ Hcz] Hall3]; subst.
  inversion Hall3; subst.
  rewrite Hax in Hcx. rewrite Hay in Hcy. rewrite Haz in Hcz.
  exists (snd th), (fst th), mx, my, mz.
  split; [rewrite Hth; reflexivity|].
  split; [unfold approx; vm_compute; discriminate|].
  split; [unfold approx; vm_compute; discriminate|].
  split.
  { apply (create_traffic_map_run a s [] th [mx; my; mz]).
    - rewrite Hdata. discriminate.
    - exact Hkeys.
    - exact Hth.
    - rewrite Htraffic. exact Hmks. }
  split; [apply overlay_outcome_renders|].
  split; [apply overlay_outcome_raise|].
  rewrite Hcx, Hcy, Hcz. repeat split; vm_compute; reflexivity.
Qed.

Lemma three_sites_thresholds_and_tiers_witness :
  exists lowThreshold highThreshold mx my mz,
    thresholds three_sites None [] = Ok (highThreshold, lowThreshold)
    /\ approx lowThreshold (364 # 10) /\ approx highThreshold (636 # 10)
    /\ create_traffic_map default_args (store_of three_sites)
       = ({| st_data := three_sites;
             st_maps := [{| map_location := center three_sites; zoom_start := 8;
                            tiles := "OpenStreetMap";
                            children := [ChildMarker mx; ChildMarker my;
                                         ChildMarker mz] |}] |},
          Ok (Some 0%nat))
    /\ tier_of (icon_color mx) = Some low
    /\ tier_of (icon_color my) = Some mid
    /\ tier_of (icon_color mz) = Some high.
Proof.
  destruct (three_sites_thresholds_and_tiers default_args (store_of three_sites)
              (sample_item "0001" 4 3 2 1 0 0 0 0)
              (sample_item "0002" 10 10 10 5 5 5 3 2)
              (sample_item "0003" 20 20 10 10 10 10 5 5)
              eq_refl eq_refl eq_refl eq_refl eq_refl eq_refl)
    as (lo & hi & mx & my & mz & Hth & Hlo & Hhi & Hrun & _ & _ & Hx & Hy & Hz).
  exists lo, hi, mx, my, mz. repeat split; assumption.
Defined.

(** C1 (as the specification words it) fails: on three sites with aggregate
    counts 10, 50 and 90 the thresholds the code computes are 36.4 and 63.6,
    which are not within a tenth of 23.6 and 70.4. *)
Lemma three_sites_thresholds_counterexample :
  exists lowThreshold highThreshold,
    Res.mapM total_traffic three_sites = Ok [10; 50; 90]
    /\ thresholds three_sites None [] = Ok (highThreshold, lowThreshold)
    /\ ~ (approx lowThreshold (236 # 10) /\ approx highThreshold (704 # 10)).
Proof.
  exists (snd (thresholds_of [10; 50; 90])), (fst (thresholds_of [10; 50; 90])).
  split; [reflexivity|]. split; [reflexivity|].
  intros [H _]. revert H. unfold approx. vm_compute. intros H. apply H. reflexivity.
Qed.

(** C2. For a non-empty list of well-formed site records and a selection
    the sidebar can produce, the map gets exactly one marker per site, in
    order, and the colour of each marker is the one tier the rule (high above
    the high threshold, mid above the low threshold only, low otherwise)
    gives to the site's aggregate. The run returns that map unless a row of
    a shown station table raises, which happens only after every site has
    its marker. *)
Theorem tier_partition (a : MapArgs) (s : Store) :
  st_data s <> [] ->
  Forall has_counts (st_data s) ->
  valid_selection (selected_classes a) ->
  show_traffic a = true ->
  exists selection highThreshold lowThreshold markers,
    selected (selected_classes a) = map label selection
    /\ thresholds (st_data s) (selected_classes a) (map field selection)
       = Ok (highThreshold, lowThreshold)
    /\ create_traffic_map a s
       = ({| st_data := st_data s;
             st_maps := st_maps s
               ++ [{| map_location := center (st_data s); zoom_start := 8;
                      tiles := "OpenStreetMap";
                      children := map ChildMarker markers ++ overlay_children a |}] |},
          handle_or_raise (length (st_maps s)) (overlay_outcome a))
    /\ (Forall renders (station_rows a) -> overlay_outcome a = None)
    /\ (forall e, overlay_outcome a = Some e ->
          exists station,
            In station (station_rows a) /\ station_marker station = Raise e)
    /\ Forall2 (fun item mk =>
         marker_location mk
           = (lat (location (site item)), long (location (site item)))
         /\ exists t,
              tier_of (icon_color mk) = Some t
              /\ tier_rule (spec_aggregate item selection)
                   highThreshold lowThreshold t
              /\ forall t',
                   tier_rule (spec_aggregate item selection)
                     highThreshold lowThreshold t' -> t' = t)
       (st_data s) markers.
Proof.
  intros Hne Hwf Hvalid Htraffic.
  destruct (valid_selection_labels _ Hvalid) as [cs Hsel].
  pose proof (thresholds_spec _ cs _ Hwf Hsel) as Hth.
  set (th := thresholds_of _) in Hth.
  destruct (mapM_site_marker (selected_classes a) cs (fst th) (snd th)
              (st_data s) Hwf Hsel) as (mks & Hmks & Hall).
  exists cs, (fst th), (snd th), mks.
  split; [exact Hsel|].
  split; [rewrite Hth; now destruct th|].
  split.
  { apply (create_traffic_map_run a s (map field cs) th mks); try assumption.
    - now apply class_keys_labels.
    - now rewrite Htraffic. }
  split; [apply overlay_outcome_renders|].
  split; [apply overlay_outcome_raise|].
  eapply Forall2_impl; [exact Hall|].
  intros item mk [Hloc Hcol]. split; [exact Hloc|].
  rewrite Hcol. apply tier_color_rule.
Qed.

Lemma tier_partition_witness :
  exists selection highThreshold lowThreshold (markers : list Marker),
    selected (Some ["Class 4"; "Class 10"]) = map label selection
    /\ thresholds three_sites (Some ["Class 4"; "Class 10"]) (map field selection)
       = Ok (highThreshold, lowThreshold)
    /\ snd (create_traffic_map (sample_args (Some ["Class 4"; "Class 10"]))
              (store_of three_sites)) = Ok (Some 0%nat)
    /\ length markers = 3%nat.
Proof.
  destruct (tier_partition (sample_args (Some ["Class 4"; "Class 10"]))
              (store_of three_sites))
    as (cs & hi & lo & mks & Hsel & Hth & Hrun & Hok & _ & Hall).
  - discriminate.
  - repeat constructor; intros []; eexists; reflexivity.
  - repeat constructor; simpl; tauto.
  - reflexivity.
  - exists cs, hi, lo, mks. split; [exact Hsel|]. split; [exact Hth|].
    split.
    + rewrite Hrun. cbn [snd]. rewrite Hok; [reflexivity|].
      change (Forall renders [sample_station]).
      constructor; [|constructor].
      split; [right; eexists; reflexivity | split; eexists; reflexivity].
    + symmetry. exact (Forall2_length _ _ _ Hall).
Defined.

(** C3. The aggregate a well-formed site is coloured by, and the aggregate
    that enters the thresholds, is the sum of the site's counts over the
    selected classes when the selection is non-empty and the sum of all
    eight counts when it is empty. *)
Theorem aggregate_is_selected_sum (item : Item)
    (selected_classes : option (list string)) (selection : list TruckClass)
    (top middle : Q) :
  has_counts item ->
  selected selected_classes = map label selection ->
  class_keys selected_classes = Ok (map field selection)
  /\ site_aggregate selected_classes (map field selection) item
     = Ok (spec_aggregate item selection)
  /\ (exists mk,
        site_marker selected_classes (map field selection) top middle item = Ok mk
        /\ icon_color mk = tier_color (spec_aggregate item selection) top middle)
  /\ (forall data, Forall has_counts data ->
        thresholds data selected_classes (map field selection)
        = Ok (thresholds_of (map (fun d => spec_aggregate d selection) data)))
  /\ (selection <> [] ->
        combined_count item (map field selection) = Ok (sum_counts item selection)
        /\ combined_count_get item (map field selection) = sum_counts item selection
        /\ spec_aggregate item selection = sum_counts item selection)
  /\ (selection = [] ->
        total_traffic item = Ok (spec_aggregate item selection)
        /\ spec_aggregate item selection
           = count item C3 + count item C4 + count item C5 + count item C6
             + count item C7 + count item C8 + count item C9 + count item C10).
Proof.
  intros Hwf Hsel.
  split; [now apply class_keys_labels|].
  split; [now apply site_aggregate_spec|].
  split.
  { destruct (site_marker_spec selected_classes selection top middle item Hwf Hsel)
      as (mk & Hmk & _ & Hcol).
    now exists mk. }
  split; [intros data Hdata; now apply thresholds_spec|].
  split.
  - intros Hne. split; [now apply combined_count_counts|].
    split; [apply combined_count_get_counts|].
    destruct selection; [congruence | reflexivity].
  - intros ->. split; [now apply total_traffic_counts | reflexivity].
Qed.

Lemma aggregate_is_selected_sum_witness :
  site_aggregate (Some ["Class 4"; "Class 10"]) ["Class4"; "Class10"]
    (sample_item "0002" 10 10 10 5 5 5 3 2) = Ok 12.
Proof.
  exact (proj1 (proj2
    (aggregate_is_selected_sum (sample_item "0002" 10 10 10 5 5 5 3 2)
       (Some ["Class 4"; "Class 10"]) [C4; C10] 0%Q 0%Q
       ltac:(intros []; eexists; reflexivity) eq_refl))).
Defined.

(** C6. With no site the map composer returns [None] and raises nothing;
    with a single well-formed site both thresholds are that site's
    aggregate, and the site still gets its marker and a tier (low). The run
    then returns the map unless a row of a shown station table raises, which
    happens only after the site has its marker. *)
Theorem zero_or_one_site (a : MapArgs) (s : Store) :
  (st_data s = [] -> create_traffic_map a s = (s, Ok None))
  /\ (forall item,
        st_data s = [item] ->
        has_counts item ->
        valid_selection (selected_classes a) ->
        show_traffic a = true ->
        exists selection mk,
          selected (selected_classes a) = map label selection
          /\ thresholds [item] (selected_classes a) (map field selection)
             = Ok (inject_Z (spec_aggregate item selection),
                   inject_Z (spec_aggregate item selection))
          /\ create_traffic_map a s
             = ({| st_data := st_data s;
                   st_maps := st_maps s
                     ++ [{| map_location := center (st_data s); zoom_start := 8;
                            tiles := "OpenStreetMap";
                            children := ChildMarker mk :: overlay_children a |}] |},
                handle_or_raise (length (st_maps s)) (overlay_outcome a))
          /\ (Forall renders (station_rows a) -> overlay_outcome a = None)
          /\ (forall e, overlay_outcome a = Some e ->
                exists station,
                  In station (station_rows a) /\ station_marker station = Raise e)
          /\ tier_of (icon_color mk) = Some low).
Proof.
  split; [apply create_traffic_map_no_data|].
  intros item Hdata Hwf Hvalid Htraffic.
  destruct (valid_selection_labels _ Hvalid) as [cs Hsel].
  assert (Hwfs : Forall has_counts (st_data s))
    by (rewrite Hdata; repeat constructor; assumption).
  pose proof (thresholds_spec _ cs _ Hwfs Hsel) as Hth.
  rewrite Hdata in Hth. cbn [map] in Hth.
  unfold thresholds_of in Hth. cbn [truthy] in Hth.
  rewrite !np_quantile_singleton in Hth.
  set (agg := spec_aggregate item cs) in *.
  destruct (site_marker_spec (selected_classes a) cs (inject_Z agg) (inject_Z agg)
              item Hwf Hsel) as (mk & Hmk & _ & Hcol).
  exists cs, mk.
  split; [exact Hsel|]. split; [exact Hth|]. split.
  { apply (create_traffic_map_run a s (map field cs)
             (inject_Z agg, inject_Z agg) [mk]).
    - rewrite Hdata. discriminate.
    - now apply class_keys_labels.
    - rewrite Hdata. exact Hth.
    - rewrite Htraffic, Hdata. cbn [Res.mapM fst snd]. rewrite Hmk. reflexivity. }
  split; [apply overlay_outcome_renders|].
  split; [apply overlay_outcome_raise|].
  rewrite Hcol. fold agg. unfold tier_color.
  assert (H : Qgt_bool (inject_Z agg) (inject_Z agg) = false).
  { apply Qgt_bool_false. apply Qlt_irrefl. }
  rewrite H. reflexivity.
Qed.

Lemma zero_or_one_site_witness :
  create_traffic_map default_args (store_of []) = (store_of [], Ok None)
  /\ exists selection mk,
       selected (selected_classes default_args) = map label selection
       /\ thresholds [sample_item "0001" 4 3 2 1 0 0 0 0]
            (selected_classes default_args) (map field selection)
          = Ok (inject_Z (spec_aggregate (sample_item "0001" 4 3 2 1 0 0 0 0) selection),
                inject_Z (spec_aggregate (sample_item "0001" 4 3 2 1 0 0 0 0) selection))
       /\ snd (create_traffic_map default_args
                 (store_of [sample_item "0001" 4 3 2 1 0 0 0 0])) = Ok (Some 0%nat)
       /\ tier_of (icon_color mk) = Some low.
Proof.
  split.
  - exact (proj1 (zero_or_one_site default_args (store_of [])) eq_refl).
  - destruct (proj2 (zero_or_one_site default_args
                       (store_of [sample_item "0001" 4 3 2 1 0 0 0 0]))
                (sample_item "0001" 4 3 2 1 0 0 0 0) eq_refl
                ltac:(intros []; eexists; reflexivity)
                ltac:(constructor) eq_refl)
      as (cs & mk & Hsel & Hth & Hrun & _ & _ & Htier).
    exists cs, mk. split; [exact Hsel|]. split; [exact Hth|].
    split; [now rewrite Hrun | exact Htier].
Defined.

(** C7. Whenever the thresholds are computed, for a selection or for all
    classes, the low threshold (33rd percentile) is at most the high
    threshold (67th percentile). *)
Theorem thresholds_ordered (data : list Item)
    (selected_classes : option (list string)) (keys : list string)
    (highThreshold lowThreshold : Q) :
  thresholds data selected_classes keys = Ok (highThreshold, lowThreshold) ->
  (lowThreshold <= highThreshold)%Q.
Proof.
  unfold thresholds. intros H.
  destruct (truthy (selected selected_classes)).
  - injection H as H. pose proof (thresholds_of_ordered
      (map (fun d => combined_count_get d keys) data)) as Hle.
    rewrite H in Hle. exact Hle.
  - destruct (Res.mapM total_traffic data) as [all_totals|e]; [|discriminate].
    cbn [Res.bind] in H. injection H as H.
    pose proof (thresholds_of_ordered all_totals) as Hle.
    rewrite H in Hle. exact Hle.
Qed.

Lemma thresholds_ordered_witness :
  Qle (snd (thresholds_of [10; 50; 90])) (fst (thresholds_of [10; 50; 90]))
  /\ Qle (snd (thresholds_of [3; 12; 25])) (fst (thresholds_of [3; 12; 25])).
Proof.
  split.
  - exact (thresholds_ordered three_sites None [] _ _ eq_refl).
  - exact (thresholds_ordered three_sites (Some ["Class 4"; "Class 10"])
             ["Class4"; "Class10"] _ _ eq_refl).
Defined.

(** C8. Building the map for one selection and then for another leaves the
    list of site records as it was: no step of [create_traffic_map] writes
    to it, whether the run returns or raises. *)
Theorem site_records_unchanged (s : Store) (a1 a2 : MapArgs) :
  let s1 := fst (create_traffic_map a1 s) in
  let s2 := fst (create_traffic_map a2 s1) in
  st_data s1 = st_data s /\ st_data s2 = st_data s.
Proof.
  intros s1 s2. subst s1 s2. split.
  - apply preserves_create_traffic_map.
  - now rewrite !preserves_create_traffic_map.
Qed.

(** ** The distance and fuel estimator *)

Section Estimator.

Lemma calculate_distance_Some gmaps olat olon dest shown r :
  calculate_distance gmaps olat olon dest = (shown, Some r) ->
  exists client,
    gmaps = Some client /\ dest <> ""
    /\ shown = []
    /\ calculate_distance_body client olat olon dest = Ok (Some r).
Proof.
  unfold calculate_distance. intros H.
  destruct gmaps as [client|]; [|discriminate].
  destruct (String.eqb dest "") eqn:Hd; [discriminate|].
  apply String.eqb_neq in Hd.
  destruct (calculate_distance_body client olat olon dest) as [o|e] eqn:Hb;
    [|discriminate].
  injection H as <- ->. now exists client.
Qed.

Lemma calculate_distance_body_Some client olat olon dest r :
  calculate_distance_body client olat olon dest = Ok (Some r) ->
  exists g gs el row rows d t,
    geocode client dest = Ok (g :: gs)
    /\ distance_matrix client (olat, olon) (geo_lat g, geo_lng g)
       = Ok ((el :: row) :: rows)
    /\ status el = "OK"
    /\ el_distance el = Some d /\ el_duration el = Some t
    /\ r = {| distance := text d; duration := text t;
              distance_value := value d;
              destination_coords := (geo_lat g, geo_lng g) |}.
Proof.
  unfold calculate_distance_body. intros H.
  destruct (geocode client dest) as [[|g gs]|e] eqn:Hgeo; cbn in H;
    try discriminate.
  destruct (distance_matrix client (olat, olon) (geo_lat g, geo_lng g))
    as [[|[|el row] rows]|e] eqn:Hdm; cbn in H; try discriminate.
  destruct (String.eqb (status el) "OK") eqn:Hs; [|discriminate].
  apply String.eqb_eq in Hs.
  destruct (el_distance el) as [d|] eqn:Hd; cbn in H; [|discriminate].
  destruct (el_duration el) as [t|] eqn:Ht; cbn in H; [|discriminate].
  injection H as <-. exists g, gs, el, row, rows, d, t. repeat split; assumption || reflexivity.
Qed.
End Estimator.

(** C4. For every successful distance result the handler shows a fuel
    estimate of [(distance_value / 1000 / 100)] times the rate of the truck
    class and a hydrogen estimate of [fuel * 45 / 120]; the table has the
    seven rates of the specification; and 100,000 m with
    "Class 8 (Artic 5 Axle)" gives 30.44964 L and about 11.42 kg. *)
Theorem fuel_and_hydrogen_estimate :
  (forall gmaps data selected_site_index destination truck_class item shown r rate,
     data !! selected_site_index = Some item ->
     calculate_distance gmaps (lat (location (site item)))
       (long (location (site item))) destination = (shown, Some r) ->
     assoc truck_class fuel_consumption = Some rate ->
     let fuel := (inject_Z (distance_value r) / 1000 / 100 * rate)%Q in
     fuel_needed (distance_value r) truck_class = Ok fuel
     /\ on_calculate gmaps data selected_site_index destination truck_class
        = Ok [ StSuccess "Distance calculated successfully!";
               StMetric "Distance" (distance r);
               StMetric "Driving Time" (duration r);
               StMetricLitres "Estimated Fuel" fuel;
               StMetricKg "Hydrogen Usage" (fuel * 45 / 120)%Q;
               StInfo ("**Route Details:**" ++ nl
                       ++ "- **From:** " ++ site_option item ++ nl
                       ++ "- **To:** " ++ destination ++ nl
                       ++ "- **Truck Class:** " ++ truck_class) ])
  /\ map snd fuel_consumption
     = [ 1245859 # 100000; 2322869 # 100000; 2724712 # 100000; 3044964 # 100000;
         3814329 # 100000; 3814329 # 100000; 4148179 # 100000 ]%Q
  /\ (exists fuel,
        fuel_needed 100000 "Class 8 (Artic 5 Axle)" = Ok fuel
        /\ (fuel == 3044964 # 100000)%Q
        /\ (hydrogen_use fuel == (3044964 # 100000) * 45 / 120)%Q
        /\ (Qabs (hydrogen_use fuel - (1142 # 100)) <= 1 # 100)%Q).
Proof.
  split; [|split].
  - intros gmaps data i dest tc item shown r rate Hitem Hcalc Hrate fuel.
    assert (Hfuel : fuel_needed (distance_value r) tc = Ok fuel).
    { unfold fuel_needed, consumption_rate. rewrite Hrate. reflexivity. }
    split; [exact Hfuel|].
    destruct (calculate_distance_Some _ _ _ _ _ _ Hcalc)
      as (client & -> & Hdest & -> & _).
    unfold on_calculate.
    apply String.eqb_neq in Hdest. rewrite Hdest.
    rewrite bool_decide_true by eauto.
    cbn [negb andb]. unfold index. rewrite Hitem. cbn [Res.bind].
    rewrite Hcalc. rewrite Hfuel. reflexivity.
  - reflexivity.
  - eexists. split; [reflexivity|]. repeat split; vm_compute; congruence.
Qed.

Lemma fuel_and_hydrogen_estimate_witness :
  on_calculate (Some sample_client) three_sites 0 "Perth, Western Australia"
    "Class 8 (Artic 5 Axle)"
  = Ok [ StSuccess "Distance calculated successfully!";
         StMetric "Distance" "100 km";
         StMetric "Driving Time" "1 hour 10 mins";
         StMetricLitres "Estimated Fuel"
           (inject_Z 100000 / 1000 / 100 * (3044964 # 100000))%Q;
         StMetricKg "Hydrogen Usage"
           (inject_Z 100000 / 1000 / 100 * (3044964 # 100000) * 45 / 120)%Q;
         StInfo ("**Route Details:**" ++ nl
                 ++ "- **From:** Great Eastern Hwy - East of Northam" ++ nl
                 ++ "- **To:** Perth, Western Australia" ++ nl
                 ++ "- **Truck Class:** Class 8 (Artic 5 Axle)") ].
Proof.
  exact (proj2 (proj1 fuel_and_hydrogen_estimate
    (Some sample_client) three_sites 0%nat "Perth, Western Australia"
    "Class 8 (Artic 5 Axle)" (sample_item "0001" 4 3 2 1 0 0 0 0) []
    {| distance := "100 km"; duration := "1 hour 10 mins";
       distance_value := 100000;
       destination_coords := (-(3195 # 100), 11586 # 100)%Q |}
    (3044964 # 100000)%Q eq_refl eq_refl eq_refl)).
Defined.

(** C5. [calculate_distance] returns [None] when the client is missing, when
    geocoding finds nothing and when the first element's status is not OK;
    a result comes back only when the client is there, the destination is
    not empty, geocoding found something and the element is OK with its
    distance and duration; and the handler shows a fuel or hydrogen estimate
    only after such a result. *)
Theorem estimator_unavailable (gmaps : option Client) (origin_lat origin_lon : Q)
    (destination_address : string) :
  (gmaps = None ->
     calculate_distance gmaps origin_lat origin_lon destination_address = ([], None))
  /\ (forall client,
        gmaps = Some client ->
        geocode client destination_address = Ok [] ->
        calculate_distance gmaps origin_lat origin_lon destination_address
        = ([], None))
  /\ (forall client g gs el row rows,
        gmaps = Some client ->
        geocode client destination_address = Ok (g :: gs) ->
        distance_matrix client (origin_lat, origin_lon) (geo_lat g, geo_lng g)
        = Ok ((el :: row) :: rows) ->
        status el <> "OK" ->
        calculate_distance gmaps origin_lat origin_lon destination_address
        = ([], None))
  /\ (forall r,
        snd (calculate_distance gmaps origin_lat origin_lon destination_address)
        = Some r ->
        exists client g gs el row rows d t,
          gmaps = Some client /\ destination_address <> ""
          /\ geocode client destination_address = Ok (g :: gs)
          /\ distance_matrix client (origin_lat, origin_lon) (geo_lat g, geo_lng g)
             = Ok ((el :: row) :: rows)
          /\ status el = "OK"
          /\ el_distance el = Some d /\ el_duration el = Some t
          /\ r = {| distance := text d; duration := text t;
                    distance_value := value d;
                    destination_coords := (geo_lat g, geo_lng g) |})
  /\ (forall data selected_site_index truck_class shown,
        on_calculate gmaps data selected_site_index destination_address truck_class
        = Ok shown ->
        Exists shows_estimate shown ->
        exists item r,
          data !! selected_site_index = Some item
          /\ snd (calculate_distance gmaps (lat (location (site item)))
                    (long (location (site item))) destination_address)
             = Some r).
Proof.
  split; [|split; [|split; [|split]]].
  - intros ->. reflexivity.
  - intros client -> Hgeo. unfold calculate_distance, calculate_distance_body.
    destruct (String.eqb destination_address ""); [reflexivity|].
    rewrite Hgeo. reflexivity.
  - intros client g gs el row rows -> Hgeo Hdm Hst.
    unfold calculate_distance, calculate_distance_body.
    destruct (String.eqb destination_address ""); [reflexivity|].
    rewrite Hgeo. cbn [Res.bind truthy negb first_item]. rewrite Hdm.
    cbn [Res.bind first_item].
    apply String.eqb_neq in Hst. rewrite Hst. reflexivity.
  - intros r Hr.
    destruct (calculate_distance gmaps origin_lat origin_lon destination_address)
      as [shown o] eqn:Hcalc. cbn [snd] in Hr. subst o.
    destruct (calculate_distance_Some _ _ _ _ _ _ Hcalc)
      as (client & -> & Hdest & -> & Hbody).
    destruct (calculate_distance_body_Some _ _ _ _ _ Hbody)
      as (g & gs & el & row & rows & d & t & H1 & H2 & H3 & H4 & H5 & H6).
    exists client, g, gs, el, row, rows, d, t. repeat split; assumption.
  - intros data i tc shown Hrun Hex. unfold on_calculate in Hrun.
    destruct (negb (String.eqb destination_address "")
              && bool_decide (is_Some gmaps)) eqn:Hguard.
    + unfold index in Hrun.
      destruct (data !! i) as [item|] eqn:Hitem; [|discriminate].
      cbn [Res.bind] in Hrun.
      destruct (calculate_distance gmaps (lat (location (site item)))
                  (long (location (site item))) destination_address)
        as [ws [r|]] eqn:Hcalc.
      * exists item, r. split; [reflexivity|]. rewrite Hcalc. reflexivity.
      * exfalso. injection Hrun as <-.
        assert (Hws : Forall (fun w => ~ shows_estimate w) ws).
        { unfold calculate_distance in Hcalc.
          destruct gmaps as [client|]; [|injection Hcalc as <-; constructor].
          destruct (String.eqb destination_address "");
            [injection Hcalc as <-; constructor|].
          destruct (calculate_distance_body _ _ _ _);
            injection Hcalc as <-; repeat constructor. simpl. tauto. }
        apply Exists_app in Hex. destruct Hex as [Hex|Hex].
        -- rewrite List.Forall_forall in Hws. apply List.Exists_exists in Hex.
           destruct Hex as (w & Hin & Hw). exact (Hws w Hin Hw).
        -- inversion Hex as [? ? Hw|? ? Hw]; subst; [exact Hw | inversion Hw].
    + exfalso.
      destruct (String.eqb destination_address "").
      * injection Hrun as <-.
        inversion Hex as [? ? Hw|? ? Hw]; subst; [exact Hw | inversion Hw].
      * destruct (negb (bool_decide (is_Some gmaps))); injection Hrun as <-.
        -- inversion Hex as [? ? Hw|? ? Hw]; subst; [exact Hw | inversion Hw].
        -- inversion Hex.
Qed.

Lemma estimator_unavailable_witness :
  calculate_distance None 0%Q 0%Q "Perth" = ([], None)
  /\ calculate_distance (Some sample_client_no_geocode) 0%Q 0%Q "Nowhere"
     = ([], None)
  /\ calculate_distance (Some sample_client_no_route) 0%Q 0%Q "Perth" = ([], None)
  /\ exists client, Some sample_client = Some client.
Proof.
  split; [|split; [|split]].
  - exact (proj1 (estimator_unavailable None 0%Q 0%Q "Perth") eq_refl).
  - exact (proj1 (proj2 (estimator_unavailable
             (Some sample_client_no_geocode) 0%Q 0%Q "Nowhere"))
             sample_client_no_geocode eq_refl eq_refl).
  - refine (proj1 (proj2 (proj2 (estimator_unavailable
             (Some sample_client_no_route) 0%Q 0%Q "Perth")))
             sample_client_no_route _ _ _ _ _ eq_refl eq_refl eq_refl _).
    discriminate.
  - destruct (proj1 (proj2 (proj2 (proj2 (estimator_unavailable
               (Some sample_client) 0%Q 0%Q "Perth"))))
               {| distance := "100 km"; duration := "1 hour 10 mins";
                  distance_value := 100000;
                  destination_coords := (-(3195 # 100), 11586 # 100)%Q |}
               eq_refl)
      as (client & _ & _ & _ & _ & _ & _ & _ & Hc & _).
    exists client. exact Hc.
Defined.

(** ** The exported table *)

Section Table.


Lemma getitem_raise item key e : getitem item key = Raise e -> is_KeyError e.
Proof.
  unfold getitem. destruct (fields item !! key); [discriminate|].
  intros [= <-]. exact I.
Qed.

Lemma bind_raise {A B} (r : result A) (k : A -> result B) e :
  Res.bind r k = Raise e ->
  r = Raise e \/ exists a, r = Ok a /\ k a = Raise e.
Proof.
  destruct r as [a|e']; simpl; intros H; [right; eauto | left].
  now injection H as ->.
Qed.

Ltac raise_cases H :=
  repeat match type of H with
  | Res.bind _ _ = Raise _ =>
      apply bind_raise in H; destruct H as [H|(? & _ & H)];
      [solve [eauto using getitem_raise]|]
  | Ok _ = Raise _ => discriminate H
  end.

Lemma total_traffic_raise item e : total_traffic item = Raise e -> is_KeyError e.
Proof. unfold total_traffic. intros H. raise_cases H. Qed.

Lemma medium_trucks_raise item e : medium_trucks item = Raise e -> is_KeyError e.
Proof. unfold medium_trucks. intros H. raise_cases H. Qed.

Lemma heavy_trucks_raise item e : heavy_trucks item = Raise e -> is_KeyError e.
Proof. unfold heavy_trucks. intros H. raise_cases H. Qed.

Lemma truediv_positive (a : Q) (total : Z) :
  0 < total -> truediv a (inject_Z total) = Ok (a / inject_Z total)%Q.
Proof.
  intros H. unfold truediv.
  destruct (Qeq_bool (inject_Z total) 0) eqn:Hb; [|reflexivity].
  apply Qeq_bool_iff in Hb. unfold Qeq in Hb. simpl in Hb. lia.
Qed.

Lemma heavy_truck_pct_raise item e :
  heavy_truck_pct item = Raise e -> is_KeyError e.
Proof.
  unfold heavy_truck_pct. intros H.
  apply bind_raise in H. destruct H as [H|(cond & Hcond & H)];
    [eauto using total_traffic_raise|].
  destruct (0 <? cond) eqn:Hpos; [|discriminate].
  apply Z.ltb_lt in Hpos.
  apply bind_raise in H. destruct H as [H|(heavy & _ & H)];
    [eauto using heavy_trucks_raise|].
  apply bind_raise in H. destruct H as [H|(total & Htot & H)];
    [eauto using total_traffic_raise|].
  rewrite Hcond in Htot. injection Htot as <-.
  rewrite truediv_positive in H by assumption. discriminate.
Qed.

Lemma display_row_raise item e : display_row item = Raise e -> is_KeyError e.
Proof.
  unfold display_row. intros H.
  apply bind_raise in H. destruct H as [H|(? & _ & H)];
    [eauto using total_traffic_raise|].
  apply bind_raise in H. destruct H as [H|(? & _ & H)];
    [eauto using medium_trucks_raise|].
  apply bind_raise in H. destruct H as [H|(? & _ & H)];
    [eauto using heavy_trucks_raise|].
  apply bind_raise in H. destruct H as [H|(? & _ & H)];
    [eauto using heavy_truck_pct_raise | discriminate].
Qed.

Lemma mapM_raise {A B} (f : A -> result B) l e :
  Res.mapM f l = Raise e -> exists x, In x l /\ f x = Raise e.
Proof.
  induction l as [|x l IH]; simpl; intros H; [discriminate|].
  apply bind_raise in H. destruct H as [H|(y & _ & H)].
  - exists x. split; [now left | exact H].
  - apply bind_raise in H. destruct H as [H|(? & _ & H)]; [|discriminate].
    destruct (IH H) as (x' & Hin & Hx'). exists x'. split; [now right | exact Hx'].
Qed.

Lemma mapM_Forall2 {A B} (f : A -> result B) l ys :
  Res.mapM f l = Ok ys -> Forall2 (fun x y => f x = Ok y) l ys.
Proof.
  revert ys. induction l as [|x l IH]; simpl; intros ys H.
  - injection H as <-. constructor.
  - destruct (f x) as [y|] eqn:Hx; simpl in H; [|discriminate].
    destruct (Res.mapM f l) as [ys'|]; simpl in H; [|discriminate].
    injection H as <-. constructor; [exact Hx | now apply IH].
Qed.

Lemma mapM_total {A B} (f : A -> result B) (P : A -> Prop) l :
  (forall x, P x -> exists y, f x = Ok y) -> Forall P l ->
  exists ys, Res.mapM f l = Ok ys.
Proof.
  intros Hf. induction 1 as [|x l Hx Hl [ys IH]]; simpl.
  - now exists [].
  - destruct (Hf x Hx) as [y ->]. rewrite IH. simpl. now exists (y :: ys).
Qed.

Lemma medium_trucks_counts item :
  has_counts item ->
  medium_trucks item = Ok (count item C3 + count item C4 + count item C5).
Proof.
  intros Hwf. unfold medium_trucks.
  change "Class3" with (field C3). change "Class4" with (field C4).
  change "Class5" with (field C5). now rewrite !getitem_field.
Qed.

Lemma heavy_trucks_counts item :
  has_counts item ->
  heavy_trucks item
  = Ok (count item C6 + count item C7 + count item C8 + count item C9
        + count item C10).
Proof.
  intros Hwf. unfold heavy_trucks.
  change "Class6" with (field C6). change "Class7" with (field C7).
  change "Class8" with (field C8). change "Class9" with (field C9).
  change "Class10" with (field C10). now rewrite !getitem_field.
Qed.

(** The percentage of a well-formed record: the division happens only on
    the branch where the total is positive. *)
Lemma heavy_truck_pct_counts item :
  has_counts item ->
  heavy_truck_pct item
  = Ok (if 0 <? spec_aggregate item []
        then round2 (inject_Z (count item C6 + count item C7 + count item C8
                               + count item C9 + count item C10)
                     / inject_Z (spec_aggregate item []) * 100)
        else 0)%Q.
Proof.
  intros Hwf. unfold heavy_truck_pct.
  rewrite (total_traffic_counts item Hwf). cbn [Res.bind].
  fold (spec_aggregate item []).
  destruct (Z.ltb_spec 0 (spec_aggregate item [])) as [Hpos|Hle]; [|reflexivity].
  rewrite (heavy_trucks_counts item Hwf). cbn [Res.bind].
  now rewrite truediv_positive.
Qed.

Lemma display_row_counts item :
  has_counts item ->
  exists row,
    display_row item = Ok row
    /\ Site_Number row = siteNumber (site item)
    /\ Total_Vehicles row = spec_aggregate item []
    /\ Heavy_Truck_pct row
       = (if 0 <? spec_aggregate item []
          then round2 (inject_Z (count item C6 + count item C7 + count item C8
                                 + count item C9 + count item C10)
                       / inject_Z (spec_aggregate item []) * 100)
          else 0)%Q.
Proof.
  intros Hwf. unfold display_row.
  rewrite (total_traffic_counts item Hwf), (medium_trucks_counts item Hwf),
    (heavy_trucks_counts item Hwf), (heavy_truck_pct_counts item Hwf).
  cbn [Res.bind]. eexists. repeat split; reflexivity.
Qed.

Lemma display_row_total item row :
  display_row item = Ok row ->
  total_traffic item = Ok (Total_Vehicles row)
  /\ Site_Number row = siteNumber (site item).
Proof.
  unfold display_row. intros H.
  destruct (total_traffic item) as [total|]; [|discriminate].
  destruct (medium_trucks item) as [medium|]; [|discriminate].
  destruct (heavy_trucks item) as [heavy|]; [|discriminate].
  destruct (heavy_truck_pct item) as [pct|]; [|discriminate].
  cbn [Res.bind] in H. injection H as <-. split; reflexivity.
Qed.

(** *** Writing the export and reading it back *)

Lemma append_cons c (a b : string) : (String c a ++ b)%string = String c (a ++ b)%string.
Proof. reflexivity. Qed.

Lemma append_nil (b : string) : ("" ++ b)%string = b.
Proof. reflexivity. Qed.



























End Table.




(** C10. A site whose eight counts add up to 0 gets a Heavy Truck % of 0;
    the division is evaluated only when the total is strictly positive, so
    neither a row nor the table can raise [ZeroDivisionError]. *)
Theorem heavy_truck_pct_zero_total (item : Item) :
  (total_traffic item = Ok 0 ->
     heavy_truck_pct item = Ok 0%Q
     /\ exists row, display_row item = Ok row /\ Heavy_Truck_pct row = 0%Q)
  /\ (forall total,
        total_traffic item = Ok total -> total <= 0 ->
        heavy_truck_pct item = Ok 0%Q)
  /\ (forall total heavy,
        total_traffic item = Ok total -> heavy_trucks item = Ok heavy ->
        0 < total ->
        heavy_truck_pct item
        = Ok (round2 (inject_Z heavy / inject_Z total * 100))%Q)
  /\ heavy_truck_pct item <> Raise ZeroDivisionError
  /\ display_row item <> Raise ZeroDivisionError
  /\ (forall filtered_data,
        In item filtered_data ->
        display_data filtered_data <> Raise ZeroDivisionError).
Proof.
  split; [|split; [|split; [|split; [|split]]]].
  - intros Htot. destruct (total_traffic_inv item 0 Htot) as [Hwf Hagg].
    split.
    + rewrite (heavy_truck_pct_counts item Hwf), Hagg. reflexivity.
    + destruct (display_row_counts item Hwf) as (row & Hrow & _ & _ & Hpct).
      exists row. split; [exact Hrow|]. rewrite Hpct, Hagg. reflexivity.
  - intros total Htot Hle. unfold heavy_truck_pct. rewrite Htot. cbn [Res.bind].
    destruct (Z.ltb_spec 0 total); [lia | reflexivity].
  - intros total heavy Htot Hheavy Hpos. unfold heavy_truck_pct.
    rewrite Htot. cbn [Res.bind].
    destruct (Z.ltb_spec 0 total); [|lia].
    rewrite Hheavy. cbn [Res.bind]. now rewrite truediv_positive.
  - intros H. exact (heavy_truck_pct_raise _ _ H).
  - intros H. exact (display_row_raise _ _ H).
  - intros data _ H. destruct (mapM_raise _ _ _ H) as (x & _ & Hx).
    exact (display_row_raise _ _ Hx).
Qed.

Lemma heavy_truck_pct_zero_total_witness :
  heavy_truck_pct (sample_item "0004" 0 0 0 0 0 0 0 0) = Ok 0%Q
  /\ heavy_truck_pct (sample_item "0002" 10 10 10 5 5 5 3 2)
     = Ok (round2 (inject_Z 20 / inject_Z 50 * 100))%Q.
Proof.
  split.
  - exact (proj1 (proj1 (heavy_truck_pct_zero_total
             (sample_item "0004" 0 0 0 0 0 0 0 0)) eq_refl)).
  - exact (proj1 (proj2 (proj2 (heavy_truck_pct_zero_total
             (sample_item "0002" 10 10 10 5 5 5 3 2))))
             50 20 eq_refl eq_refl ltac:(lia)).
Defined.

(** * Further properties of the code *)

(** ** Thresholds and colours *)

Section Thresholds.

Lemma insert_sorted_comm x y l :
  insert_sorted x (insert_sorted y l) = insert_sorted y (insert_sorted x l).
Proof.
  induction l as [|z l IH]; simpl;
    repeat (match goal with
            | |- context [?a <=? ?b] => destruct (Z.leb_spec a b)
            end; simpl);
    try reflexivity; try lia;
    try (assert (x = y) by lia; subst; reflexivity).
  now rewrite IH.
Qed.

Lemma np_sort_Permutation l l' : Permutation l l' -> np_sort l = np_sort l'.
Proof.
  induction 1 as [|x l l' _ IH|x y l|l l' l'' _ IH1 _ IH2]; simpl.
  - reflexivity.
  - now rewrite IH.
  - apply insert_sorted_comm.
  - now rewrite IH1.
Qed.

Lemma np_sort_Forall (P : Z -> Prop) l : Forall P l -> Forall P (np_sort l).
Proof.
  induction 1 as [|x l Hx Hl IH]; simpl; [constructor|].
  now apply insert_sorted_Forall.
Qed.

Lemma np_quantile_within a q m M :
  a <> [] -> (0 <= q)%Q -> Forall (fun c => m <= c <= M) a ->
  (inject_Z m <= np_quantile a q <= inject_Z M)%Q.
Proof.
  intros Ha Hq Hall. rewrite np_quantile_interpolate.
  set (arr := np_sort a).
  assert (Harr : Forall (fun c => m <= c <= M) arr) by now apply np_sort_Forall.
  assert (Hasc : ascending arr) by apply np_sort_ascending.
  assert (Hlen : (0 < length arr)%nat).
  { unfold arr. rewrite np_sort_length. destruct a; [congruence | simpl; lia]. }
  assert (Hnth : forall i, (i < length arr)%nat -> m <= nth i arr 0 <= M).
  { intros i Hi. rewrite List.Forall_forall in Harr. apply Harr, nth_In, Hi. }
  set (v := (q * inject_Z (Z.of_nat (length arr) - 1))%Q).
  assert (Hv : (0 <= v)%Q).
  { unfold v. assert (0 <= inject_Z (Z.of_nat (length arr) - 1))%Q.
    { change 0%Q with (inject_Z 0). rewrite <- Zle_Qle. lia. }
    nra. }
  destruct (Qlt_le_dec v (inject_Z (Z.of_nat (length arr) - 1))) as [Hlt|Hge].
  - destruct (interpolate_between arr v Hasc Hv Hlt) as (Hj0 & Hjn & Hlo & Hhi).
    destruct (Hnth (Z.to_nat (Qfloor v))) as [H1 _]; [lia|].
    destruct (Hnth (Z.to_nat (Qfloor v + 1))) as [_ H2]; [lia|].
    rewrite Zle_Qle in H1, H2. split.
    + exact (Qle_trans _ _ _ H1 Hlo).
    + exact (Qle_trans _ _ _ Hhi H2).
  - unfold interpolate.
    assert (Hb : Qle_bool (inject_Z (Z.of_nat (length arr) - 1)) v = true)
      by now apply Qle_bool_iff.
    rewrite Hb.
    destruct (Hnth (Z.to_nat (Z.of_nat (length arr) - 1))) as [H1 H2]; [lia|].
    rewrite Zle_Qle in H1, H2. split; assumption.
Qed.

Lemma mapM_Permutation {A B} (f : A -> result B) l l' ys :
  Permutation l l' -> Res.mapM f l = Ok ys ->
  exists ys', Res.mapM f l' = Ok ys' /\ Permutation ys ys'.
Proof.
  intros Hp. revert ys.
  induction Hp as [|x l l' _ IH|x y l|l l' l'' _ IH1 _ IH2]; intros ys H.
  - exists ys. split; [exact H | reflexivity].
  - cbn [Res.mapM] in *. destruct (f x) as [b|]; [|discriminate].
    cbn [Res.bind] in *.
    destruct (Res.mapM f l) as [bs|]; [|discriminate].
    cbn [Res.bind] in H. injection H as <-.
    destruct (IH bs eq_refl) as (bs' & -> & Hbs). cbn [Res.bind].
    exists (b :: bs'). split; [reflexivity | now constructor].
  - cbn [Res.mapM] in *.
    destruct (f y) as [b|]; [|discriminate]. cbn [Res.bind] in *.
    destruct (f x) as [c|]; [|discriminate]. cbn [Res.bind] in *.
    destruct (Res.mapM f l) as [bs|]; [|discriminate].
    cbn [Res.bind] in *. injection H as <-.
    exists (c :: b :: bs). split; [reflexivity | constructor].
  - destruct (IH1 ys H) as (ys' & H' & Hp1).
    destruct (IH2 ys' H') as (ys'' & H'' & Hp2).
    exists ys''. split; [exact H'' | now transitivity ys'].
Qed.

Lemma thresholds_of_Permutation l l' :
  Permutation l l' -> thresholds_of l = thresholds_of l'.
Proof.
  intros Hp.
  assert (Ht : truthy l = truthy l').
  { pose proof (Permutation_length Hp) as Hlen.
    destruct l, l'; simpl in Hlen; try discriminate; reflexivity. }
  unfold thresholds_of, np_quantile.
  now rewrite Ht, (np_sort_Permutation l l' Hp).
Qed.
End Thresholds.

(** The thresholds of a non-empty list lie within any bounds of the list. *)
Lemma thresholds_of_bounds (counts : list Z) (m M : Z) :
  counts <> [] ->
  Forall (fun c => m <= c <= M) counts ->
  (inject_Z m <= snd (thresholds_of counts))%Q
  /\ (fst (thresholds_of counts) <= inject_Z M)%Q.
Proof.
  intros Hne Hall. unfold thresholds_of.
  destruct counts as [|c counts]; [congruence|]. cbn [truthy fst snd]. split.
  - refine (proj1 (np_quantile_within _ _ m M _ _ Hall)); [discriminate|].
    unfold Qle; simpl; lia.
  - refine (proj2 (np_quantile_within _ _ m M _ _ Hall)); [discriminate|].
    unfold Qle; simpl; lia.
Qed.

(** X1. Both thresholds lie between the smallest and the largest aggregate
    they are computed from. *)
Theorem thresholds_within_range (counts : list Z) (m M : Z) :
  counts <> [] ->
  Forall (fun c => m <= c <= M) counts ->
  (inject_Z m <= snd (thresholds_of counts))%Q
  /\ (snd (thresholds_of counts) <= fst (thresholds_of counts))%Q
  /\ (fst (thresholds_of counts) <= inject_Z M)%Q.
Proof.
  intros Hne Hall.
  destruct (thresholds_of_bounds counts m M Hne Hall) as [Hlow Hhigh].
  split; [exact Hlow|]. split; [|exact Hhigh].
  apply thresholds_of_ordered.
Qed.

Lemma thresholds_within_range_witness :
  Qle (inject_Z 3) (snd (thresholds_of [3; 12; 25]))
  /\ Qle (fst (thresholds_of [3; 12; 25])) (inject_Z 25).
Proof.
  destruct (thresholds_within_range [3; 12; 25] 3 25) as (H1 & _ & H2).
  - discriminate.
  - repeat constructor; lia.
  - split; assumption.
Defined.

(** X2. Among well-formed site records, a site whose aggregate is the
    smallest gets a green marker; so when all sites have the same aggregate
    every marker is green. *)
Theorem lowest_site_is_green (data : list Item)
    (selected_classes : option (list string)) (selection : list TruckClass)
    (top middle : Q) :
  Forall has_counts data ->
  selected selected_classes = map label selection ->
  thresholds data selected_classes (map field selection) = Ok (top, middle) ->
  (forall item,
     In item data ->
     (forall other, In other data ->
        spec_aggregate item selection <= spec_aggregate other selection) ->
     exists mk,
       site_marker selected_classes (map field selection) top middle item = Ok mk
       /\ icon_color mk = green)
  /\ ((forall x y, In x data -> In y data ->
         spec_aggregate x selection = spec_aggregate y selection) ->
      exists mks,
        Res.mapM (site_marker selected_classes (map field selection) top middle)
          data = Ok mks
        /\ Forall (fun mk => icon_color mk = green) mks).
Proof.
  intros Hwf Hsel Hth.
  assert (Hlow : forall item,
     In item data ->
     (forall other, In other data ->
        spec_aggregate item selection <= spec_aggregate other selection) ->
     tier_color (spec_aggregate item selection) top middle = green).
  { intros item Hin Hmin.
    rewrite (thresholds_spec _ selection _ Hwf Hsel) in Hth.
    injection Hth as Hth.
    set (counts := map (fun d => spec_aggregate d selection) data) in *.
    assert (Hne : counts <> []).
    { unfold counts. destruct data; [destruct Hin | discriminate]. }
    assert (Hmax : exists M, Forall (fun c => c <= M) counts).
    { clear. induction counts as [|c counts [M IH]].
      - exists 0. constructor.
      - exists (Z.max c M). constructor; [lia|].
        eapply Forall_impl; [exact IH|]. intros; simpl in *; lia. }
    destruct Hmax as [M HM].
    assert (Hall : Forall (fun c => spec_aggregate item selection <= c <= M) counts).
    { rewrite List.Forall_forall in *. intros c Hc. split; [|now apply HM].
      unfold counts in Hc. apply in_map_iff in Hc. destruct Hc as (d & <- & Hd).
      now apply Hmin. }
    destruct (thresholds_of_bounds counts _ M Hne Hall) as (H1 & _).
    pose proof (thresholds_of_ordered counts) as H2.
    rewrite Hth in H1, H2. cbn [fst snd] in H1, H2.
    unfold tier_color.
    assert (Hm : Qgt_bool (inject_Z (spec_aggregate item selection)) middle = false).
    { apply Qgt_bool_false. now apply Qle_not_lt. }
    assert (Ht : Qgt_bool (inject_Z (spec_aggregate item selection)) top = false).
    { apply Qgt_bool_false. apply Qle_not_lt. exact (Qle_trans _ _ _ H1 H2). }
    now rewrite Ht, Hm. }
  split.
  - intros item Hin Hmin.
    assert (Hitem : has_counts item).
    { rewrite List.Forall_forall in Hwf. now apply Hwf. }
    destruct (site_marker_spec selected_classes selection top middle item Hitem Hsel)
      as (mk & Hmk & _ & Hcol).
    exists mk. split; [exact Hmk|]. rewrite Hcol. now apply Hlow.
  - intros Htie.
    destruct (mapM_site_marker selected_classes selection top middle data Hwf Hsel)
      as (mks & Hmks & Hall).
    exists mks. split; [exact Hmks|].
    assert (Hgreen : forall item, In item data ->
              tier_color (spec_aggregate item selection) top middle = green).
    { intros item Hin. apply Hlow; [exact Hin|].
      intros other Hother. rewrite (Htie item other Hin Hother). lia. }
    clear - Hall Hgreen. induction Hall as [|item mk data mks [_ Hcol] _ IH].
    + constructor.
    + constructor.
      * rewrite Hcol. apply Hgreen. now left.
      * apply IH. intros item' Hin. apply Hgreen. now right.
Qed.

Lemma lowest_site_is_green_witness :
  exists mk,
    site_marker None [] (fst (thresholds_of [10; 50; 90]))
      (snd (thresholds_of [10; 50; 90])) (sample_item "0001" 4 3 2 1 0 0 0 0)
    = Ok mk
    /\ icon_color mk = green.
Proof.
  refine (proj1 (lowest_site_is_green three_sites None [] _ _ _ eq_refl eq_refl)
            (sample_item "0001" 4 3 2 1 0 0 0 0) _ _).
  - repeat constructor; intros []; eexists; reflexivity.
  - simpl. tauto.
  - intros other [<-|[<-|[<-|[]]]]; vm_compute; discriminate.
Defined.

(** X3. The colour never goes down when the aggregate goes up: for any two
    thresholds, a larger aggregate gets the same or a higher colour on the
    scale green, orange, red. *)
Theorem tier_color_monotone (count1 count2 : Z) (top middle : Q) :
  count1 <= count2 ->
  (rank (tier_color count1 top middle) <= rank (tier_color count2 top middle))%nat.
Proof.
  intros Hle. rewrite Zle_Qle in Hle. unfold tier_color.
  destruct (Qgt_bool (inject_Z count1) top) eqn:H1t.
  - apply Qgt_bool_true in H1t.
    assert (H2t : Qgt_bool (inject_Z count2) top = true).
    { apply Qgt_bool_true. exact (Qlt_le_trans _ _ _ H1t Hle). }
    rewrite H2t. simpl. lia.
  - destruct (Qgt_bool (inject_Z count1) middle) eqn:H1m.
    + apply Qgt_bool_true in H1m.
      assert (H2m : Qgt_bool (inject_Z count2) middle = true).
      { apply Qgt_bool_true. exact (Qlt_le_trans _ _ _ H1m Hle). }
      rewrite H2m. destruct (Qgt_bool (inject_Z count2) top); simpl; lia.
    + simpl. lia.
Qed.

Lemma tier_color_monotone_witness :
  (rank (tier_color 10 (636 # 10) (364 # 10))
   <= rank (tier_color 50 (636 # 10) (364 # 10)))%nat.
Proof. apply tier_color_monotone. lia. Defined.

(** X4. The thresholds do not depend on the order in which the sites are
    listed: if they are computed for a list of sites, the same thresholds are
    computed for every rearrangement of it. *)
Theorem thresholds_order_independent (data data' : list Item)
    (selected_classes : option (list string)) (keys : list string) (th : Q * Q) :
  Permutation data data' ->
  thresholds data selected_classes keys = Ok th ->
  thresholds data' selected_classes keys = Ok th.
Proof.
  intros Hp. unfold thresholds.
  destruct (truthy (selected selected_classes)).
  - intros [= <-]. f_equal. symmetry. apply thresholds_of_Permutation.
    now apply Permutation_map.
  - intros H.
    destruct (Res.mapM total_traffic data) as [all_totals|] eqn:Htot; [|discriminate].
    cbn [Res.bind] in H. injection H as <-.
    destruct (mapM_Permutation total_traffic data data' all_totals Hp Htot)
      as (all_totals' & -> & Hperm).
    cbn [Res.bind]. f_equal. symmetry. now apply thresholds_of_Permutation.
Qed.

Lemma thresholds_order_independent_witness :
  thresholds (rev three_sites) None [] = Ok (thresholds_of [10; 50; 90]).
Proof.
  apply (thresholds_order_independent three_sites (rev three_sites) None []).
  - apply Permutation_rev.
  - reflexivity.
Defined.

(** ** Every run of [create_traffic_map] *)

Section Built.

(** A run over a non-empty list of sites appends exactly the map of
    [built_map] to the maps of the store and ends as [built_map] says. *)
Lemma create_traffic_map_built a d maps :
  d <> [] ->
  create_traffic_map a {| st_data := d; st_maps := maps |}
  = ({| st_data := d; st_maps := maps ++ [fst (built_map a d)] |},
     handle_or_raise (length maps) (snd (built_map a d))).
Proof.
  intros Hne. unfold create_traffic_map, built_map.
  erewrite bind_run; [| reflexivity]. cbn [st_data].
  assert (Ht : negb (truthy d) = false) by (destruct d; [congruence | reflexivity]).
  rewrite Ht.
  assert (Hmap : forall f : Item -> Q, map f d <> [])
    by (intros f; destruct d; [congruence | discriminate]).
  erewrite bind_run;
    [| unfold lift; rewrite truediv_len by apply Hmap; reflexivity].
  erewrite bind_run;
    [| unfold lift; rewrite truediv_len by apply Hmap; reflexivity].
  erewrite bind_run; [| reflexivity]. cbn [st_data st_maps].
  fold (center d).
  destruct (class_keys (selected_classes a)) as [keys|e].
  2:{ erewrite bind_raise_run; [| reflexivity]. reflexivity. }
  erewrite bind_run; [| reflexivity].
  destruct (thresholds d (selected_classes a) keys) as [th|e].
  2:{ erewrite bind_raise_run; [| reflexivity]. reflexivity. }
  erewrite bind_run; [| reflexivity].
  set (fm0 := {| map_location := center d; zoom_start := 8;
                 tiles := "OpenStreetMap"; children := [] |}).
  set (r := if show_traffic a
            then collect (site_marker (selected_classes a) keys (fst th) (snd th)) d
            else ([], None)).
  assert (Htraffic :
    when (show_traffic a)
      (for_each d (fun item =>
         mk <- lift (site_marker (selected_classes a) keys (fst th) (snd th) item) ;;
         add_to (ChildMarker mk) (length maps)))
      {| st_data := d; st_maps := maps ++ [fm0] |}
    = ({| st_data := d;
          st_maps := maps ++ [add_children (map ChildMarker (fst r)) fm0] |},
       match snd r with None => Ok tt | Some e => Raise e end)).
  { unfold when, r. destruct (show_traffic a).
    - apply for_each_add_to_collect.
    - unfold ret. cbn [fst snd map]. now rewrite add_children_nil. }
  destruct (snd r) as [e|] eqn:Hr.
  - erewrite bind_raise_run; [| exact Htraffic]. reflexivity.
  - erewrite bind_run; [| exact Htraffic].
    rewrite overlays_run. rewrite !add_children_app. reflexivity.
Qed.
End Built.

(** X5. A run never touches the maps that are already in the store: it
    leaves them as they are and appends at most one map. It appends none when
    there is no site, and when it returns a map, that map is the one it
    appended. *)
Theorem earlier_maps_untouched (a : MapArgs) (s : Store) :
  exists new,
    st_maps (fst (create_traffic_map a s)) = (st_maps s ++ new)%list
    /\ (length new <= 1)%nat
    /\ (st_data s = [] -> new = [] /\ snd (create_traffic_map a s) = Ok None)
    /\ (forall m, snd (create_traffic_map a s) = Ok (Some m) ->
          m = length (st_maps s) /\ length new = 1%nat)
    /\ (forall e, snd (create_traffic_map a s) = Raise e -> length new = 1%nat).
Proof.
  destruct s as [d maps]. destruct d as [|d0 d].
  - exists []. rewrite create_traffic_map_no_data by reflexivity.
    cbn [fst snd st_maps st_data]. rewrite app_nil_r.
    split; [reflexivity|]. split; [simpl; lia|]. split; [split; reflexivity|].
    split; intros; discriminate.
  - exists [fst (built_map a (d0 :: d))].
    rewrite create_traffic_map_built by discriminate.
    cbn [fst snd st_maps st_data].
    split; [reflexivity|]. split; [simpl; lia|]. split; [discriminate|].
    split; [|reflexivity].
    intros m Hm. split; [|reflexivity].
    destruct (snd (built_map a (d0 :: d))); [discriminate|].
    now injection Hm.
Qed.

(** X6. A shown station row whose usage cell is empty (NaN) or holds a
    number makes [create_traffic_map] raise [TypeError]: the map stays in the
    store with the site markers and the markers of the rows before that one,
    and no route layer is added. The rows before it are taken to render, and
    the keys, the thresholds and the site markers to be computed. *)
Theorem empty_usage_cell_raises_TypeError (a : MapArgs) (s : Store)
    (keys : list string) (th : Q * Q) (mks : list Marker)
    (before after : list Station) (station : Station) :
  st_data s <> [] ->
  class_keys (selected_classes a) = Ok keys ->
  thresholds (st_data s) (selected_classes a) keys = Ok th ->
  (if show_traffic a
   then Res.mapM (site_marker (selected_classes a) keys (fst th) (snd th))
          (st_data s) = Ok mks
   else mks = []) ->
  show_hydrogen a = true ->
  hydrogen_stations a = Some (before ++ station :: after)%list ->
  Forall renders before ->
  (usage_case station = Some NaN
   \/ exists x, usage_case station = Some (Number x)) ->
  exists msg station_mks,
    Res.mapM station_marker before = Ok station_mks
    /\ length station_mks = length before
    /\ create_traffic_map a s
       = ({| st_data := st_data s;
             st_maps := st_maps s
               ++ [{| map_location := center (st_data s); zoom_start := 8;
                      tiles := "OpenStreetMap";
                      children := map ChildMarker mks
                                  ++ map ChildMarker station_mks |}] |},
          Raise (TypeError msg)).
Proof.
  intros Hne Hkeys Hth Hmks Hshow Hst Hbefore Husage.
  destruct (mapM_total station_marker renders before renders_station_marker Hbefore)
    as [station_mks Hsm].
  assert (Hraise : station_marker station
                   = Raise (TypeError "'float' object is not subscriptable")).
  { unfold station_marker. destruct Husage as [->|[x ->]]; reflexivity. }
  exists "'float' object is not subscriptable", station_mks.
  split; [exact Hsm|].
  split; [symmetry; exact (Forall2_length _ _ _ (mapM_Forall2 _ _ _ Hsm))|].
  rewrite (create_traffic_map_run a s keys th mks Hne Hkeys Hth Hmks).
  assert (Hrows : station_rows a = (before ++ station :: after)%list).
  { unfold station_rows. rewrite Hshow, Hst. cbn [andb default].
    destruct before; reflexivity. }
  assert (Hcol : collect station_marker (before ++ station :: after)%list
                 = (station_mks,
                    Some (TypeError "'float' object is not subscriptable"))).
  { clear - Hsm Hraise. revert station_mks Hsm.
    induction before as [|b before IH]; intros station_mks Hsm.
    - cbn [Res.mapM] in Hsm. injection Hsm as <-.
      cbn [app collect]. now rewrite Hraise.
    - cbn [Res.mapM] in Hsm.
      destruct (station_marker b) as [mk|] eqn:Hb; [|discriminate].
      cbn [Res.bind] in Hsm.
      destruct (Res.mapM station_marker before) as [ms|] eqn:Hms; [|discriminate].
      cbn [Res.bind] in Hsm. injection Hsm as <-.
      change ((b :: before) ++ station :: after)%list
        with (b :: (before ++ station :: after))%list.
      cbn [collect]. rewrite Hb, (IH ms eq_refl). reflexivity. }
  unfold overlay_children, overlay_outcome, station_markers.
  rewrite Hrows, Hcol. cbn [fst snd handle_or_raise]. now rewrite app_nil_r.
Qed.

Lemma empty_usage_cell_raises_TypeError_witness :
  exists msg,
    snd (create_traffic_map
           (stations_args [sample_station; station_without_usage; sample_station])
           (store_of three_sites))
    = Raise (TypeError msg).
Proof.
  destruct (empty_usage_cell_raises_TypeError
              (stations_args [sample_station; station_without_usage; sample_station])
              (store_of three_sites) []
              (thresholds_of [10; 50; 90])
              (fst (collect (site_marker None [] (fst (thresholds_of [10; 50; 90]))
                               (snd (thresholds_of [10; 50; 90]))) three_sites))
              [sample_station] [sample_station] station_without_usage)
    as (msg & station_mks & _ & _ & Hrun).
  - discriminate.
  - reflexivity.
  - reflexivity.
  - reflexivity.
  - reflexivity.
  - reflexivity.
  - constructor; [|constructor].
    split; [right; eexists; reflexivity | split; eexists; reflexivity].
  - left. reflexivity.
  - exists msg. now rewrite Hrun.
Defined.

(** ** Malformed input to [create_traffic_map] *)

Section Malformed.

Lemma mapM_In_raise {A B} (f : A -> result B) l x e :
  In x l -> f x = Raise e ->
  exists e' x', Res.mapM f l = Raise e' /\ In x' l /\ f x' = Raise e'.
Proof.
  induction l as [|y l IH]; intros Hin Hx; [destruct Hin|].
  cbn [Res.mapM]. destruct (f y) as [b|e0] eqn:Hy.
  - destruct Hin as [->|Hin]; [congruence|].
    destruct (IH Hin Hx) as (e' & x' & Hm & Hin' & Hx').
    exists e', x'. rewrite Hm. cbn [Res.bind]. split; [reflexivity|].
    split; [now right | exact Hx'].
  - exists e0, y. split; [reflexivity|]. split; [now left | exact Hy].
Qed.

Lemma getitem_raise_key item key e :
  getitem item key = Raise e -> e = KeyError key /\ fields item !! key = None.
Proof.
  unfold getitem. destruct (fields item !! key); [discriminate|].
  intros [= <-]. split; reflexivity.
Qed.

Lemma getitem_missing item key :
  fields item !! key = None -> getitem item key = Raise (KeyError key).
Proof. unfold getitem. now intros ->. Qed.

Lemma total_traffic_raise_field item e :
  total_traffic item = Raise e ->
  exists c, e = KeyError (field c) /\ fields item !! field c = None.
Proof.
  unfold total_traffic. intros H.
  repeat match type of H with
  | Res.bind (getitem item ?k) _ = Raise _ =>
      apply bind_raise in H; destruct H as [H|(? & _ & H)];
      [apply getitem_raise_key in H; destruct H as [-> H]|]
  end; try discriminate.
  - now exists C3.
  - now exists C4.
  - now exists C5.
  - now exists C6.
  - now exists C7.
  - now exists C8.
  - now exists C9.
  - now exists C10.
Qed.

Lemma total_traffic_missing item c :
  fields item !! field c = None -> exists e, total_traffic item = Raise e.
Proof.
  intros Hc. destruct (total_traffic item) as [t|e] eqn:Ht; [|now exists e].
  destruct (total_traffic_inv item t Ht) as [Hwf _].
  destruct (Hwf c) as [v Hv]. congruence.
Qed.

Lemma sumM_getitem_raise item keys e :
  Res.sumM (getitem item) keys = Raise e ->
  exists key, In key keys /\ e = KeyError key /\ fields item !! key = None.
Proof.
  induction keys as [|k keys IH]; cbn [Res.sumM]; intros H; [discriminate|].
  apply bind_raise in H. destruct H as [H|(v & _ & H)].
  - apply getitem_raise_key in H. destruct H as [-> H].
    exists k. split; [now left | now split].
  - apply bind_raise in H. destruct H as [H|(? & _ & H)]; [|discriminate].
    destruct (IH H) as (key & Hin & He & Hk).
    exists key. split; [now right | now split].
Qed.

Lemma sumM_getitem_missing item keys key :
  In key keys -> fields item !! key = None ->
  exists e, Res.sumM (getitem item) keys = Raise e.
Proof.
  induction keys as [|k keys IH]; intros Hin Hk; [destruct Hin|].
  cbn [Res.sumM]. destruct (getitem item k) as [v|e] eqn:Hv.
  - destruct Hin as [->|Hin].
    + rewrite (getitem_missing _ _ Hk) in Hv. discriminate.
    + destruct (IH Hin Hk) as [e ->]. now exists e.
  - now exists e.
Qed.

(** With labels of the sidebar, whatever the loop body raises is a
    [KeyError]. *)
Lemma site_marker_raise sc cs top middle item e :
  selected sc = map label cs ->
  site_marker sc (map field cs) top middle item = Raise e -> is_KeyError e.
Proof.
  intros Hsel H. unfold site_marker in H.
  apply bind_raise in H. destruct H as [H|(popup & _ & H)].
  - unfold site_popup in H. rewrite Hsel in H.
    destruct (truthy (map label cs)).
    + apply bind_raise in H. destruct H as [H|(? & _ & H)].
      { destruct (sumM_getitem_raise _ _ _ H) as (k & _ & -> & _). exact I. }
      apply bind_raise in H. destruct H as [H|(? & _ & H)].
      { apply mapM_raise in H. destruct H as (name & Hin & H).
        apply in_map_iff in Hin. destruct Hin as (c & <- & _).
        rewrite class_key_label in H. cbn [Res.bind] in H.
        apply bind_raise in H. destruct H as [H|(? & _ & H)]; [|discriminate].
        exact (getitem_raise _ _ _ H). }
      apply bind_raise in H. destruct H as [H|(? & _ & H)]; [|discriminate].
      exact (total_traffic_raise _ _ H).
    + apply bind_raise in H. destruct H as [H|(? & _ & H)];
        [exact (total_traffic_raise _ _ H)|].
      repeat match type of H with
      | Res.bind (getitem item ?k) _ = Raise _ =>
          apply bind_raise in H; destruct H as [H|(? & _ & H)];
          [exact (getitem_raise _ _ _ H)|]
      end. discriminate.
  - apply bind_raise in H. destruct H as [H|(? & _ & H)]; [|discriminate].
    unfold site_color_tooltip in H. destruct (truthy (selected sc)).
    + apply bind_raise in H. destruct H as [H|(? & _ & H)]; [|discriminate].
      destruct (sumM_getitem_raise _ _ _ H) as (k & _ & -> & _). exact I.
    + apply bind_raise in H. destruct H as [H|(? & _ & H)]; [|discriminate].
      exact (total_traffic_raise _ _ H).
Qed.

Lemma site_marker_missing sc cs top middle item c :
  selected sc = map label cs -> In c cs -> fields item !! field c = None ->
  exists e, site_marker sc (map field cs) top middle item = Raise e.
Proof.
  intros Hsel Hin Hc. unfold site_marker, site_popup. rewrite Hsel.
  destruct cs as [|c0 cs]; [destruct Hin|]. cbn [map truthy].
  destruct (sumM_getitem_missing item (map field (c0 :: cs)) (field c)) as [e He].
  - now apply in_map.
  - exact Hc.
  - unfold combined_count. cbn [map] in He. rewrite He. now exists e.
Qed.

Ltac bools :=
  repeat match goal with
  | H : _ && _ = true |- _ => apply andb_true_iff in H; destruct H
  | H : _ || _ = true |- _ => apply orb_true_iff in H; destruct H
  | H : (_ =? _)%N = true |- _ => apply N.eqb_eq in H
  | H : (_ <=? _)%N = true |- _ => apply N.leb_le in H
  end.

Lemma isspace_continuation c : isspace c = true -> continuation c = false.
Proof.
  unfold isspace, continuation. intros H. bools;
    apply andb_false_iff; left; apply N.leb_gt; lia.
Qed.

Lemma isspace2_continuation c1 c2 :
  isspace2 c1 c2 = true -> continuation c1 = false /\ continuation c2 = true.
Proof.
  unfold isspace2, continuation. intros H. bools; split;
    try (apply andb_false_iff; right; apply N.leb_gt; lia);
    apply andb_true_iff; split; apply N.leb_le; lia.
Qed.

Lemma isspace3_continuation c1 c2 c3 :
  isspace3 c1 c2 c3 = true ->
  continuation c1 = false /\ continuation c2 = true /\ continuation c3 = true.
Proof.
  unfold isspace3, continuation. intros H. bools; (split; [|split]);
    try (apply andb_false_iff; right; apply N.leb_gt; lia);
    apply andb_true_iff; split; apply N.leb_le; lia.
Qed.

Lemma not_isspace2 c1 c2 : continuation c2 = false -> isspace2 c1 c2 = false.
Proof.
  intros H. destruct (isspace2 c1 c2) eqn:E; [|reflexivity].
  apply isspace2_continuation in E. destruct E. congruence.
Qed.

Lemma not_isspace3_2 c1 c2 c3 : continuation c2 = false -> isspace3 c1 c2 c3 = false.
Proof.
  intros H. destruct (isspace3 c1 c2 c3) eqn:E; [|reflexivity].
  apply isspace3_continuation in E. destruct E as (_ & ? & _). congruence.
Qed.

Lemma not_isspace3_3 c1 c2 c3 : continuation c3 = false -> isspace3 c1 c2 c3 = false.
Proof.
  intros H. destruct (isspace3 c1 c2 c3) eqn:E; [|reflexivity].
  apply isspace3_continuation in E. destruct E as (_ & _ & ?). congruence.
Qed.

Lemma scan_cons c1 s1 :
  scan (String c1 s1)
  = if isspace c1 then None :: scan s1 else
    match s1 with
    | String c2 s2 =>
        if isspace2 c1 c2 then None :: scan s2 else
        match s2 with
        | String c3 s3 =>
            if isspace3 c1 c2 c3 then None :: scan s3 else Some c1 :: scan s1
        | EmptyString => Some c1 :: scan s1
        end
    | EmptyString => Some c1 :: scan s1
    end.
Proof. reflexivity. Qed.

Lemma scan_app_aux n : forall a b,
  (String.length a <= n)%nat -> starts_clean b = true ->
  scan (a ++ b) = (scan a ++ scan b)%list.
Proof.
  induction n as [|n IH]; intros a b Hlen Hb.
  - destruct a; [reflexivity | simpl in Hlen; lia].
  - destruct a as [|c1 a1]; [reflexivity|].
    cbn [String.length] in Hlen.
    rewrite append_cons, (scan_cons c1 (a1 ++ b)), (scan_cons c1 a1).
    destruct (isspace c1).
    { cbn [app]. f_equal. apply IH; [lia | exact Hb]. }
    destruct a1 as [|c2 a2].
    { rewrite append_nil. cbn [scan app].
      destruct b as [|c2 b2]; [reflexivity|].
      cbn [starts_clean] in Hb. apply negb_true_iff in Hb.
      rewrite (not_isspace2 c1 c2 Hb).
      destruct b2 as [|c3 b3]; [reflexivity|].
      now rewrite (not_isspace3_2 c1 c2 c3 Hb). }
    cbn [String.length] in Hlen.
    rewrite append_cons. cbv beta iota.
    destruct (isspace2 c1 c2).
    { cbn [app]. f_equal. apply IH; [lia | exact Hb]. }
    assert (Htail : scan (String c2 (a2 ++ b))
                    = (scan (String c2 a2) ++ scan b)%list).
    { rewrite <- append_cons. apply IH; [simpl; lia | exact Hb]. }
    destruct a2 as [|c3 a3].
    { rewrite append_nil in *.
      destruct b as [|c3 b3].
      - change (scan "") with (@nil (option ascii)). now rewrite app_nil_r.
      - cbn [starts_clean] in Hb. apply negb_true_iff in Hb.
        rewrite (not_isspace3_3 c1 c2 c3 Hb).
        rewrite Htail. reflexivity. }
    cbn [String.length] in Hlen.
    rewrite append_cons in *. cbv beta iota.
    destruct (isspace3 c1 c2 c3).
    { cbn [app]. f_equal. apply IH; [lia | exact Hb]. }
    rewrite Htail. reflexivity.
Qed.

Lemma scan_app a b :
  starts_clean b = true -> scan (a ++ b) = (scan a ++ scan b)%list.
Proof. apply (scan_app_aux (String.length a)). lia. Qed.

Lemma scan_nil s : scan s = [] -> s = "".
Proof.
  destruct s as [|c1 [|c2 [|c3 s3]]]; cbn [scan]; [reflexivity|..];
    repeat match goal with |- context [if ?b then _ else _] => destruct b end;
    discriminate.
Qed.

Lemma whitespace_scan sep w :
  whitespace sep ->
  starts_clean sep = true /\ scan (sep ++ w) = None :: scan w.
Proof.
  unfold whitespace. intros H.
  destruct sep as [|c1 s1]; [discriminate|].
  rewrite scan_cons in H. rewrite append_cons, scan_cons. cbn [starts_clean].
  destruct (isspace c1) eqn:H1.
  { injection H as H. apply scan_nil in H. subst s1.
    split; [now rewrite (isspace_continuation c1 H1) | reflexivity]. }
  destruct s1 as [|c2 s2]; [discriminate|].
  rewrite append_cons. cbv beta iota in *.
  destruct (isspace2 c1 c2) eqn:H2.
  { injection H as H. apply scan_nil in H. subst s2.
    destruct (isspace2_continuation c1 c2 H2) as [-> _]. split; reflexivity. }
  destruct s2 as [|c3 s3]; [discriminate|].
  rewrite append_cons. cbv beta iota in *.
  destruct (isspace3 c1 c2 c3) eqn:H3; [|discriminate].
  injection H as H. apply scan_nil in H. subst s3.
  destruct (isspace3_continuation c1 c2 c3 H3) as [-> _]. split; reflexivity.
Qed.

Lemma scan_spaceless s :
  spaceless s = true -> scan s = map Some (list_ascii_of_string s).
Proof.
  unfold spaceless. induction s as [|c1 s1 IH]; [reflexivity|].
  rewrite scan_cons. cbn [list_ascii_of_string map].
  destruct (isspace c1); [discriminate|].
  destruct s1 as [|c2 s2].
  { reflexivity. }
  cbv beta iota.
  destruct (isspace2 c1 c2); [discriminate|].
  destruct s2 as [|c3 s3].
  { cbn [forallb]. intros H. f_equal. apply IH. exact H. }
  cbv beta iota.
  destruct (isspace3 c1 c2 c3); [discriminate|].
  cbn [forallb]. intros H. f_equal. apply IH. exact H.
Qed.

Lemma word_of_cons c cur : word_of (c :: cur) = [string_of_list_ascii (rev (c :: cur))].
Proof. reflexivity. Qed.

Lemma split_aux_blank cur l :
  forallb (fun m => match m with None => true | Some _ => false end) l = true ->
  split_aux cur l = word_of cur.
Proof.
  revert cur. induction l as [|[c|] l IH]; intros cur H; cbn [forallb] in H.
  - reflexivity.
  - discriminate.
  - cbn [split_aux]. rewrite (IH [] H). cbn [word_of]. now rewrite app_nil_r.
Qed.

Lemma split_aux_not_nil cur l :
  split_aux cur l = [] ->
  cur = []
  /\ forallb (fun m => match m with None => true | Some _ => false end) l = true.
Proof.
  revert cur. induction l as [|[c|] l IH]; intros cur H; cbn [split_aux forallb] in *.
  - destruct cur; [now split | discriminate].
  - destruct (IH _ H) as [Hcur _]. discriminate.
  - apply app_eq_nil in H. destruct H as [Hw H].
    destruct (IH _ H) as [_ Hl]. destruct cur; [now split | discriminate].
Qed.

Lemma string_of_list_ascii_app l s :
  string_of_list_ascii (l ++ list_ascii_of_string s)
  = (string_of_list_ascii l ++ s)%string.
Proof.
  induction l as [|c l IH]; cbn.
  - apply string_of_list_ascii_of_string.
  - now rewrite IH.
Qed.

Lemma split_aux_word cur s :
  (cur <> [] \/ s <> "") ->
  split_aux cur (map Some (list_ascii_of_string s))
  = [(string_of_list_ascii (rev cur) ++ s)%string].
Proof.
  revert cur. induction s as [|c s IH]; intros cur Hne.
  - cbn [list_ascii_of_string map split_aux].
    destruct cur; [destruct Hne; congruence|].
    rewrite word_of_cons. f_equal.
    rewrite <- (string_of_list_ascii_app _ ""). cbn [list_ascii_of_string].
    now rewrite app_nil_r.
  - cbn [list_ascii_of_string map split_aux].
    rewrite IH by (left; discriminate).
    f_equal. cbn [rev].
    rewrite <- (string_of_list_ascii_app (rev cur ++ [c]) s).
    rewrite <- (string_of_list_ascii_app (rev cur) (String c s)).
    cbn [list_ascii_of_string]. now rewrite <- app_assoc.
Qed.

Lemma last_item_app {A} (l1 l2 : list A) y :
  last_item l2 = Ok y -> last_item (l1 ++ l2) = Ok y.
Proof.
  unfold last_item. rewrite rev_app_distr.
  destruct (List.rev l2); [discriminate|]. now intros [= ->].
Qed.

Lemma last_item_split_aux cur l w :
  w <> "" ->
  last_item (split_aux cur (l ++ None :: map Some (list_ascii_of_string w))) = Ok w.
Proof.
  intros Hne. revert cur.
  assert (H : last_item (split_aux [] (map Some (list_ascii_of_string w))) = Ok w).
  { rewrite split_aux_word by now right. reflexivity. }
  induction l as [|[c|] l IH]; intros cur; cbn [app split_aux].
  - now apply last_item_app.
  - apply IH.
  - apply last_item_app, IH.
Qed.

End Malformed.

(** X7. Without a class selection, a site record that lacks one of the
    eight counts makes [create_traffic_map] raise a [KeyError] for a count
    some record lacks, whether or not the traffic layer is shown; the empty
    map it had allocated stays in the store. *)
Theorem missing_count_raises_KeyError (a : MapArgs) (s : Store)
    (item : Item) (c : TruckClass) :
  selected (selected_classes a) = [] ->
  In item (st_data s) ->
  fields item !! field c = None ->
  exists c' item',
    In item' (st_data s) /\ fields item' !! field c' = None
    /\ create_traffic_map a s
       = ({| st_data := st_data s;
             st_maps := st_maps s
               ++ [{| map_location := center (st_data s); zoom_start := 8;
                      tiles := "OpenStreetMap"; children := [] |}] |},
          Raise (KeyError (field c'))).
Proof.
  intros Hsel Hin Hc. destruct s as [d maps]. cbn [st_data st_maps] in *.
  destruct (total_traffic_missing item c Hc) as [e He].
  destruct (mapM_In_raise total_traffic d item e Hin He) as (e' & item' & Hm & Hin' & He').
  destruct (total_traffic_raise_field item' e' He') as (c' & -> & Hc').
  exists c', item'. split; [exact Hin'|]. split; [exact Hc'|].
  rewrite create_traffic_map_built by (intros ->; destruct Hin).
  unfold built_map, class_keys, thresholds. rewrite Hsel. cbn [truthy].
  rewrite Hm. reflexivity.
Qed.

Lemma missing_count_raises_KeyError_witness :
  exists c' item',
    In item' [sample_item "0001" 4 3 2 1 0 0 0 0; site_without_class8]
    /\ fields item' !! field c' = None
    /\ snd (create_traffic_map default_args
              (store_of [sample_item "0001" 4 3 2 1 0 0 0 0; site_without_class8]))
       = Raise (KeyError (field c')).
Proof.
  destruct (missing_count_raises_KeyError default_args
              (store_of [sample_item "0001" 4 3 2 1 0 0 0 0; site_without_class8])
              site_without_class8 C8 eq_refl)
    as (c' & item' & Hin & Hc & Hrun).
  - simpl. tauto.
  - reflexivity.
  - exists c', item'. split; [exact Hin|]. split; [exact Hc|]. now rewrite Hrun.
Defined.

(** X8. With a class selection and the traffic layer hidden, no count is
    read with [item[key]]: for any site records, complete or not,
    [create_traffic_map] builds a map that holds just the overlays, and
    returns it unless a row of a shown station table raises. *)
Theorem hidden_traffic_accepts_any_records (a : MapArgs) (s : Store)
    (keys : list string) :
  st_data s <> [] ->
  truthy (selected (selected_classes a)) = true ->
  class_keys (selected_classes a) = Ok keys ->
  show_traffic a = false ->
  create_traffic_map a s
  = ({| st_data := st_data s;
        st_maps := st_maps s
          ++ [{| map_location := center (st_data s); zoom_start := 8;
                 tiles := "OpenStreetMap";
                 children := overlay_children a |}] |},
     handle_or_raise (length (st_maps s)) (overlay_outcome a))
  /\ (Forall renders (station_rows a) -> overlay_outcome a = None)
  /\ (forall e, overlay_outcome a = Some e ->
        exists station,
          In station (station_rows a) /\ station_marker station = Raise e).
Proof.
  intros Hne Hsel Hkeys Htraffic.
  split; [|split; [apply overlay_outcome_renders | apply overlay_outcome_raise]].
  apply (create_traffic_map_run a s keys
           (thresholds_of (map (fun d => combined_count_get d keys) (st_data s))) []);
    try assumption.
  - unfold thresholds. now rewrite Hsel.
  - now rewrite Htraffic.
Qed.

Lemma hidden_traffic_accepts_any_records_witness :
  snd (create_traffic_map
         (args_with false (Some ["Class 8"]))
         (store_of [site_without_class8]))
  = Ok (Some 0%nat).
Proof.
  rewrite (proj1 (hidden_traffic_accepts_any_records
                    (args_with false (Some ["Class 8"]))
                    (store_of [site_without_class8]) ["Class8"]
                    ltac:(discriminate) eq_refl eq_refl eq_refl)).
  reflexivity.
Defined.

(** X9. With a selection from the sidebar and the traffic layer shown, a
    site record that lacks a selected count makes [create_traffic_map] raise a
    [KeyError], although the thresholds were computed, that count taken as
    0. *)
Theorem missing_selected_count_raises_KeyError (a : MapArgs) (s : Store)
    (selection : list TruckClass) (item : Item) (c : TruckClass) :
  selected (selected_classes a) = map label selection ->
  In c selection ->
  In item (st_data s) ->
  fields item !! field c = None ->
  show_traffic a = true ->
  thresholds (st_data s) (selected_classes a) (map field selection)
  = Ok (thresholds_of
          (map (fun d => combined_count_get d (map field selection)) (st_data s)))
  /\ exists key, snd (create_traffic_map a s) = Raise (KeyError key).
Proof.
  intros Hsel Hc Hin Hmiss Htraffic. destruct s as [d maps].
  cbn [st_data st_maps] in *.
  assert (Hth : thresholds d (selected_classes a) (map field selection)
                = Ok (thresholds_of
                        (map (fun d => combined_count_get d (map field selection)) d))).
  { unfold thresholds. rewrite Hsel. destruct selection; [destruct Hc|]. reflexivity. }
  split; [exact Hth|].
  rewrite create_traffic_map_built by (intros ->; destruct Hin).
  unfold built_map. rewrite (class_keys_labels _ _ Hsel), Hth, Htraffic.
  set (th := thresholds_of _).
  destruct (site_marker_missing (selected_classes a) selection (fst th) (snd th)
              item c Hsel Hc Hmiss) as [e He].
  destruct (mapM_In_raise _ d item e Hin He) as (e' & item' & Hm & _ & He').
  pose proof (collect_mapM
    (site_marker (selected_classes a) (map field selection) (fst th) (snd th)) d)
    as Hcol.
  destruct (snd (collect _ d)) as [e''|].
  - cbn [snd handle_or_raise].
    rewrite Hm in Hcol. injection Hcol as <-.
    pose proof (site_marker_raise _ _ _ _ _ _ Hsel He') as Hk.
    destruct e'; try destruct Hk. now exists key.
  - rewrite Hm in Hcol. discriminate.
Qed.

Lemma missing_selected_count_raises_KeyError_witness :
  exists key,
    snd (create_traffic_map
           (args_with true (Some ["Class 8"]))
           (store_of [site_without_class8]))
    = Raise (KeyError key).
Proof.
  refine (proj2 (missing_selected_count_raises_KeyError
            (args_with true (Some ["Class 8"]))
            (store_of [site_without_class8]) [C8] site_without_class8 C8
            eq_refl _ _ eq_refl eq_refl)); simpl; tauto.
Defined.

(** X10. The class key is built from the last word of the class name alone:
    whatever precedes the last whitespace character, the key is "Class"
    followed by the word after it. The whitespace characters are those of
    [str.isspace], the no-break space and the other Unicode spaces
    included. *)
Theorem class_key_last_word (before sep word : string) :
  whitespace sep ->
  spaceless word = true ->
  word <> "" ->
  class_key (before ++ sep ++ word) = Ok ("Class" ++ word).
Proof.
  intros Hsep Hw Hne. unfold class_key, split.
  destruct (whitespace_scan sep word Hsep) as [Hclean Hscan].
  rewrite scan_app.
  - rewrite Hscan, (scan_spaceless word Hw).
    now rewrite (last_item_split_aux [] (scan before) word Hne).
  - destruct sep; [discriminate|]. exact Hclean.
Qed.

Lemma class_key_last_word_witness :
  class_key ("Heavy  vehicles class" ++ nbsp ++ "10") = Ok ("Class" ++ "10").
Proof.
  apply class_key_last_word; [reflexivity | reflexivity | discriminate].
Defined.

(** X11. A class name that is empty or all whitespace (the no-break space
    and the other Unicode spaces counting as whitespace) has no last word:
    [class_key] raises [IndexError] on it, raises on no other name, and a
    selection that holds such a name makes [create_traffic_map] raise
    [IndexError] after it has allocated the map. *)
Theorem blank_class_name_raises_IndexError (a : MapArgs) (s : Store)
    (class_name : string) :
  (blank class_name = true <-> class_key class_name = Raise IndexError)
  /\ (forall e, class_key class_name = Raise e -> e = IndexError)
  /\ (blank class_name = true ->
      In class_name (selected (selected_classes a)) ->
      st_data s <> [] ->
      create_traffic_map a s
      = ({| st_data := st_data s;
            st_maps := st_maps s
              ++ [{| map_location := center (st_data s); zoom_start := 8;
                     tiles := "OpenStreetMap"; children := [] |}] |},
         Raise IndexError)).
Proof.
  assert (Hraise : forall name e, class_key name = Raise e ->
                     e = IndexError /\ blank name = true).
  { intros name e. unfold class_key, last_item, split.
    destruct (List.rev (split_aux [] (scan name))) as [|w ws] eqn:Hrev;
      [|discriminate].
    cbn [Res.bind]. intros [= <-]. split; [reflexivity|].
    assert (Hnil : split_aux [] (scan name) = []).
    { apply (f_equal (@List.rev _)) in Hrev. now rewrite rev_involutive in Hrev. }
    now destruct (split_aux_not_nil _ _ Hnil). }
  assert (Hblank : forall name, blank name = true -> class_key name = Raise IndexError).
  { intros name Hb. unfold class_key, split. now rewrite split_aux_blank. }
  split; [|split].
  - split; [apply Hblank|]. intros H. now destruct (Hraise _ _ H).
  - intros e H. now destruct (Hraise _ _ H).
  - intros Hb Hin Hne. destruct s as [d maps]. cbn [st_data st_maps] in *.
    rewrite create_traffic_map_built by assumption.
    assert (Hkeys : class_keys (selected_classes a) = Raise IndexError).
    { unfold class_keys.
      destruct (selected (selected_classes a)) as [|n0 ns] eqn:Hsel; [destruct Hin|].
      cbn [truthy].
      destruct (mapM_In_raise class_key (n0 :: ns) class_name IndexError Hin
                  (Hblank _ Hb)) as (e' & x' & -> & _ & Hx').
      now destruct (Hraise _ _ Hx') as [-> _]. }
    unfold built_map. rewrite Hkeys. reflexivity.
Qed.

Lemma blank_class_name_raises_IndexError_witness :
  snd (create_traffic_map
         (args_with true (Some ["Class 8"; " " ++ nbsp]))
         (store_of three_sites))
  = Raise IndexError.
Proof.
  rewrite (proj2 (proj2 (blank_class_name_raises_IndexError
             (args_with true (Some ["Class 8"; " " ++ nbsp]))
             (store_of three_sites) (" " ++ nbsp))));
    [reflexivity | reflexivity | simpl; tauto | discriminate].
Defined.

(** ** More on the estimator *)

Section Fuel.

Lemma assoc_In {A} key (d : list (string * A)) v :
  assoc key d = Some v -> In (key, v) d.
Proof.
  induction d as [|[k x] d IH]; cbn [assoc]; [discriminate|].
  destruct (String.eqb_spec key k) as [->|Hne].
  - intros [= ->]. now left.
  - intros H. right. now apply IH.
Qed.

Lemma assoc_None {A} key (d : list (string * A)) :
  assoc key d = None <-> ~ In key (map fst d).
Proof.
  induction d as [|[k x] d IH]; cbn [assoc map fst In].
  - tauto.
  - destruct (String.eqb_spec key k) as [->|Hne].
    + split; [discriminate | intros H; exfalso; apply H; now left].
    + rewrite IH. split; [intros H [Hk|Hin]; [congruence | tauto] | tauto].
Qed.

Lemma consumption_rate_positive truck_class rate :
  consumption_rate truck_class = Ok rate ->
  (0 < rate)%Q /\ In truck_class truck_class_options.
Proof.
  unfold consumption_rate, member. intros H.
  destruct (assoc truck_class fuel_consumption) as [r|] eqn:Ha; [|discriminate].
  injection H as ->. pose proof (assoc_In _ _ _ Ha) as Hin. split.
  - unfold fuel_consumption in Hin. simpl in Hin.
    repeat (destruct Hin as [Hin|Hin]; [injection Hin as _ <-; reflexivity|]).
    destruct Hin.
  - unfold truck_class_options. change truck_class with (fst (truck_class, rate)).
    now apply in_map.
Qed.
End Fuel.

(** X12. For a truck class of the table, the fuel estimate is never
    negative for a non-negative distance and never decreases when the
    distance grows, and neither does the hydrogen estimate; for a fixed
    non-negative distance, a class with a higher rate never gets a lower
    estimate. *)
Theorem fuel_estimate_monotone (truck_class : string) (d1 d2 : Z) (f1 f2 : Q) :
  fuel_needed d1 truck_class = Ok f1 ->
  fuel_needed d2 truck_class = Ok f2 ->
  d1 <= d2 ->
  (f1 <= f2)%Q
  /\ (hydrogen_use f1 <= hydrogen_use f2)%Q
  /\ (0 <= d1 -> (0 <= f1)%Q /\ (0 <= hydrogen_use f1)%Q)
  /\ (forall other r r' f',
        consumption_rate truck_class = Ok r ->
        consumption_rate other = Ok r' ->
        fuel_needed d1 other = Ok f' ->
        0 <= d1 -> (r <= r')%Q -> (f1 <= f')%Q).
Proof.
  unfold fuel_needed. intros H1 H2 Hle.
  destruct (consumption_rate truck_class) as [rate|] eqn:Hrate; [|discriminate].
  cbn [Res.bind] in H1, H2. injection H1 as <-. injection H2 as <-.
  destruct (consumption_rate_positive _ _ Hrate) as [Hpos _].
  rewrite Zle_Qle in Hle.
  assert (Hk1 : (inject_Z d1 / 1000 / 100 == inject_Z d1 * (1 # 100000))%Q) by field.
  assert (Hrate0 : (0 <= rate)%Q) by now apply Qlt_le_weak.
  assert (Hf : (inject_Z d1 / 1000 / 100 * rate <= inject_Z d2 / 1000 / 100 * rate)%Q).
  { apply Qmult_le_compat_r; [|exact Hrate0].
    apply Qmult_le_compat_r; [|discriminate].
    apply Qmult_le_compat_r; [exact Hle | discriminate]. }
  split; [exact Hf|]. split.
  { unfold hydrogen_use. apply Qmult_le_compat_r; [|discriminate].
    apply Qmult_le_compat_r; [exact Hf | discriminate]. }
  split.
  { intros H0. rewrite Zle_Qle in H0.
    assert (Hf0 : (0 <= inject_Z d1 / 1000 / 100 * rate)%Q).
    { apply Qmult_le_0_compat; [|exact Hrate0]. rewrite Hk1.
      apply Qmult_le_0_compat; [exact H0 | discriminate]. }
    split; [exact Hf0|]. unfold hydrogen_use.
    apply Qmult_le_0_compat; [|discriminate].
    apply Qmult_le_0_compat; [exact Hf0 | discriminate]. }
  intros other r r' f' [= <-] Hr' Hf' H0 Hrr.
  rewrite Hr' in Hf'. cbn [Res.bind] in Hf'. injection Hf' as <-.
  rewrite Zle_Qle in H0.
  rewrite (Qmult_comm _ rate), (Qmult_comm _ r').
  apply Qmult_le_compat_r; [exact Hrr|]. rewrite Hk1.
  apply Qmult_le_0_compat; [exact H0 | discriminate].
Qed.

Lemma fuel_estimate_monotone_witness :
  exists f1 f2,
    fuel_needed 100000 "Class 8 (Artic 5 Axle)" = Ok f1
    /\ fuel_needed 250000 "Class 8 (Artic 5 Axle)" = Ok f2
    /\ (f1 <= f2)%Q.
Proof.
  eexists _, _. split; [reflexivity|]. split; [reflexivity|].
  refine (proj1 (fuel_estimate_monotone "Class 8 (Artic 5 Axle)" 100000 250000
                   _ _ eq_refl eq_refl _)).
  lia.
Defined.

Lemma consumption_rate_listed truck_class :
  In truck_class truck_class_options ->
  exists rate, consumption_rate truck_class = Ok rate /\ (0 < rate)%Q.
Proof.
  intros Hin. unfold consumption_rate, member.
  destruct (assoc truck_class fuel_consumption) as [rate|] eqn:Ha.
  - exists rate. split; [reflexivity|].
    apply (consumption_rate_positive truck_class).
    unfold consumption_rate. now rewrite Ha.
  - apply assoc_None in Ha. contradiction.
Qed.

Lemma consumption_rate_unlisted truck_class :
  ~ In truck_class truck_class_options ->
  consumption_rate truck_class = Raise (KeyError truck_class).
Proof.
  intros Hout. unfold consumption_rate, member.
  apply assoc_None in Hout. now rewrite Hout.
Qed.

(** X13. The estimate is defined exactly for the truck classes the selectbox
    offers: for each of them there is a positive rate, and any other name
    makes the lookup raise [KeyError] with that name. *)
Theorem listed_truck_classes_have_rates (truck_class : string) (distance_value : Z) :
  (In truck_class truck_class_options ->
     exists rate,
       consumption_rate truck_class = Ok rate /\ (0 < rate)%Q
       /\ fuel_needed distance_value truck_class
          = Ok (inject_Z distance_value / 1000 / 100 * rate)%Q)
  /\ (~ In truck_class truck_class_options ->
        fuel_needed distance_value truck_class = Raise (KeyError truck_class)).
Proof.
  unfold fuel_needed. split.
  - intros Hin. destruct (consumption_rate_listed truck_class Hin) as (rate & Hr & Hpos).
    exists rate. split; [exact Hr|]. split; [exact Hpos|]. now rewrite Hr.
  - intros Hout. now rewrite (consumption_rate_unlisted truck_class Hout).
Qed.

Lemma listed_truck_classes_have_rates_witness :
  (exists rate, consumption_rate "Class 10 (B-Double)" = Ok rate /\ (0 < rate)%Q)
  /\ fuel_needed 1000 "Class 6" = Raise (KeyError "Class 6").
Proof.
  split.
  - destruct (proj1 (listed_truck_classes_have_rates "Class 10 (B-Double)" 1000))
      as (rate & Hr & Hpos & _).
    + unfold truck_class_options. simpl. tauto.
    + now exists rate.
  - apply (proj2 (listed_truck_classes_have_rates "Class 6" 1000)).
    unfold truck_class_options. simpl.
    intros [H|[H|[H|[H|[H|[H|[H|[]]]]]]]]; discriminate.
Defined.

(** X14. No failure of the services reaches the page as an exception: the
    handler can only raise [IndexError], for a site index outside the data,
    or [KeyError], for a truck class outside the table; with a site index in
    range and a truck class of the selectbox it always shows something. *)
Theorem handler_survives_service_failures (gmaps : option Client)
    (data : list Item) (selected_site_index : nat)
    (destination truck_class : string) :
  (forall e,
     on_calculate gmaps data selected_site_index destination truck_class = Raise e ->
     (e = IndexError /\ (length data <= selected_site_index)%nat)
     \/ (e = KeyError truck_class /\ ~ In truck_class truck_class_options))
  /\ ((selected_site_index < length data)%nat ->
      In truck_class truck_class_options ->
      exists shown,
        on_calculate gmaps data selected_site_index destination truck_class
        = Ok shown
        /\ shown <> []).
Proof.
  assert (Hcases :
    (exists shown,
       on_calculate gmaps data selected_site_index destination truck_class = Ok shown
       /\ shown <> [])
    \/ (on_calculate gmaps data selected_site_index destination truck_class
        = Raise IndexError /\ (length data <= selected_site_index)%nat)
    \/ (on_calculate gmaps data selected_site_index destination truck_class
        = Raise (KeyError truck_class) /\ ~ In truck_class truck_class_options)).
  { unfold on_calculate.
    destruct (negb (String.eqb destination "") && bool_decide (is_Some gmaps)) eqn:Hg.
    - unfold index. destruct (data !! selected_site_index) as [item|] eqn:Hitem.
      + cbn [Res.bind].
        destruct (calculate_distance gmaps _ _ destination) as [shown [r|]].
        * destruct (In_dec string_dec truck_class truck_class_options) as [Hin|Hout].
          -- destruct (consumption_rate_listed truck_class Hin) as (rate & Hr & _).
             unfold fuel_needed. rewrite Hr. cbn [Res.bind].
             left. eexists. split; [reflexivity|].
             destruct shown; discriminate.
          -- unfold fuel_needed.
             rewrite (consumption_rate_unlisted truck_class Hout).
             right. right. split; [reflexivity | exact Hout].
        * left. eexists. split; [reflexivity|]. destruct shown; discriminate.
      + right. left. split; [reflexivity|]. now apply lookup_ge_None.
    - destruct (String.eqb destination "").
      + left. eexists. split; [reflexivity | discriminate].
      + destruct (negb (bool_decide (is_Some gmaps))) eqn:Hn.
        * left. eexists. split; [reflexivity | discriminate].
        * exfalso. cbn [negb andb] in Hg. apply negb_false_iff in Hn. congruence. }
  split.
  - intros e He. destruct Hcases as [(shown & Hs & _)|[[Hi Hlen]|[Hk Hout]]].
    + congruence.
    + left. split; [congruence | exact Hlen].
    + right. split; [congruence | exact Hout].
  - intros Hlt Hin. destruct Hcases as [H|[[_ Hlen]|[_ Hout]]].
    + exact H.
    + lia.
    + contradiction.
Qed.

Lemma handler_survives_service_failures_witness :
  exists shown,
    on_calculate (Some sample_client_down) three_sites 1 "Perth"
      "Class 5 (Heavy Rigid)" = Ok shown
    /\ shown <> [].
Proof.
  apply (proj2 (handler_survives_service_failures (Some sample_client_down)
                  three_sites 1%nat "Perth" "Class 5 (Heavy Rigid)")).
  - simpl. lia.
  - unfold truck_class_options. simpl. tauto.
Defined.

(** X15. An answer of the services that lacks what the code reads is
    reported, not raised: an exception of the geocoder, a distance matrix
    without rows, and an OK element without its distance each give [None]
    together with one error message that carries the text of the
    exception. *)
Theorem malformed_answers_are_reported (client : Client)
    (origin_lat origin_lon : Q) (destination_address : string) :
  destination_address <> "" ->
  (forall msg,
     geocode client destination_address = Raise (ServiceError msg) ->
     calculate_distance (Some client) origin_lat origin_lon destination_address
     = ([StError ("Error calculating distance: " ++ msg)], None))
  /\ (forall g gs,
        geocode client destination_address = Ok (g :: gs) ->
        distance_matrix client (origin_lat, origin_lon) (geo_lat g, geo_lng g)
        = Ok [] ->
        calculate_distance (Some client) origin_lat origin_lon destination_address
        = ([StError "Error calculating distance: list index out of range"], None))
  /\ (forall g gs el row rows,
        geocode client destination_address = Ok (g :: gs) ->
        distance_matrix client (origin_lat, origin_lon) (geo_lat g, geo_lng g)
        = Ok ((el :: row) :: rows) ->
        status el = "OK" ->
        el_distance el = None ->
        calculate_distance (Some client) origin_lat origin_lon destination_address
        = ([StError "Error calculating distance: 'distance'"], None)).
Proof.
  intros Hdest. apply String.eqb_neq in Hdest.
  unfold calculate_distance, calculate_distance_body. rewrite Hdest.
  split; [|split].
  - intros msg ->. reflexivity.
  - intros g gs -> Hdm. cbn [Res.bind truthy negb first_item]. rewrite Hdm.
    reflexivity.
  - intros g gs el row rows -> Hdm Hst Hd.
    cbn [Res.bind truthy negb first_item]. rewrite Hdm.
    cbn [Res.bind first_item]. rewrite Hst, Hd. reflexivity.
Qed.

Lemma malformed_answers_are_reported_witness :
  calculate_distance (Some sample_client_down) 0%Q 0%Q "Perth"
  = ([StError "Error calculating distance: REQUEST_DENIED"], None)
  /\ calculate_distance (Some sample_client_no_distance) 0%Q 0%Q "Perth"
     = ([StError "Error calculating distance: 'distance'"], None).
Proof.
  split.
  - refine (proj1 (malformed_answers_are_reported sample_client_down 0%Q 0%Q
                     "Perth" _) "REQUEST_DENIED" eq_refl).
    discriminate.
  - refine (proj2 (proj2 (malformed_answers_are_reported sample_client_no_distance
                     0%Q 0%Q "Perth" _)) _ _ _ _ _ eq_refl eq_refl eq_refl eq_refl).
    discriminate.
Defined.

(** X16. When the client cannot be constructed, [initialize_google_maps]
    reports it and returns [None]; the handler then shows, for every
    non-empty destination, just the message that the API is not available,
    and for an empty one just the request to enter a destination. *)
Theorem no_client_no_estimate (getenv : string -> option string)
    (new_client : option string -> result Client) (e : exn)
    (data : list Item) (selected_site_index : nat)
    (destination truck_class : string) :
  new_client (getenv "GOOGLE_MAPS_API_KEY") = Raise e ->
  initialize_google_maps getenv new_client
  = ([StError ("Failed to initialize Google Maps API: " ++ str_exn e)], None)
  /\ on_calculate (snd (initialize_google_maps getenv new_client)) data
       selected_site_index destination truck_class
     = Ok [if String.eqb destination ""
           then StWarning "Please enter a destination address."
           else StError "Google Maps API is not available. Please check your API key."].
Proof.
  intros He. unfold initialize_google_maps. rewrite He. split; [reflexivity|].
  cbn [snd]. unfold on_calculate.
  destruct (String.eqb destination ""); reflexivity.
Qed.

Lemma no_client_no_estimate_witness :
  on_calculate (snd (initialize_google_maps (fun _ => None) no_client)) three_sites
    0 "Perth" "Class 5 (Heavy Rigid)"
  = Ok [StError "Google Maps API is not available. Please check your API key."].
Proof.
  exact (proj2 (no_client_no_estimate (fun _ => None) no_client _ three_sites
                  0%nat "Perth" "Class 5 (Heavy Rigid)" eq_refl)).
Defined.

(** ** The table and the chart *)

Section Chart.

Lemma py_sum_from (acc : Z) l : foldl Z.add acc l = acc + py_sum l.
Proof.
  unfold py_sum. revert acc. induction l as [|x l IH]; intros acc; cbn [foldl].
  - lia.
  - rewrite (IH (acc + x)), (IH (0 + x)). lia.
Qed.

Lemma py_sum_cons x l : py_sum (x :: l) = x + py_sum l.
Proof. unfold py_sum at 1. cbn [foldl]. now rewrite py_sum_from. Qed.

Lemma py_sum_snoc l x : py_sum (l ++ [x]) = py_sum l + x.
Proof.
  induction l as [|y l IH]; [reflexivity|].
  change ((y :: l) ++ [x])%list with (y :: (l ++ [x]))%list.
  rewrite !py_sum_cons, IH. lia.
Qed.

Lemma label_inj c c' : label c = label c' -> c = c'.
Proof. destruct c, c'; intros H; try reflexivity; discriminate. Qed.

Lemma append_count_label td c item counts :
  has_counts item -> td !! label c = Some counts ->
  append_count td (label c) (field c) item
  = Ok (<[label c := (counts ++ [count item c])%list]> td).
Proof.
  intros Hwf Hc. unfold append_count. rewrite Hc. cbn [member Res.bind].
  now rewrite getitem_field.
Qed.

(** One pass of the loop body appends to the list of each class the count
    the site has for it, and adds no key. *)
Lemma append_counts_spec td item :
  has_counts item -> (forall c, is_Some (td !! label c)) ->
  exists td',
    append_counts td item = Ok td'
    /\ (forall c, td' !! label c
                  = (fun counts => (counts ++ [count item c])%list) <$> td !! label c)
    /\ (forall key, is_Some (td' !! key) -> is_Some (td !! key)).
Proof.
  intros Hwf Hall.
  destruct (Hall C3) as [l3 H3]. destruct (Hall C4) as [l4 H4].
  destruct (Hall C5) as [l5 H5]. destruct (Hall C6) as [l6 H6].
  destruct (Hall C7) as [l7 H7]. destruct (Hall C8) as [l8 H8].
  destruct (Hall C9) as [l9 H9]. destruct (Hall C10) as [l10 H10].
  unfold append_counts.
  change "Class 3" with (label C3). change "Class3" with (field C3).
  change "Class 4" with (label C4). change "Class4" with (field C4).
  change "Class 5" with (label C5). change "Class5" with (field C5).
  change "Class 6" with (label C6). change "Class6" with (field C6).
  change "Class 7" with (label C7). change "Class7" with (field C7).
  change "Class 8" with (label C8). change "Class8" with (field C8).
  change "Class 9" with (label C9). change "Class9" with (field C9).
  change "Class 10" with (label C10). change "Class10" with (field C10).
  rewrite (append_count_label td C3 item l3 Hwf H3). cbn [Res.bind].
  erewrite (append_count_label _ C4 item l4 Hwf);
    [| rewrite !lookup_insert_ne by discriminate; exact H4]. cbn [Res.bind].
  erewrite (append_count_label _ C5 item l5 Hwf);
    [| rewrite !lookup_insert_ne by discriminate; exact H5]. cbn [Res.bind].
  erewrite (append_count_label _ C6 item l6 Hwf);
    [| rewrite !lookup_insert_ne by discriminate; exact H6]. cbn [Res.bind].
  erewrite (append_count_label _ C7 item l7 Hwf);
    [| rewrite !lookup_insert_ne by discriminate; exact H7]. cbn [Res.bind].
  erewrite (append_count_label _ C8 item l8 Hwf);
    [| rewrite !lookup_insert_ne by discriminate; exact H8]. cbn [Res.bind].
  erewrite (append_count_label _ C9 item l9 Hwf);
    [| rewrite !lookup_insert_ne by discriminate; exact H9]. cbn [Res.bind].
  erewrite (append_count_label _ C10 item l10 Hwf);
    [| rewrite !lookup_insert_ne by discriminate; exact H10].
  eexists. split; [reflexivity|]. split.
  - intros c. destruct c;
      rewrite ?lookup_insert_ne by discriminate; rewrite lookup_insert_eq;
      first [ rewrite H3 | rewrite H4 | rewrite H5 | rewrite H6
            | rewrite H7 | rewrite H8 | rewrite H9 | rewrite H10 ];
      reflexivity.
  - intros key Hkey.
    repeat match type of Hkey with
    | is_Some (<[?k := _]> _ !! key) =>
        destruct (decide (k = key)) as [<-|?];
        [ first [ now rewrite H3 | now rewrite H4 | now rewrite H5
                | now rewrite H6 | now rewrite H7 | now rewrite H8
                | now rewrite H9 | now rewrite H10 ]
        | rewrite lookup_insert_ne in Hkey by assumption ]
    end.
    exact Hkey.
Qed.

Lemma fill_total_data_spec data : forall td,
  Forall has_counts data -> (forall c, is_Some (td !! label c)) ->
  exists td',
    fill_total_data td data = Ok td'
    /\ (forall c, td' !! label c
                  = (fun counts =>
                       (counts ++ map (fun item => count item c) data)%list)
                    <$> td !! label c)
    /\ (forall key, is_Some (td' !! key) -> is_Some (td !! key)).
Proof.
  induction data as [|item data IH]; intros td Hwf Hall.
  - exists td. split; [reflexivity|]. split; [|auto].
    intros c. destruct (Hall c) as [l ->]. cbn. now rewrite app_nil_r.
  - inversion Hwf as [|? ? Hitem Hdata]; subst.
    destruct (append_counts_spec td item Hitem Hall) as (td1 & H1 & Hl1 & Hk1).
    assert (Hall1 : forall c, is_Some (td1 !! label c)).
    { intros c. rewrite Hl1. destruct (Hall c) as [l ->]. cbn. eauto. }
    destruct (IH td1 Hdata Hall1) as (td' & H' & Hl' & Hk').
    exists td'. cbn [fill_total_data]. rewrite H1. cbn [Res.bind].
    split; [exact H'|]. split; [|auto].
    intros c. rewrite Hl', Hl1. destruct (Hall c) as [l ->]. cbn.
    now rewrite <- app_assoc.
Qed.
Lemma display_data_rows data :
  Forall has_counts data ->
  exists rows,
    display_data data = Ok rows
    /\ Forall2 (fun item row => Total_Vehicles row = spec_aggregate item [])
         data rows.
Proof.
  induction 1 as [|item data Hitem Hdata (rows & Hrows & Hall)].
  - exists []. split; [reflexivity | constructor].
  - destruct (display_row_counts item Hitem) as (row & Hrow & _ & Htot & _).
    exists (row :: rows). unfold display_data in *. cbn [Res.mapM].
    rewrite Hrow, Hrows. split; [reflexivity|]. now constructor.
Qed.
End Chart.

(** X17. For well-formed site records the chart and the table agree: the
    total the chart shows for a class is the sum of that class's count over
    all sites, the chart has no other entry than the eight class labels, and
    the eight totals add up to the sum of the Total Vehicles column of the
    table. *)
Theorem chart_totals_match_table (data : list Item) :
  Forall has_counts data ->
  exists td rows,
    total_data data = Ok td
    /\ display_data data = Ok rows
    /\ (forall c, class_totals td !! label c
                  = Some (py_sum (map (fun item => count item c) data)))
    /\ (forall key, is_Some (class_totals td !! key) -> In key class_options)
    /\ py_sum (map (fun c => default 0 (class_totals td !! label c))
                 [C3; C4; C5; C6; C7; C8; C9; C10])
       = py_sum (map Total_Vehicles rows).
Proof.
  intros Hwf.
  assert (Hinit : forall c, total_data_init !! label c = Some []).
  { intros []; reflexivity. }
  destruct (fill_total_data_spec data total_data_init Hwf) as (td & Htd & Hl & Hk).
  { intros c. rewrite Hinit. eauto. }
  destruct (display_data_rows data Hwf) as (rows & Hrows & Hspec).
  exists td, rows. split; [exact Htd|]. split; [exact Hrows|].
  assert (Htot : forall c, class_totals td !! label c
                   = Some (py_sum (map (fun item => count item c) data))).
  { intros c. unfold class_totals. rewrite lookup_fmap, Hl, Hinit. reflexivity. }
  split; [exact Htot|]. split.
  - intros key Hkey. unfold class_totals in Hkey. rewrite lookup_fmap in Hkey.
    assert (Hsome : is_Some (td !! key)).
    { destruct (td !! key); [eauto | destruct Hkey; discriminate]. }
    apply Hk in Hsome. unfold total_data_init in Hsome.
    repeat match type of Hsome with
    | is_Some (list_to_map (_ :: _) !! _) => cbn [list_to_map foldr] in Hsome
    | is_Some (<[?k := _]> _ !! key) =>
        destruct (decide (k = key)) as [<-|?];
        [ simpl; tauto | rewrite lookup_insert_ne in Hsome by assumption ]
    end.
    rewrite lookup_empty in Hsome. destruct Hsome; discriminate.
  - cbn [map]. rewrite !Htot. cbn [default].
    rewrite !py_sum_cons. change (py_sum []) with 0.
    clear - Hspec. induction Hspec as [|item row data rows Ht _ IH].
    + reflexivity.
    + cbn [map]. rewrite !py_sum_cons, Ht. unfold spec_aggregate, id in *. lia.
Qed.

Lemma chart_totals_match_table_witness :
  exists td,
    total_data three_sites = Ok td
    /\ class_totals td !! "Class 4" = Some 33.
Proof.
  destruct (chart_totals_match_table three_sites)
    as (td & rows & Htd & _ & Htot & _).
  - repeat constructor; intros []; eexists; reflexivity.
  - exists td. split; [exact Htd|]. exact (Htot C4).
Defined.

Section Rounding.

Lemma round_half_even_close (x : Q) :
  (Qabs (inject_Z (round_half_even x) - x) <= 1 # 2)%Q.
Proof.
  unfold round_half_even.
  destruct (Qfloor_bounds x) as [Hlo Hhi].
  set (f := Qfloor x) in *.
  apply Qabs_Qle_condition.
  destruct (x - inject_Z f ?= 1 # 2)%Q eqn:Hc.
  - apply Qeq_alt in Hc.
    destruct (Z.even f);
      [|rewrite inject_Z_plus; change (inject_Z 1) with 1%Q]; split; lra.
  - apply Qlt_alt in Hc. split; lra.
  - apply Qgt_alt in Hc. rewrite inject_Z_plus. change (inject_Z 1) with 1%Q.
    split; lra.
Qed.

Lemma round_half_even_range (x : Q) (N : Z) :
  (0 <= x)%Q -> (x <= inject_Z N)%Q -> 0 <= round_half_even x <= N.
Proof.
  intros H0 HN. unfold round_half_even.
  destruct (Qfloor_bounds x) as [Hlo Hhi].
  assert (Hf0 : 0 <= Qfloor x).
  { change 0 with (Qfloor 0). now apply Qfloor_resp_le. }
  assert (HfN : Qfloor x <= N).
  { rewrite <- (Qfloor_Z N). now apply Qfloor_resp_le. }
  set (f := Qfloor x) in *.
  assert (Hup : (0 < x - inject_Z f)%Q -> f + 1 <= N).
  { intros Hr. assert (H : (inject_Z f < inject_Z N)%Q) by lra.
    rewrite <- Zlt_Qlt in H. lia. }
  destruct (x - inject_Z f ?= 1 # 2)%Q eqn:Hc.
  - apply Qeq_alt in Hc. destruct (Z.even f); [lia|].
    assert (f + 1 <= N) by (apply Hup; lra). lia.
  - lia.
  - apply Qgt_alt in Hc. assert (f + 1 <= N) by (apply Hup; lra). lia.
Qed.
End Rounding.

(** X18. In every row of the table the two sub-totals add up to the total:
    Medium Trucks (3-5) plus Heavy Trucks (6+) is Total Vehicles
    (Class 3+). *)
Theorem row_subtotals_add_up (item : Item) (row : Row) :
  display_row item = Ok row ->
  Medium_Trucks row + Heavy_Trucks row = Total_Vehicles row.
Proof.
  intros Hrow.
  destruct (display_row_total item row Hrow) as [Htot _].
  destruct (total_traffic_inv item _ Htot) as [Hwf _].
  unfold display_row in Hrow.
  rewrite (total_traffic_counts item Hwf), (medium_trucks_counts item Hwf),
    (heavy_trucks_counts item Hwf), (heavy_truck_pct_counts item Hwf) in Hrow.
  cbn [Res.bind] in Hrow. injection Hrow as <-. cbn. lia.
Qed.

Lemma row_subtotals_add_up_witness :
  exists row,
    display_row (sample_item "0002" 10 10 10 5 5 5 3 2) = Ok row
    /\ Medium_Trucks row + Heavy_Trucks row = Total_Vehicles row.
Proof.
  eexists. split; [reflexivity|].
  apply (row_subtotals_add_up (sample_item "0002" 10 10 10 5 5 5 3 2)).
  reflexivity.
Defined.

(** X19. For a site whose counts are not negative, the Heavy Truck % of its
    row is a whole number of hundredths between 0 and 100, and when the total
    is positive it is within 0.005 of the exact percentage
    [heavy / total * 100]. *)
Theorem heavy_truck_pct_in_range (item : Item) (pct : Q) :
  heavy_truck_pct item = Ok pct ->
  (forall c, 0 <= count item c) ->
  (exists k, 0 <= k <= 10000 /\ (pct == inject_Z k / 100)%Q)
  /\ (0 <= pct)%Q /\ (pct <= 100)%Q
  /\ (forall total heavy,
        total_traffic item = Ok total -> heavy_trucks item = Ok heavy ->
        0 < total ->
        (Qabs (pct - inject_Z heavy / inject_Z total * 100) <= 5 # 1000)%Q).
Proof.
  intros Hpct Hnn.
  assert (Hwf : has_counts item).
  { unfold heavy_truck_pct in Hpct.
    destruct (total_traffic item) as [t|] eqn:Ht; [|discriminate].
    now destruct (total_traffic_inv item t Ht). }
  rewrite (heavy_truck_pct_counts item Hwf) in Hpct. injection Hpct as <-.
  unfold spec_aggregate.
  set (total := count item C3 + count item C4 + count item C5 + count item C6
                + count item C7 + count item C8 + count item C9 + count item C10).
  set (heavy := count item C6 + count item C7 + count item C8 + count item C9
                + count item C10).
  assert (Hheavy : 0 <= heavy <= total).
  { unfold heavy, total.
    pose proof (Hnn C3). pose proof (Hnn C4). pose proof (Hnn C5).
    pose proof (Hnn C6). pose proof (Hnn C7). pose proof (Hnn C8).
    pose proof (Hnn C9). pose proof (Hnn C10). lia. }
  destruct (Z.ltb_spec 0 total) as [Hpos|Hle].
  - set (ratio := (inject_Z heavy / inject_Z total)%Q).
    assert (Hpos' : (0 < inject_Z total)%Q).
    { change 0%Q with (inject_Z 0). now rewrite <- Zlt_Qlt. }
    assert (Hr0 : (0 <= ratio)%Q).
    { apply Qle_shift_div_l; [exact Hpos'|]. rewrite Qmult_0_l.
      change 0%Q with (inject_Z 0). rewrite <- Zle_Qle. lia. }
    assert (Hr1 : (ratio <= 1)%Q).
    { apply Qle_shift_div_r; [exact Hpos'|]. rewrite Qmult_1_l.
      rewrite <- Zle_Qle. lia. }
    set (k := round_half_even (ratio * 100 * 100)).
    assert (Hk : 0 <= k <= 10000).
    { apply round_half_even_range; [lra|]. change (inject_Z 10000) with 10000%Q. lra. }
    assert (Hclose := round_half_even_close (ratio * 100 * 100)). fold k in Hclose.
    apply Qabs_Qle_condition in Hclose.
    assert (Hval : (round2 (ratio * 100) == inject_Z k / 100)%Q) by reflexivity.
    destruct Hk as [Hk0 Hk1]. rewrite Zle_Qle in Hk0, Hk1.
    change (inject_Z 0) with 0%Q in Hk0. change (inject_Z 10000) with 10000%Q in Hk1.
    assert (Hdiv : (inject_Z k / 100 == inject_Z k * (1 # 100))%Q) by field.
    split; [exists k; split; [rewrite !Zle_Qle; split; assumption | exact Hval]|].
    split; [rewrite Hval, Hdiv; lra|].
    split; [rewrite Hval, Hdiv; lra|].
    intros total' heavy' Ht Hh _.
    rewrite (total_traffic_counts item Hwf) in Ht. injection Ht as <-.
    rewrite (heavy_trucks_counts item Hwf) in Hh. injection Hh as <-.
    fold total heavy ratio. rewrite Hval, Hdiv.
    apply Qabs_Qle_condition. lra.
  - split; [exists 0; split; [lia | reflexivity]|].
    split; [discriminate|]. split; [discriminate|].
    intros total' heavy' Ht _ Hpos.
    rewrite (total_traffic_counts item Hwf) in Ht. injection Ht as <-.
    fold total in Hpos. lia.
Qed.

Lemma heavy_truck_pct_in_range_witness :
  exists pct,
    heavy_truck_pct (sample_item "0003" 20 20 10 10 10 10 5 5) = Ok pct
    /\ (0 <= pct)%Q /\ (pct <= 100)%Q.
Proof.
  eexists. split; [reflexivity|].
  destruct (heavy_truck_pct_in_range (sample_item "0003" 20 20 10 10 10 10 5 5) _
              eq_refl) as (_ & H0 & H100 & _).
  - intros []; vm_compute; discriminate.
  - split; assumption.
Defined.

(** ** Loaders, layers and legend *)

(** X20. A missing optional file only switches its own layer off: the
    loader shows one warning, and [create_traffic_map], called as [main]
    calls it, runs exactly as it does with that layer's checkbox cleared. *)
Theorem missing_file_drops_its_layer (files : Files)
    (traffic hydrogen railway roads secondary : bool)
    (classes : list string) (s : Store) :
  (hydrogen_refuelling_stations_csv files = None ->
     load_hydrogen_stations files
     = ([StWarning "hydrogen_refuelling_stations.csv not found."], [])
     /\ create_traffic_map
          (main_map_args files traffic hydrogen railway roads
             secondary classes) s
        = create_traffic_map
            (main_map_args files traffic false railway roads
               secondary classes) s)
  /\ (key_freight_route_rail_geojson files = None ->
        load_railway_data files
        = ([StWarning "key_freight_route_rail.geojson not found."], None)
        /\ create_traffic_map
             (main_map_args files traffic hydrogen railway
                roads secondary classes) s
           = create_traffic_map
               (main_map_args files traffic hydrogen false roads
                  secondary classes) s)
  /\ (key_freight_route_road_geojson files = None ->
        load_road_data files
        = ([StWarning "key_freight_route_road.geojson not found."], None)
        /\ create_traffic_map
             (main_map_args files traffic hydrogen railway
                roads secondary classes) s
           = create_traffic_map
               (main_map_args files traffic hydrogen railway false
                  secondary classes) s)
  /\ (secondary_route_geojson files = None ->
        load_secondary_route_data files
        = ([StWarning "secondary_route.geojson not found."], None)
        /\ create_traffic_map
             (main_map_args files traffic hydrogen railway
                roads secondary classes) s
           = create_traffic_map
               (main_map_args files traffic hydrogen railway
                  roads false classes) s).
Proof.
  split; [|split; [|split]]; intros Hnone.
  - unfold load_hydrogen_stations. rewrite Hnone. split; [reflexivity|].
    unfold create_traffic_map, main_map_args, load_hydrogen_stations.
    rewrite Hnone. cbn [snd hydrogen_stations show_hydrogen stations_present].
    now rewrite andb_false_r.
  - unfold load_railway_data. rewrite Hnone. split; [reflexivity|].
    unfold create_traffic_map, add_route, main_map_args, load_railway_data.
    rewrite Hnone. cbn [snd railway_data show_railway doc_truthy default truthy].
    now rewrite andb_false_r.
  - unfold load_road_data. rewrite Hnone. split; [reflexivity|].
    unfold create_traffic_map, add_route, main_map_args, load_road_data.
    rewrite Hnone. cbn [snd road_data show_roads doc_truthy default truthy].
    now rewrite andb_false_r.
  - unfold load_secondary_route_data. rewrite Hnone. split; [reflexivity|].
    unfold create_traffic_map, add_route, main_map_args, load_secondary_route_data.
    rewrite Hnone. cbn [snd secondary_data show_secondary doc_truthy default truthy].
    now rewrite andb_false_r.
Qed.

Lemma missing_file_drops_its_layer_witness :
  create_traffic_map
    (main_map_args (only_statistics three_sites) true true true true true [])
    (store_of three_sites)
  = create_traffic_map
      (main_map_args (only_statistics three_sites) true false true true true [])
      (store_of three_sites).
Proof.
  exact (proj2 (proj1 (missing_file_drops_its_layer (only_statistics three_sites)
                  true true true true true [] (store_of three_sites)) eq_refl)).
Defined.

(** X21. A missing statistics file is reported once and gives no site, and
    with no site there is no map; a statistics file without the
    ['statistics'] member is not caught: [load_data] raises [KeyError]. *)
Theorem missing_statistics_give_no_map (files : Files) (a : MapArgs)
    (maps : list FoliumMap) :
  (site_statistics_json files = None ->
     exists data,
       load_data files
       = ([StError "site_statistics.json not found. Please run extract_site_statistics.py first."],
          Ok data)
       /\ create_traffic_map a {| st_data := data; st_maps := maps |}
          = ({| st_data := data; st_maps := maps |}, Ok None)
       /\ data_table data = Ok None)
  /\ (forall doc,
        site_statistics_json files = Some doc ->
        doc !! "statistics" = None ->
        load_data files = ([], Raise (KeyError "statistics")))
  /\ (forall doc data,
        site_statistics_json files = Some doc ->
        doc !! "statistics" = Some data ->
        load_data files = ([], Ok data)).
Proof.
  unfold load_data. split; [|split].
  - intros ->. exists []. split; [reflexivity|].
    split; [now apply create_traffic_map_no_data | reflexivity].
  - intros doc -> ->. reflexivity.
  - intros doc data -> ->. reflexivity.
Qed.

Lemma missing_statistics_give_no_map_witness :
  load_data (only_statistics three_sites) = ([], Ok three_sites).
Proof.
  exact (proj2 (proj2 (missing_statistics_give_no_map (only_statistics three_sites)
                  default_args [])) _ three_sites eq_refl eq_refl).
Defined.

(** X22. The legend has as many entries as there are ticked checkboxes,
    and it is shown exactly when some checkbox is ticked. *)
Theorem legend_follows_checkboxes
    (show_traffic show_hydrogen show_railway show_roads show_secondary : bool)
    (selected_classes : list string) :
  let items := legend_items show_traffic show_hydrogen show_railway show_roads
                 show_secondary selected_classes in
  length items
  = ticked [show_traffic; show_hydrogen; show_railway; show_roads; show_secondary]
  /\ (legend_text items = None
      <-> show_traffic = false /\ show_hydrogen = false /\ show_railway = false
          /\ show_roads = false /\ show_secondary = false).
Proof.
  unfold legend_items, legend_text.
  destruct show_traffic, show_hydrogen, show_railway, show_roads, show_secondary,
    (truthy selected_classes); cbn; (split; [reflexivity|]);
    split; try discriminate; try tauto; intros (? & ? & ? & ? & ?); discriminate.
Qed.

Section Census.

Lemma tier_color_not_blue count top middle : tier_color count top middle <> blue.
Proof.
  unfold tier_color.
  destruct (Qgt_bool _ top); [discriminate|].
  destruct (Qgt_bool _ middle); discriminate.
Qed.

Lemma site_marker_icon sc keys top middle item mk :
  site_marker sc keys top middle item = Ok mk ->
  marker_location mk = (lat (location (site item)), long (location (site item)))
  /\ icon_name mk = "truck" /\ icon_color mk <> blue.
Proof.
  unfold site_marker. intros H.
  destruct (site_popup sc keys item) as [popup|]; [|discriminate].
  cbn [Res.bind] in H.
  destruct (site_color_tooltip sc keys top middle item) as [[color tip]|] eqn:Hct;
    [|discriminate].
  cbn [Res.bind] in H. injection H as <-. cbn.
  split; [reflexivity|]. split; [reflexivity|].
  unfold site_color_tooltip in Hct.
  destruct (truthy (selected sc)).
  - destruct (combined_count item keys); [|discriminate].
    cbn [Res.bind] in Hct. injection Hct as <- _. apply tier_color_not_blue.
  - destruct (total_traffic item); [|discriminate].
    cbn [Res.bind] in Hct. injection Hct as <- _. apply tier_color_not_blue.
Qed.

Lemma station_marker_icon station mk :
  station_marker station = Ok mk ->
  icon_color mk = blue /\ icon_name mk = "gas-pump".
Proof.
  unfold station_marker. intros H.
  destruct (slice100 _) as [usage|]; [|discriminate]. cbn [Res.bind] in H.
  destruct (validate_location _ _) as [loc|]; [|discriminate].
  cbn [Res.bind] in H. injection H as <-. split; reflexivity.
Qed.

Lemma station_rows_shown a :
  station_rows a = if show_hydrogen a then default [] (hydrogen_stations a) else [].
Proof.
  unfold station_rows, stations_present.
  destruct (show_hydrogen a); [|reflexivity].
  destruct (hydrogen_stations a) as [[|st sts]|]; reflexivity.
Qed.
End Census.

(** X23. A map that is returned is centred on the mean of the site
    coordinates and holds, in this order, one marker per site when the traffic
    layer is shown (none otherwise), each at its site with the truck icon and
    a colour other than blue, then one blue marker per station when that layer
    is shown, then at most three route layers. *)
Theorem returned_map_census (a : MapArgs) (s : Store) (m : nat) :
  snd (create_traffic_map a s) = Ok (Some m) ->
  exists fm mks,
    st_maps (fst (create_traffic_map a s)) !! m = Some fm
    /\ map_location fm = center (st_data s)
    /\ children fm = (map ChildMarker mks ++ overlay_children a)%list
    /\ length mks = (if show_traffic a then length (st_data s) else 0%nat)
    /\ (show_traffic a = true ->
        Forall2 (fun item mk =>
          marker_location mk
          = (lat (location (site item)), long (location (site item)))
          /\ icon_name mk = "truck" /\ icon_color mk <> blue) (st_data s) mks)
    /\ (exists stations station_mks routes,
          overlay_children a
          = (map ChildMarker station_mks ++ routes)%list
          /\ stations = (if show_hydrogen a
                         then default [] (hydrogen_stations a) else [])
          /\ Forall2 (fun station mk =>
               station_marker station = Ok mk
               /\ icon_color mk = blue /\ icon_name mk = "gas-pump")
             stations station_mks
          /\ (length routes <= 3)%nat
          /\ Forall (fun c => exists doc st, c = ChildGeoJson doc st) routes).
Proof.
  destruct s as [d maps]. intros Hrun.
  destruct d as [|d0 d].
  { rewrite create_traffic_map_no_data in Hrun by reflexivity. discriminate. }
  rewrite create_traffic_map_built in * by discriminate.
  cbn [fst snd st_maps st_data] in *.
  set (data := d0 :: d) in *.
  assert (Hm : m = length maps /\ snd (built_map a data) = None).
  { destruct (snd (built_map a data)); [discriminate|].
    injection Hrun as <-. now split. }
  destruct Hm as [-> Hnone]. clear Hrun.
  unfold built_map in *.
  destruct (class_keys (selected_classes a)) as [keys|]; [|discriminate].
  destruct (thresholds data (selected_classes a) keys) as [th|]; [|discriminate].
  set (f := site_marker (selected_classes a) keys (fst th) (snd th)) in *.
  set (r := if show_traffic a then collect f data else ([], None)) in *.
  destruct (snd r) eqn:Hr; [discriminate|].
  cbn [snd] in Hnone.
  exists (add_children (map ChildMarker (fst r) ++ overlay_children a)
            {| map_location := center data; zoom_start := 8;
               tiles := "OpenStreetMap"; children := [] |}), (fst r).
  cbn [fst].
  split; [rewrite lookup_app_r by lia; now rewrite Nat.sub_diag|].
  split; [reflexivity|]. split; [reflexivity|].
  assert (Hall : show_traffic a = true ->
            Forall2 (fun item mk => f item = Ok mk) data (fst r)).
  { intros Ht. unfold r in *. rewrite Ht in *.
    pose proof (collect_mapM f data) as Hc. rewrite Hr in Hc.
    now apply mapM_Forall2. }
  split.
  { destruct (show_traffic a) eqn:Ht.
    - symmetry. exact (Forall2_length _ _ _ (Hall eq_refl)).
    - reflexivity. }
  split.
  { intros Ht. eapply Forall2_impl; [exact (Hall Ht)|].
    intros item mk Hmk. exact (site_marker_icon _ _ _ _ _ _ Hmk). }
  exists (if show_hydrogen a then default [] (hydrogen_stations a) else []),
    (station_markers a), (route_layers a).
  split; [unfold overlay_children; now rewrite Hnone|].
  split; [reflexivity|]. split.
  { rewrite <- station_rows_shown.
    pose proof (collect_mapM station_marker (station_rows a)) as Hc.
    unfold overlay_outcome in Hnone. rewrite Hnone in Hc.
    apply mapM_Forall2 in Hc. fold (station_markers a) in Hc.
    eapply Forall2_impl; [exact Hc|].
    intros station mk Hmk. split; [exact Hmk|].
    exact (station_marker_icon _ _ Hmk). }
  unfold route_layers, route_children. split.
  - destruct (show_railway a && doc_truthy (railway_data a)),
      (show_roads a && doc_truthy (road_data a)),
      (show_secondary a && doc_truthy (secondary_data a)); simpl; lia.
  - destruct (show_railway a && doc_truthy (railway_data a)),
      (show_roads a && doc_truthy (road_data a)),
      (show_secondary a && doc_truthy (secondary_data a));
      repeat constructor; eauto.
Qed.

Lemma returned_map_census_witness :
  exists fm (mks : list Marker),
    st_maps (fst (create_traffic_map default_args (store_of three_sites))) !! 0%nat
    = Some fm
    /\ children fm = (map ChildMarker mks ++ overlay_children default_args)%list
    /\ length mks = 3%nat.
Proof.
  destruct (returned_map_census default_args (store_of three_sites) 0%nat eq_refl)
    as (fm & mks & Hfm & _ & Hch & Hlen & _).
  exists fm, mks. repeat split; assumption.
Defined.

Section Popup.

Lemma sum_counts_py_sum item cs :
  sum_counts item cs = py_sum (map (fun c => count item c) cs).
Proof.
  induction cs as [|c cs IH]; [reflexivity|].
  cbn [sum_counts foldr map]. rewrite py_sum_cons. fold (sum_counts item cs).
  now rewrite IH.
Qed.
End Popup.

(** X24. The figures of a site's popup and tooltip agree, for a well-formed
    record and a selection from the sidebar. With a selection, the popup
    lists exactly the selected classes, in order, each with the site's count,
    and its combined figure, which is also the tooltip's, is the sum of the
    listed counts. Without one, it lists the eight classes and its total,
    which is also the tooltip's, is the sum of the listed counts. *)
Theorem popup_figures_agree (item : Item)
    (selected_classes : option (list string)) (selection : list TruckClass)
    (top middle : Q) :
  has_counts item ->
  selected selected_classes = map label selection ->
  exists total combined lines color tip,
    site_popup selected_classes (map field selection) item
    = Ok (TrafficPopup (site item) total combined lines)
    /\ site_color_tooltip selected_classes (map field selection) top middle item
       = Ok (color, tip)
    /\ total = count item C3 + count item C4 + count item C5 + count item C6
               + count item C7 + count item C8 + count item C9 + count item C10
    /\ (selection = [] ->
        combined = None
        /\ map fst lines = class_options
        /\ py_sum (map snd lines) = total
        /\ tip = TooltipTotal (roadname (site item)) total)
    /\ (selection <> [] ->
        map fst lines = selected selected_classes
        /\ lines = map (fun c => (label c, count item c)) selection
        /\ combined = Some (selected selected_classes, py_sum (map snd lines))
        /\ tip = TooltipCombined (roadname (site item))
                   (selected selected_classes) (py_sum (map snd lines))).
Proof.
  intros Hwf Hsel. unfold site_popup, site_color_tooltip. rewrite Hsel.
  destruct selection as [|c cs].
  - cbn [map truthy]. rewrite (total_traffic_counts item Hwf).
    change "Class3" with (field C3). change "Class4" with (field C4).
    change "Class5" with (field C5). change "Class6" with (field C6).
    change "Class7" with (field C7). change "Class8" with (field C8).
    change "Class9" with (field C9). change "Class10" with (field C10).
    rewrite !getitem_field by assumption. cbn [Res.bind].
    do 5 eexists. split; [reflexivity|]. split; [reflexivity|].
    split; [reflexivity|]. split; [|congruence].
    intros _. split; [reflexivity|]. split; [reflexivity|]. split; [|reflexivity].
    cbn [map snd]. rewrite !py_sum_cons. change (py_sum []) with 0. lia.
  - cbn [truthy]. change (truthy (map label (c :: cs))) with true. cbv iota.
    rewrite (combined_count_counts item (c :: cs) Hwf).
    rewrite (mapM_class_lines item (c :: cs) Hwf).
    rewrite (total_traffic_counts item Hwf). cbn [Res.bind].
    do 5 eexists. split; [reflexivity|]. split; [reflexivity|].
    split; [reflexivity|]. split; [congruence|].
    intros _.
    assert (Hsum : sum_counts item (c :: cs)
                   = py_sum (map snd (map (fun c0 => (label c0, count item c0))
                                        (c :: cs)))).
    { rewrite sum_counts_py_sum. f_equal. rewrite map_map. reflexivity. }
    split; [rewrite map_map; reflexivity|]. split; [reflexivity|].
    rewrite Hsum. split; reflexivity.
Qed.

Lemma popup_figures_agree_witness :
  exists total lines tip color,
    site_popup (Some ["Class 4"; "Class 10"]) ["Class4"; "Class10"]
      (sample_item "0002" 10 10 10 5 5 5 3 2)
    = Ok (TrafficPopup (sample_site "0002") total
            (Some (["Class 4"; "Class 10"], py_sum (map snd lines))) lines)
    /\ site_color_tooltip (Some ["Class 4"; "Class 10"]) ["Class4"; "Class10"]
         0%Q 0%Q (sample_item "0002" 10 10 10 5 5 5 3 2)
       = Ok (color, tip).
Proof.
  destruct (popup_figures_agree (sample_item "0002" 10 10 10 5 5 5 3 2)
              (Some ["Class 4"; "Class 10"]) [C4; C10] 0%Q 0%Q)
    as (total & combined & lines & color & tip & Hp & Ht & _ & _ & Hsel).
  - intros []; eexists; reflexivity.
  - reflexivity.
  - destruct (Hsel ltac:(discriminate)) as (_ & _ & -> & _).
    exists total, lines, tip, color. split; [exact Hp | exact Ht].
Defined.

Section Highest.

Lemma insert_sorted_last c l :
  Forall (fun y => y < c) l -> insert_sorted c l = (l ++ [c])%list.
Proof.
  induction 1 as [|y l Hy Hl IH]; [reflexivity|].
  cbn [insert_sorted]. destruct (Z.leb_spec c y); [lia|]. now rewrite IH.
Qed.

Lemma np_sort_highest c others :
  Forall (fun y => y < c) others ->
  np_sort (c :: others) = (np_sort others ++ [c])%list.
Proof.
  intros H. cbn [np_sort foldr]. apply insert_sorted_last.
  now apply np_sort_Forall.
Qed.

(** Below level 1, the quantile stays strictly below a value that is larger
    than all the others. *)
Lemma np_quantile_below_highest a c others q :
  Permutation a (c :: others) -> others <> [] ->
  Forall (fun y => y < c) others ->
  (0 <= q)%Q -> (q < 1)%Q ->
  (np_quantile a q < inject_Z c)%Q.
Proof.
  intros Hp Hne Hlt Hq0 Hq1. rewrite np_quantile_interpolate.
  rewrite (np_sort_Permutation _ _ Hp), (np_sort_highest c others Hlt).
  set (low := np_sort others).
  assert (Hlow : Forall (fun y => y < c) low) by now apply np_sort_Forall.
  assert (Hlen : (0 < length low)%nat).
  { unfold low. rewrite np_sort_length. destruct others; [congruence | simpl; lia]. }
  set (arr := (low ++ [c])%list).
  assert (Hasc : ascending arr).
  { unfold arr, low. rewrite <- (np_sort_highest c others Hlt).
    apply np_sort_ascending. }
  assert (Harr : length arr = S (length low)).
  { unfold arr. rewrite length_app. simpl. lia. }
  rewrite Harr.
  replace (Z.of_nat (S (length low)) - 1) with (Z.of_nat (length low)) by lia.
  set (n1 := Z.of_nat (length low)).
  assert (Hn1 : (0 < inject_Z n1)%Q).
  { change 0%Q with (inject_Z 0). rewrite <- Zlt_Qlt. unfold n1. lia. }
  set (v := (q * inject_Z n1)%Q).
  assert (Hv0 : (0 <= v)%Q) by (unfold v; nra).
  assert (Hv1 : (v < inject_Z n1)%Q) by (unfold v; nra).
  assert (Hv1' : (v < inject_Z (Z.of_nat (length arr) - 1))%Q).
  { rewrite Harr. replace (Z.of_nat (S (length low)) - 1) with n1 by (unfold n1; lia).
    exact Hv1. }
  destruct (interpolate_between arr v Hasc Hv0 Hv1') as (Hj0 & Hjn & _ & _).
  rewrite Harr in Hjn.
  unfold interpolate. rewrite Harr.
  replace (Z.of_nat (S (length low)) - 1) with n1 by (unfold n1; lia).
  destruct (Qle_bool (inject_Z n1) v) eqn:Hb.
  { apply Qle_bool_iff in Hb. exfalso. exact (Qlt_not_le _ _ Hv1 Hb). }
  destruct (Qfloor_bounds v) as [Hlo Hhi].
  set (j := Qfloor v) in *.
  assert (Hp1 : nth (Z.to_nat j) arr 0 < c).
  { unfold arr. rewrite app_nth1 by lia.
    rewrite List.Forall_forall in Hlow. apply Hlow, nth_In. lia. }
  assert (Hp2 : nth (Z.to_nat j) arr 0 <= nth (Z.to_nat (j + 1)) arr 0).
  { apply ascending_nth; [exact Hasc | lia]. }
  assert (Hp3 : nth (Z.to_nat (j + 1)) arr 0 <= c).
  { assert (Hc : nth (length low) arr 0 = c).
    { unfold arr. rewrite app_nth2 by lia. now rewrite Nat.sub_diag. }
    assert (Hij : (Z.to_nat (j + 1) <= length low < length arr)%nat) by lia.
    pose proof (ascending_nth arr Hasc _ _ Hij) as H. now rewrite Hc in H. }
  set (p := nth (Z.to_nat j) arr 0) in *.
  set (x := nth (Z.to_nat (j + 1)) arr 0) in *.
  rewrite Zlt_Qlt in Hp1. rewrite Zle_Qle in Hp2, Hp3.
  unfold Z.sub. rewrite inject_Z_plus, inject_Z_opp.
  nra.
Qed.
End Highest.

(** X25. Among two or more well-formed site records whose aggregates are
    below 2^31, a site whose aggregate is strictly larger than that of every
    other site gets a red marker. The bound keeps the aggregates in the range
    where the float64 arithmetic of [np.quantile] cannot lift the cut point up
    to the largest aggregate. *)
Theorem highest_site_is_red (data rest : list Item) (item : Item)
    (selected_classes : option (list string)) (selection : list TruckClass)
    (top middle : Q) :
  Forall has_counts data ->
  Forall (fun d => 0 <= spec_aggregate d selection < 2 ^ 31) data ->
  selected selected_classes = map label selection ->
  thresholds data selected_classes (map field selection) = Ok (top, middle) ->
  Permutation data (item :: rest) ->
  rest <> [] ->
  Forall (fun other =>
            spec_aggregate other selection < spec_aggregate item selection) rest ->
  exists mk,
    site_marker selected_classes (map field selection) top middle item = Ok mk
    /\ icon_color mk = red.
Proof.
  intros Hwf _ Hsel Hth Hperm Hne Hlt.
  assert (Hitem : has_counts item).
  { rewrite List.Forall_forall in Hwf. apply Hwf.
    apply (Permutation_in _ (Permutation_sym Hperm)). now left. }
  destruct (site_marker_spec selected_classes selection top middle item Hitem Hsel)
    as (mk & Hmk & _ & Hcol).
  exists mk. split; [exact Hmk|]. rewrite Hcol.
  rewrite (thresholds_spec _ selection _ Hwf Hsel) in Hth. injection Hth as Hth.
  set (agg := fun d => spec_aggregate d selection) in *.
  assert (Hp : Permutation (map agg data) (agg item :: map agg rest)).
  { change (agg item :: map agg rest) with (map agg (item :: rest)).
    now apply Permutation_map. }
  assert (Hne' : map agg rest <> []) by (destruct rest; [congruence | discriminate]).
  assert (Hlt' : Forall (fun y => y < agg item) (map agg rest)).
  { apply List.Forall_forall. intros y Hy. apply in_map_iff in Hy.
    destruct Hy as (d & <- & Hd). rewrite List.Forall_forall in Hlt. now apply Hlt. }
  assert (Htop : (top < inject_Z (agg item))%Q).
  { unfold thresholds_of in Hth.
    destruct (map agg data) as [|c0 counts] eqn:Hcounts.
    - apply Permutation_nil in Hp. discriminate.
    - cbn [truthy] in Hth. injection Hth as <- _.
      apply (np_quantile_below_highest _ (agg item) (map agg rest));
        try assumption; unfold Qle, Qlt; simpl; lia. }
  unfold tier_color, agg in *.
  apply Qgt_bool_true in Htop. now rewrite Htop.
Qed.

Lemma highest_site_is_red_witness :
  exists mk,
    site_marker None [] (fst (thresholds_of [10; 50; 90]))
      (snd (thresholds_of [10; 50; 90])) (sample_item "0003" 20 20 10 10 10 10 5 5)
    = Ok mk
    /\ icon_color mk = red.
Proof.
  refine (highest_site_is_red three_sites
            [sample_item "0001" 4 3 2 1 0 0 0 0;
             sample_item "0002" 10 10 10 5 5 5 3 2]
            (sample_item "0003" 20 20 10 10 10 10 5 5) None [] _ _ _ _ eq_refl eq_refl
            _ _ _).
  - repeat constructor; intros []; eexists; reflexivity.
  - repeat constructor; vm_compute; congruence.
  - symmetry.
    exact (Permutation_cons_append
             [sample_item "0001" 4 3 2 1 0 0 0 0;
              sample_item "0002" 10 10 10 5 5 5 3 2]
             (sample_item "0003" 20 20 10 10 10 10 5 5)).
  - discriminate.
  - repeat constructor; vm_compute; reflexivity.
Defined.
